(** * FITTRACK: the recommendation rules, the progress series, the dashboard
      day filter, the form handlers and the row policies

    The application is a set of React components over a hosted Postgres
    store.  This development embeds the parts of it that carry logic:

    - [AIRecommendation.analyzeAndRecommend] (components/AIRecommendation),
    - the per-day calorie series of [ProgressCharts.loadProgressData],
    - the date-range filter of [Dashboard.loadDashboardData],
    - the submit and delete handlers of WeightTracking, MealLogging and
      MeasurementTracking,
    - the row-level-security policies of the schema migration,
    - the food search of MealLogging, the bars of ProgressCharts and of
      the dashboard, and the loads of Dashboard, ProgressCharts and
      MealLogging with the profile form (Part III).

    JavaScript numbers are IEEE-754 binary64 values: they are modelled by
    Rocq's primitive floats, whose operations are the same binary64
    operations.  Strings are [string]; [null]/[undefined] are [None]. *)

From Stdlib Require Import ZArith List String Ascii Bool Lia Sorted Permutation.
From Stdlib Require Import Floats Uint63 DecimalString.
Import ListNotations.
Set Warnings "-inexact-float".
Open Scope string_scope.
Open Scope Z_scope.

(* ================================================================== *)
(** * Part I: definitions *)
(* ================================================================== *)

(** ** The JavaScript runtime functions the components call *)

Module JS.

Definition number := float.

(** Decimal digits of a natural number, most significant first. *)
Definition digits (n : N) : string := NilEmpty.string_of_uint (N.to_uint n).

Fixpoint zeros (n : nat) : string :=
  match n with O => "" | S k => String "0" (zeros k) end.

(** The number nearest to an integer (the integer itself below [2^53]). *)
Definition number_of_Z (z : Z) : number :=
  SF2Prim (binary_normalize prec emax z 0 false).

(** [Set.prototype.size] and [Array.prototype.length] are naturals; they
    enter arithmetic as numbers. *)
Definition number_of_nat (n : nat) : number := number_of_Z (Z.of_nat n).

(** *** Number::toString (ECMA-262, 6.1.6.1.20), radix 10

    A finite non-zero double is [m * 2^e] ([Prim2SF]).  Its text is built
    from the shortest decimal [s * 10^(n-k)] that reads back as the same
    double. *)

(** [10^p <= m * 2^e] *)
Definition ge_pow10 (m : positive) (e p : Z) : bool :=
  10 ^ Z.max p 0 * 2 ^ Z.max (- e) 0 <=? Zpos m * 2 ^ Z.max e 0 * 10 ^ Z.max (- p) 0.

Fixpoint settle (fuel : nat) (m : positive) (e E : Z) : Z :=
  match fuel with
  | O => E
  | S f =>
      if negb (ge_pow10 m e E) then settle f m e (E - 1)
      else if ge_pow10 m e (E + 1) then settle f m e (E + 1)
      else E
  end.

(** The [E] with [10^E <= m * 2^e < 10^(E+1)]. *)
Definition decimal_exponent (m : positive) (e : Z) : Z :=
  settle 4 m e ((Z.log2 (Zpos m) + e) * 1233 / 4096).

(** Does the decimal [s * 10^q] round (to nearest, ties to even) to the
    double [m * 2^e]?  Computed in units of [2^(e-2)]. *)
Definition rounds_to (m : positive) (e s q : Z) : bool :=
  let lowgap := if (Zpos m =? 2 ^ 52) && (-1074 <? e) then 1 else 2 in
  let A := s * 10 ^ Z.max q 0 * 2 ^ Z.max (2 - e) 0 in
  let B := 10 ^ Z.max (- q) 0 * 2 ^ Z.max (e - 2) 0 in
  let lo := (4 * Zpos m - lowgap) * B in
  let hi := (4 * Zpos m + 2) * B in
  if Z.even (Zpos m) then (lo <=? A) && (A <=? hi) else (lo <? A) && (A <? hi).

(** The [k]-digit decimal nearest to [m * 2^e], when one reads back. *)
Definition candidate (m : positive) (e E k : Z) : option (Z * Z) :=
  let q := E - k + 1 in
  let NUM := Zpos m * 2 ^ Z.max e 0 * 10 ^ Z.max (- q) 0 in
  let DEN := 2 ^ Z.max (- e) 0 * 10 ^ Z.max q 0 in
  let lo := NUM / DEN in
  let hi := lo + 1 in
  match rounds_to m e lo q, rounds_to m e hi q with
  | true, true =>
      match 2 * NUM ?= (2 * lo + 1) * DEN with
      | Lt => Some (lo, q)
      | Gt => Some (hi, q)
      | Eq => Some (if Z.even lo then lo else hi, q)
      end
  | true, false => Some (lo, q)
  | false, true => Some (hi, q)
  | false, false => None
  end.

Fixpoint shortest_from (fuel : nat) (m : positive) (e E k : Z) : Z * Z :=
  match fuel with
  | O => (Zpos m * 2 ^ Z.max e 0 * 10 ^ Z.max (k - 1 - E) 0
            / (2 ^ Z.max (- e) 0 * 10 ^ Z.max (E - k + 1) 0), E - k + 1)
  | S f =>
      match candidate m e E k with
      | Some r => r
      | None => shortest_from f m e E (k + 1)
      end
  end.

Fixpoint strip_zeros (fuel : nat) (s q : Z) : Z * Z :=
  match fuel with
  | O => (s, q)
  | S f =>
      if (s mod 10 =? 0) && negb (s =? 0) then strip_zeros f (s / 10) (q + 1)
      else (s, q)
  end.

(** The digits of [s] and the exponent [n] of the standard's [n, k, s]. *)
Definition shortest_digits (m : positive) (e : Z) : string * Z :=
  let E := decimal_exponent m e in
  let '(s0, q0) := shortest_from 17 m e E 1 in
  let '(s, q) := strip_zeros 17 s0 q0 in
  let ds := digits (Z.to_N s) in
  (ds, q + Z.of_nat (String.length ds)).

Definition format_decimal (ds : string) (n : Z) : string :=
  let k := Z.of_nat (String.length ds) in
  if (k <=? n) && (n <=? 21) then ds ++ zeros (Z.to_nat (n - k))
  else if (0 <? n) && (n <=? 21) then
    substring 0 (Z.to_nat n) ds ++ "." ++ substring (Z.to_nat n) (Z.to_nat (k - n)) ds
  else if (-6 <? n) && (n <=? 0) then "0." ++ zeros (Z.to_nat (- n)) ++ ds
  else
    let ex := (if n - 1 <? 0 then "-" else "+") ++ digits (Z.to_N (Z.abs (n - 1))) in
    match ds with
    | String d EmptyString => String d "e" ++ ex
    | String d rest => String d "." ++ rest ++ "e" ++ ex
    | EmptyString => "e" ++ ex
    end.

Definition toString_finite (m : positive) (e : Z) : string :=
  let '(ds, n) := shortest_digits m e in format_decimal ds n.

(** What a template literal [`${x}`] makes of a number. *)
Definition Number_toString (x : number) : string :=
  match Prim2SF x with
  | S754_nan => "NaN"
  | S754_zero _ => "0"
  | S754_infinity s => if s then "-Infinity" else "Infinity"
  | S754_finite s m e => (if s then "-" else "") ++ toString_finite m e
  end.

(** *** Number.prototype.toFixed (ECMA-262, 21.1.3.3) *)

Definition fixed_digits (n : N) (fd : nat) : string :=
  let m := digits n in
  match fd with
  | O => m
  | S _ =>
      let m :=
        if (String.length m <=? fd)%nat
        then zeros (fd + 1 - String.length m) ++ m else m in
      let k := String.length m in
      substring 0 (k - fd) m ++ "." ++ substring (k - fd) fd m
  end.

Definition toFixed (x : number) (fd : nat) : string :=
  match Prim2SF x with
  | S754_nan => "NaN"
  | S754_infinity s => if s then "-Infinity" else "Infinity"
  | S754_zero _ => fixed_digits 0 fd
  | S754_finite s m e =>
      (if s then "-" else "") ++
      (if ge_pow10 m e 21 then toString_finite m e
       else
         let NUM := Zpos m * 2 ^ Z.max e 0 * 10 ^ Z.of_nat fd in
         let DEN := 2 ^ Z.max (- e) 0 in
         fixed_digits (Z.to_N ((2 * NUM + DEN) / (2 * DEN))) fd)
  end.

(** *** Math.round, Math.abs

    [Math.round] returns the integer nearest to its argument, the larger
    one at a tie; a result of zero keeps the argument's sign. *)
Definition Math_round (x : number) : number :=
  match Prim2SF x with
  | S754_finite s m e =>
      if 0 <=? e then x
      else
        let v := if s then Zneg m else Zpos m in
        let n := (2 * v + 2 ^ (- e)) / 2 ^ (1 - e) in
        if n =? 0 then (if s then PrimFloat.neg_zero else PrimFloat.zero)
        else number_of_Z n
  | _ => x
  end.

Definition Math_abs (x : number) : number := PrimFloat.abs x.

(** A number is falsy when it is [0], [-0] or [NaN]; [x || 0] replaces a
    falsy [x], and [undefined], by [0]. *)
Definition truthy (x : number) : bool :=
  negb (PrimFloat.eqb x PrimFloat.zero) && negb (PrimFloat.is_nan x).

Definition or_zero (x : option number) : number :=
  match x with
  | Some v => if truthy v then v else PrimFloat.zero
  | None => PrimFloat.zero
  end.

(** [s.split(c)[0]]: the part of [s] before the first [c]. *)
Fixpoint split_head (c : ascii) (s : string) : string :=
  match s with
  | EmptyString => EmptyString
  | String d r => if Ascii.eqb d c then EmptyString else String d (split_head c r)
  end.

(** [Array.prototype.join]. *)
Definition join (sep : string) (parts : list string) : string :=
  String.concat sep parts.

End JS.

(** ** Substrings, and a matcher that decides their absence from templates *)

Module Text.

(** [p] occurs in [s]. *)
Definition contains (p s : string) : Prop := exists a b, s = a ++ p ++ b.

Fixpoint starts_with (p s : string) : bool :=
  match p, s with
  | EmptyString, _ => true
  | String c p', String d s' => Ascii.eqb c d && starts_with p' s'
  | String _ _, EmptyString => false
  end.

(** [String.prototype.includes]. *)
Fixpoint includes (p s : string) : bool :=
  starts_with p s ||
  match s with EmptyString => false | String _ s' => includes p s' end.

Fixpoint all_in (D : list ascii) (s : string) : bool :=
  match s with
  | EmptyString => true
  | String c r => existsb (Ascii.eqb c) D && all_in D r
  end.

(** The characters number formatting can produce: digits, sign, point,
    exponent mark, and the letters of [NaN] and [Infinity]. *)
Definition numeric_alphabet : list ascii :=
  list_ascii_of_string "0123456789-+.eNaInfity".

(** A text with holes: literal pieces and numbers rendered in between. *)
Inductive seg := Lit (s : string) | Hole.

Inductive shaped (D : list ascii) : list seg -> string -> Prop :=
| shaped_nil : shaped D [] ""
| shaped_lit l segs s : shaped D segs s -> shaped D (Lit l :: segs) (l ++ s)
| shaped_hole r segs s :
    all_in D r = true -> shaped D segs s -> shaped D (Hole :: segs) (r ++ s).

(** The matcher follows, for a pattern [p], the set of suffixes of [p]
    that remain to be read by the occurrences begun so far. *)
Definition pending := list string.

Definition feed (c : ascii) (q : string) : list string :=
  match q with
  | String d r => if Ascii.eqb c d then [r] else []
  | EmptyString => []
  end.

Definition advance (p : string) (U : pending) (c : ascii) : pending :=
  p :: flat_map (feed c) U.

Definition accepting (U : pending) : bool := existsb (String.eqb "") U.

Fixpoint scan_lit (p : string) (U : pending) (s : string) : option pending :=
  match s with
  | EmptyString => Some U
  | String c r =>
      let U' := advance p U c in
      if accepting U' then None else scan_lit p U' r
  end.

Definition subset (U V : pending) : bool :=
  forallb (fun q => existsb (String.eqb q) V) U.

Definition closed (p : string) (D : list ascii) (U : pending) : bool :=
  forallb (fun c => subset (advance p U c) U) D.

Definition widen (p : string) (D : list ascii) (U : pending) : pending :=
  nodup string_dec (U ++ flat_map (advance p U) D).

(** Grow [U] until reading a character of [D] no longer leaves it. *)
Fixpoint saturate (fuel : nat) (p : string) (D : list ascii) (U : pending) : pending :=
  match fuel with
  | O => U
  | S f => if closed p D U then U else saturate f p D (widen p D U)
  end.

(** [absent_in p D U segs]: from the pending set [U], no text of shape
    [segs] completes an occurrence of [p]. *)
Fixpoint absent_in (p : string) (D : list ascii) (U : pending) (segs : list seg) : bool :=
  match segs with
  | [] => true
  | Lit l :: rest =>
      match scan_lit p U l with
      | Some U' => absent_in p D U' rest
      | None => false
      end
  | Hole :: rest =>
      let U' := saturate (S (String.length p)) p D U in
      closed p D U' && negb (accepting U') && absent_in p D U' rest
  end.

Definition absent (p : string) (D : list ascii) (segs : list seg) : bool :=
  negb (accepting [p]) && absent_in p D [p] segs.

(** Does the character occur in the string; do two strings share none. *)
Fixpoint occurs (c : ascii) (p : string) : bool :=
  match p with
  | EmptyString => false
  | String d r => Ascii.eqb c d || occurs c r
  end.

Fixpoint apart (sep p : string) : bool :=
  match sep with
  | EmptyString => true
  | String c r => negb (occurs c p) && apart r p
  end.

(** Some occurrence begun earlier, with a suffix in [U] left to read,
    completes at the head of [s]; or [p] occurs in [s]. *)
Definition completes (U : pending) (s : string) : Prop :=
  exists q, In q U /\ starts_with q s = true.

Definition danger (p : string) (U : pending) (s : string) : Prop :=
  completes U s \/ includes p s = true.

End Text.

(** ** The row types of lib/supabase.ts *)

Module Schema.
Import JS.

Inductive GoalType := weight_loss | muscle_gain | maintenance.

Inductive MealCategory := breakfast | lunch | dinner | snack.

Definition goal_eqb (a b : GoalType) : bool :=
  match a, b with
  | weight_loss, weight_loss | muscle_gain, muscle_gain
  | maintenance, maintenance => true
  | _, _ => false
  end.

Module UserProfile.
Record t := {
  id : string;
  name : string;
  goal_type : GoalType;
  daily_calorie_target : number;
  created_at : string;
  updated_at : string }.
End UserProfile.

Module FoodItem.
Record t := {
  id : string;
  name : string;
  calories : number;
  protein : number;
  carbs : number;
  fats : number;
  barcode : option string;
  created_at : string }.
End FoodItem.

Module MealLog.
Record t := {
  id : string;
  user_id : string;
  food_id : string;
  servings : number;
  category : MealCategory;
  logged_at : string;
  created_at : string;
  food_items : option FoodItem.t }.
End MealLog.

Module WeightLog.
Record t := {
  id : string;
  user_id : string;
  weight : number;
  date : string;
  created_at : string }.
End WeightLog.

Module Measurement.
Record t := {
  id : string;
  user_id : string;
  date : string;
  waist : option number;
  chest : option number;
  arms : option number;
  hips : option number;
  thighs : option number;
  created_at : string }.
End Measurement.

Module AIRec.
Record t := {
  id : string;
  user_id : string;
  recommendation_text : string;
  date : string;
  created_at : string }.
End AIRec.

End Schema.

(** ** The client's view of the hosted store, and asynchronous handlers

    A handler runs against a component state and a log of what it did to
    the outside: the requests it sent with their answers, what it wrote
    to the console, which callback props it called. *)

Module Effects.
Import JS Schema.

(** The user of [useAuth]. *)
Record User := { id : string }.

(** The [error] of a supabase-js answer. *)
Record PostgrestError := { message : string; code : string }.

(** The queries the modelled components build. *)
Inductive Request :=
| insert_weight_log (user_id : string) (weight : number) (date : string)
| delete_weight_log (id : string)
| select_weight_logs (user_id : string) (limit : nat)
| insert_meal_log (user_id food_id : string) (servings : number)
    (category : MealCategory) (logged_at : string)
| delete_meal_log (id : string)
| select_meal_logs (user_id since : string) (newest_first : bool)
| insert_measurement (user_id date : string)
    (waist chest arms hips thighs : option number)
| delete_measurement (id : string)
| select_measurements (user_id : string) (limit : nat)
| select_profile (id : string)
| insert_recommendation (user_id recommendation_text date : string)
| select_latest_recommendation (user_id : string).

(** The fields of an answer the components read: [error] of a write,
    [data] of a read. *)
Inductive Response :=
| write_result (error : option PostgrestError)
| weight_rows (data : option (list WeightLog.t))
| meal_rows (data : option (list MealLog.t))
| measurement_rows (data : option (list Measurement.t))
| profile_row (data : option UserProfile.t)
| recommendation_row (data : option AIRec.t).

Inductive Event :=
| sent (request : Request) (answer : Response)
| console_error (label : string) (error : PostgrestError)
| called (callback : string).

(** What lies outside the components: the store's answer to a request
    after a history, the clock, and the engine's [parseFloat]. *)
Record Runtime := {
  backend : list Event -> Request -> Response;
  toISOString : list Event -> string;
  daysAgo_toISOString : nat -> list Event -> string;
  parseFloat : string -> number }.

Inductive Outcome (A : Type) :=
| returned (a : A)
| thrown (e : PostgrestError).
Arguments returned {A} a.
Arguments thrown {A} e.

(** A computation over a component state [S]. *)
Definition M (S A : Type) : Type :=
  S -> list Event -> Outcome A * S * list Event.

Definition ret {S A} (a : A) : M S A := fun s h => (returned a, s, h).

Definition bind {S A B} (c : M S A) (k : A -> M S B) : M S B :=
  fun s h =>
    match c s h with
    | (returned a, s', h') => k a s' h'
    | (thrown e, s', h') => (thrown e, s', h')
    end.

Definition throw {S A} (e : PostgrestError) : M S A := fun s h => (thrown e, s, h).

(** A state setter of [useState]. *)
Definition set {S} (f : S -> S) : M S unit := fun s h => (returned tt, f s, h).

Definition emit {S} (ev : Event) : M S unit :=
  fun s h => (returned tt, s, (h ++ [ev])%list).

(** [await supabase.from(..)...] *)
Definition request {S} (rt : Runtime) (r : Request) : M S Response :=
  fun s h => let a := backend rt h r in (returned a, s, (h ++ [sent r a])%list).

(** [new Date().toISOString()] *)
Definition now {S} (rt : Runtime) : M S string :=
  fun s h => (returned (toISOString rt h), s, h).

Definition daysAgo {S} (rt : Runtime) (n : nat) : M S string :=
  fun s h => (returned (daysAgo_toISOString rt n h), s, h).

(** [try { body } catch (error) { handler }] *)
Definition try_catch {S} (body : M S unit) (handler : PostgrestError -> M S unit) : M S unit :=
  fun s h =>
    match body s h with
    | (returned a, s', h') => (returned a, s', h')
    | (thrown e, s', h') => handler e s' h'
    end.

(** [try { body } finally { finalizer }] *)
Definition finally {S} (body : M S unit) (finalizer : M S unit) : M S unit :=
  fun s h =>
    match body s h with
    | (returned a, s', h') => finalizer s' h'
    | (thrown e, s', h') =>
        match finalizer s' h' with
        | (returned _, s'', h'') => (thrown e, s'', h'')
        | other => other
        end
    end.

(** [if (error) throw error;] *)
Definition throw_if_error {S} (answer : Response) : M S unit :=
  match answer with
  | write_result (Some e) => throw e
  | _ => ret tt
  end.

(** The log a run ends with. *)
Definition log_of {S A} (r : Outcome A * S * list Event) : list Event := snd r.

End Effects.

Declare Scope handler_scope.
Delimit Scope handler_scope with handler.
Notation "x <- c ;; k" := (Effects.bind c (fun x => k))
  (at level 61, c at next level, right associativity) : handler_scope.
Notation "c ;; k" := (Effects.bind c (fun _ => k))
  (at level 61, right associativity) : handler_scope.

(** ** components/WeightTracking *)

Module WeightTracking.
Import JS Schema Effects.
Local Open Scope handler_scope.

Record State := {
  weight : string;
  date : string;
  weightLogs : list WeightLog.t;
  loading : bool }.

Definition setWeight (v : string) : M State unit :=
  set (fun s => {| weight := v; date := date s; weightLogs := weightLogs s; loading := loading s |}).
Definition setDate (v : string) : M State unit :=
  set (fun s => {| weight := weight s; date := v; weightLogs := weightLogs s; loading := loading s |}).
Definition setWeightLogs (v : list WeightLog.t) : M State unit :=
  set (fun s => {| weight := weight s; date := date s; weightLogs := v; loading := loading s |}).
Definition setLoading (v : bool) : M State unit :=
  set (fun s => {| weight := weight s; date := date s; weightLogs := weightLogs s; loading := v |}).

Section Handlers.
Variable rt : Runtime.
Variable user : option User.

Definition loadWeightLogs : M State unit :=
  match user with
  | None => ret tt
  | Some u =>
      answer <- request rt (select_weight_logs (id u) 30) ;;
      match answer with
      | weight_rows (Some data) => setWeightLogs data
      | _ => ret tt
      end
  end.

(** [handleSubmit], called in a render whose state is [st]. *)
Definition handleSubmit (st : State) : M State unit :=
  match user with
  | None => ret tt
  | Some u =>
      setLoading true ;;
      finally
        (try_catch
           (answer <- request rt
              (insert_weight_log (id u) (parseFloat rt (weight st)) (date st)) ;;
            throw_if_error answer ;;
            setWeight "" ;;
            iso <- now rt ;;
            setDate (split_head "T" iso) ;;
            loadWeightLogs)
           (fun error => emit (console_error "Error logging weight:" error)))
        (setLoading false)
  end.

Definition handleDelete (id : string) : M State unit :=
  try_catch
    (answer <- request rt (delete_weight_log id) ;;
     throw_if_error answer ;;
     loadWeightLogs)
    (fun error => emit (console_error "Error deleting weight log:" error)).
End Handlers.

End WeightTracking.

(** ** components/MealLogging *)

Module MealLogging.
Import JS Schema Effects.
Local Open Scope handler_scope.

Record State := {
  foods : list FoodItem.t;
  filteredFoods : list FoodItem.t;
  searchTerm : string;
  selectedFood : option FoodItem.t;
  servings : number;
  category : MealCategory;
  mealLogs : list MealLog.t;
  loading : bool }.

Definition setSelectedFood (v : option FoodItem.t) : M State unit :=
  set (fun s => {| foods := foods s; filteredFoods := filteredFoods s;
                   searchTerm := searchTerm s; selectedFood := v;
                   servings := servings s; category := category s;
                   mealLogs := mealLogs s; loading := loading s |}).
Definition setServings (v : number) : M State unit :=
  set (fun s => {| foods := foods s; filteredFoods := filteredFoods s;
                   searchTerm := searchTerm s; selectedFood := selectedFood s;
                   servings := v; category := category s;
                   mealLogs := mealLogs s; loading := loading s |}).
Definition setSearchTerm (v : string) : M State unit :=
  set (fun s => {| foods := foods s; filteredFoods := filteredFoods s;
                   searchTerm := v; selectedFood := selectedFood s;
                   servings := servings s; category := category s;
                   mealLogs := mealLogs s; loading := loading s |}).
Definition setMealLogs (v : list MealLog.t) : M State unit :=
  set (fun s => {| foods := foods s; filteredFoods := filteredFoods s;
                   searchTerm := searchTerm s; selectedFood := selectedFood s;
                   servings := servings s; category := category s;
                   mealLogs := v; loading := loading s |}).
Definition setLoading (v : bool) : M State unit :=
  set (fun s => {| foods := foods s; filteredFoods := filteredFoods s;
                   searchTerm := searchTerm s; selectedFood := selectedFood s;
                   servings := servings s; category := category s;
                   mealLogs := mealLogs s; loading := v |}).

Section Handlers.
Variable rt : Runtime.
Variable user : option User.

Definition loadMealLogs : M State unit :=
  match user with
  | None => ret tt
  | Some u =>
      iso <- now rt ;;
      answer <- request rt (select_meal_logs (id u) (split_head "T" iso) true) ;;
      match answer with
      | meal_rows (Some data) => setMealLogs data
      | _ => ret tt
      end
  end.

(** [handleLogMeal], called in a render whose state is [st]. *)
Definition handleLogMeal (st : State) : M State unit :=
  match user, selectedFood st with
  | Some u, Some food =>
      setLoading true ;;
      finally
        (try_catch
           (iso <- now rt ;;
            answer <- request rt
              (insert_meal_log (id u) (FoodItem.id food) (servings st) (category st) iso) ;;
            throw_if_error answer ;;
            setSelectedFood None ;;
            setServings 1%float ;;
            setSearchTerm "" ;;
            loadMealLogs ;;
            emit (called "onMealLogged"))
           (fun error => emit (console_error "Error logging meal:" error)))
        (setLoading false)
  | _, _ => ret tt
  end.

Definition handleDeleteMeal (id : string) : M State unit :=
  try_catch
    (answer <- request rt (delete_meal_log id) ;;
     throw_if_error answer ;;
     loadMealLogs ;;
     emit (called "onMealLogged"))
    (fun error => emit (console_error "Error deleting meal:" error)).
End Handlers.

End MealLogging.

(** ** components/MeasurementTracking *)

Module MeasurementTracking.
Import JS Schema Effects.
Local Open Scope handler_scope.

Record FormData := {
  date : string;
  waist : string;
  chest : string;
  arms : string;
  hips : string;
  thighs : string }.

Record State := {
  measurements : list Measurement.t;
  loading : bool;
  formData : FormData }.

Definition setMeasurements (v : list Measurement.t) : M State unit :=
  set (fun s => {| measurements := v; loading := loading s; formData := formData s |}).
Definition setLoading (v : bool) : M State unit :=
  set (fun s => {| measurements := measurements s; loading := v; formData := formData s |}).
Definition setFormData (v : FormData) : M State unit :=
  set (fun s => {| measurements := measurements s; loading := loading s; formData := v |}).

Section Handlers.
Variable rt : Runtime.
Variable user : option User.

(** [field ? parseFloat(field) : null]; the empty string is falsy. *)
Definition parsed (field : string) : option number :=
  match field with
  | EmptyString => None
  | _ => Some (parseFloat rt field)
  end.

Definition loadMeasurements : M State unit :=
  match user with
  | None => ret tt
  | Some u =>
      answer <- request rt (select_measurements (id u) 30) ;;
      match answer with
      | measurement_rows (Some data) => setMeasurements data
      | _ => ret tt
      end
  end.

(** [handleSubmit], called in a render whose state is [st]. *)
Definition handleSubmit (st : State) : M State unit :=
  match user with
  | None => ret tt
  | Some u =>
      setLoading true ;;
      finally
        (try_catch
           (answer <- request rt
              (insert_measurement (id u) (date (formData st))
                 (parsed (waist (formData st))) (parsed (chest (formData st)))
                 (parsed (arms (formData st))) (parsed (hips (formData st)))
                 (parsed (thighs (formData st)))) ;;
            throw_if_error answer ;;
            iso <- now rt ;;
            setFormData {| date := split_head "T" iso; waist := ""; chest := "";
                           arms := ""; hips := ""; thighs := "" |} ;;
            loadMeasurements)
           (fun error => emit (console_error "Error logging measurements:" error)))
        (setLoading false)
  end.

Definition handleDelete (id : string) : M State unit :=
  try_catch
    (answer <- request rt (delete_measurement id) ;;
     throw_if_error answer ;;
     loadMeasurements)
    (fun error => emit (console_error "Error deleting measurement:" error)).
End Handlers.

End MeasurementTracking.

(** ** components/AIRecommendation: [analyzeAndRecommend] *)

Module AIRecommendation.
Import JS Schema.
Local Open Scope float_scope.

Definition newline : string := String "010" EmptyString.

(** The separator of [recommendations.join('\n\n')]. *)
Definition blank_line : string := (newline ++ newline)%string.

(** The accumulators of the [meals.forEach] pass. *)
Record Totals := {
  totalCalories : number;
  totalProtein : number;
  totalCarbs : number;
  totalFats : number;
  daysLogged : list string }.

Definition no_totals : Totals :=
  {| totalCalories := 0; totalProtein := 0; totalCarbs := 0; totalFats := 0;
     daysLogged := [] |}.

(** [Set.prototype.add] on a set kept in insertion order. *)
Definition Set_add (d : string) (s : list string) : list string :=
  if existsb (String.eqb d) s then s else (s ++ [d])%list.

Definition tally (acc : Totals) (meal : MealLog.t) : Totals :=
  match MealLog.food_items meal with
  | Some food =>
      {| totalCalories := totalCalories acc + FoodItem.calories food * MealLog.servings meal;
         totalProtein := totalProtein acc + FoodItem.protein food * MealLog.servings meal;
         totalCarbs := totalCarbs acc + FoodItem.carbs food * MealLog.servings meal;
         totalFats := totalFats acc + FoodItem.fats food * MealLog.servings meal;
         daysLogged := Set_add (split_head "T" (MealLog.logged_at meal)) (daysLogged acc) |}
  | None => acc
  end.

Definition totals (meals : list MealLog.t) : Totals := fold_left tally meals no_totals.

(** The meals the pass counts: those with a joined food item; and the
    meals that put the date [d] in [daysLogged]. *)
Definition has_food (meal : MealLog.t) : bool :=
  match MealLog.food_items meal with Some _ => true | None => false end.

Definition logged_on (d : string) (meal : MealLog.t) : Prop :=
  has_food meal = true /\ split_head "T" (MealLog.logged_at meal) = d.

(** [Math.max(daysLogged.size, 1)] *)
Definition divisor (t : Totals) : nat := Nat.max (List.length (daysLogged t)) 1.

Definition avgDailyCalories (meals : list MealLog.t) : number :=
  totalCalories (totals meals) / number_of_nat (divisor (totals meals)).

Definition avgProtein (meals : list MealLog.t) : number :=
  totalProtein (totals meals) / number_of_nat (divisor (totals meals)).

(** The texts pushed on [recommendations]. *)

Definition msg_no_profile : string :=
  "Complete your profile to get personalized recommendations.".

Definition msg_start_logging : string :=
  "Start logging your meals to track your calorie and macro intake.".

Definition msg_below (avg target : number) : string :=
  ("Your average daily intake (" ++ Number_toString (Math_round avg)
   ++ " cal) is below your target (" ++ Number_toString target
   ++ " cal). Consider adding nutrient-dense snacks.")%string.

Definition msg_exceeds (avg target : number) : string :=
  ("Your average daily intake (" ++ Number_toString (Math_round avg)
   ++ " cal) exceeds your target (" ++ Number_toString target
   ++ " cal). Focus on portion control and choose lower-calorie options.")%string.

Definition msg_aligned (avg : number) : string :=
  ("Great job! Your calorie intake (" ++ Number_toString (Math_round avg)
   ++ " cal) is aligned with your target.")%string.

Definition msg_protein : string :=
  "For muscle gain, increase your protein intake. Aim for lean meats, fish, eggs, and legumes.".

Definition msg_weight_increased (weightChange : number) : string :=
  ("Your weight increased by " ++ toFixed weightChange 1
   ++ " kg. Review your calorie deficit and increase physical activity.")%string.

Definition msg_weight_decreased (weightChange : number) : string :=
  ("Your weight decreased by " ++ toFixed (Math_abs weightChange) 1
   ++ " kg. Increase calorie intake and focus on protein-rich foods.")%string.

Definition msg_weight_lost (weightChange : number) : string :=
  ("Excellent progress! You've lost " ++ toFixed (Math_abs weightChange) 1
   ++ " kg. Keep up the good work!")%string.

Definition msg_log_weight : string :=
  "Log your weight regularly to track progress and adjust your plan accordingly.".

Definition tip_weight_loss : string :=
  "Tip: Focus on whole foods, increase fiber intake, and stay hydrated. Aim for consistent calorie deficit.".

Definition tip_muscle_gain : string :=
  "Tip: Prioritize protein intake (1.6-2.2g per kg body weight), progressive resistance training, and adequate rest.".

Definition tip_maintenance : string :=
  "Tip: Maintain balanced macros, stay active, and monitor your weight to ensure you remain at maintenance.".

(** The first [if]/[else]: the meal rules. *)
Definition mealAdvice (profile : UserProfile.t) (meals : option (list MealLog.t)) : list string :=
  match meals with
  | None | Some [] => [msg_start_logging]
  | Some meals =>
      let avg := avgDailyCalories meals in
      let targetCalories := UserProfile.daily_calorie_target profile in
      ((if avg <? targetCalories * 0.8 then [msg_below avg targetCalories]
        else if targetCalories * 1.2 <? avg then [msg_exceeds avg targetCalories]
        else [msg_aligned avg])
       ++
       (if (avgProtein meals <? 50) && goal_eqb (UserProfile.goal_type profile) muscle_gain
        then [msg_protein] else []))%list
  end.

(** The second [if]/[else]: the weight rules, newest entry first. *)
Definition weightAdvice (profile : UserProfile.t) (weights : option (list WeightLog.t)) : list string :=
  match weights with
  | Some (w0 :: w1 :: _) =>
      let weightChange := WeightLog.weight w0 - WeightLog.weight w1 in
      if goal_eqb (UserProfile.goal_type profile) weight_loss && (0 <? weightChange)
      then [msg_weight_increased weightChange]
      else if goal_eqb (UserProfile.goal_type profile) muscle_gain && (weightChange <? 0)
      then [msg_weight_decreased weightChange]
      else if (weightChange <? 0) && goal_eqb (UserProfile.goal_type profile) weight_loss
      then [msg_weight_lost weightChange]
      else []
  | _ => [msg_log_weight]
  end.

(** The third [if]/[else]: the closing tip. *)
Definition goalTip (profile : UserProfile.t) : list string :=
  if goal_eqb (UserProfile.goal_type profile) weight_loss then [tip_weight_loss]
  else if goal_eqb (UserProfile.goal_type profile) muscle_gain then [tip_muscle_gain]
  else [tip_maintenance].

(** The array [recommendations] when the function reaches its [return]. *)
Definition recommendations (profile : UserProfile.t)
    (meals : option (list MealLog.t)) (weights : option (list WeightLog.t)) : list string :=
  (mealAdvice profile meals ++ weightAdvice profile weights ++ goalTip profile)%list.

Definition analyzeAndRecommend (profile : option UserProfile.t)
    (meals : option (list MealLog.t)) (weights : option (list WeightLog.t)) : string :=
  match profile with
  | None => msg_no_profile
  | Some profile => join blank_line (recommendations profile meals weights)
  end.

(** The component around it: state, and [generateRecommendation]. *)

Import Effects.
Local Open Scope handler_scope.

Record State := { recommendation : option AIRec.t; loading : bool }.

Definition setRecommendation (v : option AIRec.t) : M State unit :=
  set (fun s => {| recommendation := v; loading := loading s |}).
Definition setLoading (v : bool) : M State unit :=
  set (fun s => {| recommendation := recommendation s; loading := v |}).

Definition profile_of (answer : Response) : option UserProfile.t :=
  match answer with profile_row data => data | _ => None end.
Definition meals_of (answer : Response) : option (list MealLog.t) :=
  match answer with meal_rows data => data | _ => None end.
Definition weights_of (answer : Response) : option (list WeightLog.t) :=
  match answer with weight_rows data => data | _ => None end.

Section Handlers.
Variable rt : Runtime.
Variable user : option User.

Definition loadLatestRecommendation : M State unit :=
  match user with
  | None => ret tt
  | Some u =>
      answer <- request rt (select_latest_recommendation (id u)) ;;
      match answer with
      | recommendation_row (Some data) => setRecommendation (Some data)
      | _ => ret tt
      end
  end.

Definition generateRecommendation : M State unit :=
  match user with
  | None => ret tt
  | Some u =>
      setLoading true ;;
      finally
        (try_catch
           (profile <- request rt (select_profile (id u)) ;;
            sevenDaysAgo <- daysAgo rt 7 ;;
            meals <- request rt (select_meal_logs (id u) sevenDaysAgo false) ;;
            weights <- request rt (select_weight_logs (id u) 2) ;;
            let recommendationText :=
              analyzeAndRecommend (profile_of profile) (meals_of meals) (weights_of weights) in
            iso <- now rt ;;
            answer <- request rt
              (insert_recommendation (id u) recommendationText (split_head "T" iso)) ;;
            throw_if_error answer ;;
            loadLatestRecommendation ;;
            emit (called "onRecommendationGenerated"))
           (fun error => emit (console_error "Error generating recommendation:" error)))
        (setLoading false)
  end.
End Handlers.

(** What a run of [generateRecommendation] read for the three arguments,
    and the texts it sent to [ai_recommendations]. *)
Definition profiles_read (log : list Event) : list (option UserProfile.t) :=
  flat_map (fun ev => match ev with
                      | sent (select_profile _) a => [profile_of a]
                      | _ => []
                      end) log.

Definition meals_read (log : list Event) : list (option (list MealLog.t)) :=
  flat_map (fun ev => match ev with
                      | sent (select_meal_logs _ _ _) a => [meals_of a]
                      | _ => []
                      end) log.

Definition weights_read (log : list Event) : list (option (list WeightLog.t)) :=
  flat_map (fun ev => match ev with
                      | sent (select_weight_logs _ _) a => [weights_of a]
                      | _ => []
                      end) log.

Definition texts_written (log : list Event) : list string :=
  flat_map (fun ev => match ev with
                      | sent (insert_recommendation _ text _) _ => [text]
                      | _ => []
                      end) log.

End AIRecommendation.

(** ** The message templates of [analyzeAndRecommend], by kind *)

Module Templates.
Import JS Schema Text AIRecommendation.
Local Open Scope float_scope.

Inductive Kind :=
| start_logging | below | exceeds | aligned | protein
| weight_increased | weight_decreased | weight_lost | log_weight
| tip_loss | tip_gain | tip_maintain.

(** [is_kind k m]: the text [m] is the template [k] filled with numbers. *)
Inductive is_kind : Kind -> string -> Prop :=
| is_start_logging : is_kind start_logging msg_start_logging
| is_below avg target : is_kind below (msg_below avg target)
| is_exceeds avg target : is_kind exceeds (msg_exceeds avg target)
| is_aligned avg : is_kind aligned (msg_aligned avg)
| is_protein : is_kind protein msg_protein
| is_weight_increased d : is_kind weight_increased (msg_weight_increased d)
| is_weight_decreased d : is_kind weight_decreased (msg_weight_decreased d)
| is_weight_lost d : is_kind weight_lost (msg_weight_lost d)
| is_log_weight : is_kind log_weight msg_log_weight
| is_tip_loss : is_kind tip_loss tip_weight_loss
| is_tip_gain : is_kind tip_gain tip_muscle_gain
| is_tip_maintain : is_kind tip_maintain tip_maintenance.

(** A recommendation text carries a message of kind [k]. *)
Definition mentions (k : Kind) (text : string) : Prop :=
  exists m, is_kind k m /\ contains m text.

(** The literal pieces of each template, with holes for the numbers. *)
Definition shape (k : Kind) : list seg :=
  match k with
  | start_logging => [Lit msg_start_logging]
  | below =>
      [Lit "Your average daily intake ("; Hole; Lit " cal) is below your target (";
       Hole; Lit " cal). Consider adding nutrient-dense snacks."]
  | exceeds =>
      [Lit "Your average daily intake ("; Hole; Lit " cal) exceeds your target (";
       Hole; Lit " cal). Focus on portion control and choose lower-calorie options."]
  | aligned =>
      [Lit "Great job! Your calorie intake ("; Hole;
       Lit " cal) is aligned with your target."]
  | protein => [Lit msg_protein]
  | weight_increased =>
      [Lit "Your weight increased by "; Hole;
       Lit " kg. Review your calorie deficit and increase physical activity."]
  | weight_decreased =>
      [Lit "Your weight decreased by "; Hole;
       Lit " kg. Increase calorie intake and focus on protein-rich foods."]
  | weight_lost =>
      [Lit "Excellent progress! You've lost "; Hole;
       Lit " kg. Keep up the good work!"]
  | log_weight => [Lit msg_log_weight]
  | tip_loss => [Lit tip_weight_loss]
  | tip_gain => [Lit tip_muscle_gain]
  | tip_maintain => [Lit tip_maintenance]
  end.

(** A literal piece found in the messages of one kind only. *)
Definition marker (k : Kind) : string :=
  match k with
  | start_logging => "Start logging your meals"
  | below => " cal) is below your target ("
  | exceeds => " cal) exceeds your target ("
  | aligned => " cal) is aligned with your target."
  | protein => "For muscle gain, increase your protein intake."
  | weight_increased => "Your weight increased by "
  | weight_decreased => "Your weight decreased by "
  | weight_lost => "Excellent progress! You've lost "
  | log_weight => "Log your weight regularly"
  | tip_loss => "Tip: Focus on whole foods"
  | tip_gain => "Tip: Prioritize protein intake"
  | tip_maintain => "Tip: Maintain balanced macros"
  end.

Definition kind_eqb (a b : Kind) : bool :=
  match a, b with
  | start_logging, start_logging | below, below | exceeds, exceeds
  | aligned, aligned | protein, protein
  | weight_increased, weight_increased | weight_decreased, weight_decreased
  | weight_lost, weight_lost | log_weight, log_weight
  | tip_loss, tip_loss | tip_gain, tip_gain | tip_maintain, tip_maintain => true
  | _, _ => false
  end.

Definition all_kinds : list Kind :=
  [start_logging; below; exceeds; aligned; protein; weight_increased;
   weight_decreased; weight_lost; log_weight; tip_loss; tip_gain; tip_maintain].

(** The rules as a table: when does the function push a message of kind
    [k]?  Each entry is the path condition of the [push] in the source. *)
Definition fires (profile : UserProfile.t) (meals : option (list MealLog.t))
    (weights : option (list WeightLog.t)) (k : Kind) : bool :=
  let goal := UserProfile.goal_type profile in
  let target := UserProfile.daily_calorie_target profile in
  let on_meals (rule : list MealLog.t -> bool) :=
    match meals with
    | None | Some [] => false
    | Some ms => rule ms
    end in
  let on_change (rule : number -> bool) :=
    match weights with
    | Some (w0 :: w1 :: _) => rule (WeightLog.weight w0 - WeightLog.weight w1)
    | _ => false
    end in
  match k with
  | start_logging => match meals with None | Some [] => true | _ => false end
  | below => on_meals (fun ms => avgDailyCalories ms <? target * 0.8)
  | exceeds =>
      on_meals (fun ms => negb (avgDailyCalories ms <? target * 0.8)
                          && (target * 1.2 <? avgDailyCalories ms))
  | aligned =>
      on_meals (fun ms => negb (avgDailyCalories ms <? target * 0.8)
                          && negb (target * 1.2 <? avgDailyCalories ms))
  | protein => on_meals (fun ms => (avgProtein ms <? 50) && goal_eqb goal muscle_gain)
  | weight_increased => on_change (fun d => goal_eqb goal weight_loss && (0 <? d))
  | weight_decreased =>
      on_change (fun d => negb (goal_eqb goal weight_loss && (0 <? d))
                          && (goal_eqb goal muscle_gain && (d <? 0)))
  | weight_lost =>
      on_change (fun d => negb (goal_eqb goal weight_loss && (0 <? d))
                          && negb (goal_eqb goal muscle_gain && (d <? 0))
                          && ((d <? 0) && goal_eqb goal weight_loss))
  | log_weight => match weights with Some (_ :: _ :: _) => false | _ => true end
  | tip_loss => goal_eqb goal weight_loss
  | tip_gain => negb (goal_eqb goal weight_loss) && goal_eqb goal muscle_gain
  | tip_maintain => negb (goal_eqb goal weight_loss) && negb (goal_eqb goal muscle_gain)
  end.

(** The values the numbered templates are filled with. *)
Definition the_meals (meals : option (list MealLog.t)) : list MealLog.t :=
  match meals with Some ms => ms | None => [] end.

Definition weightChange (weights : option (list WeightLog.t)) : number :=
  match weights with
  | Some (w0 :: w1 :: _) => WeightLog.weight w0 - WeightLog.weight w1
  | _ => 0
  end.

(** The message of kind [k] the function pushes for these arguments. *)
Definition message (profile : UserProfile.t) (meals : option (list MealLog.t))
    (weights : option (list WeightLog.t)) (k : Kind) : string :=
  let avg := avgDailyCalories (the_meals meals) in
  let target := UserProfile.daily_calorie_target profile in
  match k with
  | start_logging => msg_start_logging
  | below => msg_below avg target
  | exceeds => msg_exceeds avg target
  | aligned => msg_aligned avg
  | protein => msg_protein
  | weight_increased => msg_weight_increased (weightChange weights)
  | weight_decreased => msg_weight_decreased (weightChange weights)
  | weight_lost => msg_weight_lost (weightChange weights)
  | log_weight => msg_log_weight
  | tip_loss => tip_weight_loss
  | tip_gain => tip_muscle_gain
  | tip_maintain => tip_maintenance
  end.

End Templates.

(** ** components/ProgressCharts: the per-day calorie series *)

Module ProgressCharts.
Import JS Schema.
Local Open Scope float_scope.

(** [Map<string, number>]: the entries in insertion order. *)
Definition Map := list (string * number).

Fixpoint Map_get (k : string) (m : Map) : option number :=
  match m with
  | [] => None
  | (k', v) :: r => if String.eqb k k' then Some v else Map_get k r
  end.

(** [Map.prototype.set]: a present key keeps its place. *)
Fixpoint Map_set (k : string) (v : number) (m : Map) : Map :=
  match m with
  | [] => [(k, v)]
  | (k', v') :: r =>
      if String.eqb k k' then (k, v) :: r else (k', v') :: Map_set k v r
  end.

Definition dateOf (meal : MealLog.t) : string :=
  split_head "T" (MealLog.logged_at meal).

Definition mealCalories (meal : MealLog.t) : number :=
  match MealLog.food_items meal with
  | Some food => FoodItem.calories food * MealLog.servings meal
  | None => 0
  end.

(** The body of [meals.forEach]. *)
Definition addMeal (caloriesByDay : Map) (meal : MealLog.t) : Map :=
  let date := dateOf meal in
  let calories := mealCalories meal in
  Map_set date (or_zero (Map_get date caloriesByDay) + calories) caloriesByDay.

Definition caloriesByDay (meals : list MealLog.t) : Map := fold_left addMeal meals [].

Record DayCalories := { date : string; calories : number }.

(** [Array.prototype.sort] is stable; with a consistent comparator its
    result is the one of any stable sort, here insertion sort. *)
Section Sort.
Context {A : Type} (compareFn : A -> A -> comparison).

Fixpoint insert (x : A) (l : list A) : list A :=
  match l with
  | [] => [x]
  | y :: r =>
      match compareFn x y with
      | Gt => y :: insert x r
      | _ => x :: l
      end
  end.

Fixpoint sort (l : list A) : list A :=
  match l with
  | [] => []
  | x :: r => insert x (sort r)
  end.

(** [a] may come before [b]. *)
Definition ascending (a b : A) : Prop := compareFn a b <> Gt.
End Sort.

(** [calorieData], given the collation [localeCompare] of the engine. *)
Definition calorieData (localeCompare : string -> string -> comparison)
    (meals : list MealLog.t) : list DayCalories :=
  sort (fun a b => localeCompare (date a) (date b))
       (map (fun entry => {| date := fst entry; calories := Math_round (snd entry) |})
            (caloriesByDay meals)).

(** The words of the specification: the calorie terms of one date, in
    list order, and their sum. *)
Definition dayTerms (d : string) (meals : list MealLog.t) : list number :=
  map mealCalories (filter (fun meal => String.eqb (dateOf meal) d) meals).

Definition sum (terms : list number) : number := fold_left PrimFloat.add terms 0.

(** What the running map holds for a date: each step adds to [total || 0]. *)
Definition step (total : option number) (c : number) : option number :=
  Some (or_zero total + c).

Definition runningTotal (terms : list number) : option number :=
  fold_left step terms None.

(** The keys of the map, in insertion order. *)
Definition keys (m : Map) : list string := map fst m.


(** [t || 0] is [t]: the number is neither [NaN] nor a zero other
    than [0]. *)
Definition kept (t : number) : Prop := or_zero (Some t) = t.

(** The running totals that a later meal of the date is added to. *)
Fixpoint earlierTotals (total : option number) (terms : list number) : list number :=
  match terms with
  | [] => []
  | c :: r =>
      match r with
      | [] => []
      | _ :: _ => (or_zero total + c) :: earlierTotals (Some (or_zero total + c)) r
      end
  end.

End ProgressCharts.

(** ** components/Dashboard: today's aggregation *)

Module Dashboard.
Import JS Schema.
Local Open Scope float_scope.

(** A [timestamptz] value as the store compares it: the calendar day and
    the microseconds since that day's midnight. *)
Record Timestamptz := { day : Z; microsecond : Z }.

Definition microseconds_per_day : Z := 86400 * 1000000.

Definition well_formed (t : Timestamptz) : Prop :=
  (0 <= microsecond t < microseconds_per_day)%Z.

Definition ts_ltb (a b : Timestamptz) : bool :=
  ((day a <? day b) || ((day a =? day b) && (microsecond a <? microsecond b)))%Z.

Definition ts_leb (a b : Timestamptz) : bool := negb (ts_ltb b a).

(** The literal [today], a date, read as a timestamp. *)
Definition start_of (today : Z) : Timestamptz := {| day := today; microsecond := 0 |}.

(** The literal [`${today}T23:59:59`]. *)
Definition T23_59_59 (today : Z) : Timestamptz :=
  {| day := today; microsecond := ((23 * 3600 + 59 * 60 + 59) * 1000000)%Z |}.

(** A row of [meal_logs]: the stored [logged_at] and the object the client
    receives for the row. *)
Record StoredMeal := { logged_at : Timestamptz; row : MealLog.t }.

(** [.eq('user_id', user.id).gte('logged_at', today).lt('logged_at', `${today}T23:59:59`)] *)
Definition selected (user_id : string) (today : Z) (m : StoredMeal) : bool :=
  String.eqb (MealLog.user_id (row m)) user_id
  && ts_leb (start_of today) (logged_at m)
  && ts_ltb (logged_at m) (T23_59_59 today).

Definition mealsData (user_id : string) (today : Z) (meal_logs : list StoredMeal) : list MealLog.t :=
  map row (filter (selected user_id today) meal_logs).

(** The query of MealLogging.loadMealLogs, which fills "Today's Meals":
    [.eq('user_id', user.id).gte('logged_at', today)], newest first. *)
Definition listed (user_id : string) (today : Z) (m : StoredMeal) : bool :=
  String.eqb (MealLog.user_id (row m)) user_id
  && ts_leb (start_of today) (logged_at m).

Record Sums := { calories : number; protein : number; carbs : number; fats : number }.

Definition addMeal (acc : Sums) (meal : MealLog.t) : Sums :=
  match MealLog.food_items meal with
  | Some food =>
      {| calories := calories acc + FoodItem.calories food * MealLog.servings meal;
         protein := protein acc + FoodItem.protein food * MealLog.servings meal;
         carbs := carbs acc + FoodItem.carbs food * MealLog.servings meal;
         fats := fats acc + FoodItem.fats food * MealLog.servings meal |}
  | None => acc
  end.

(** The values given to [setTodayCalories] and [setTodayMacros]. *)
Definition todayTotals (meals : list MealLog.t) : Sums :=
  let s := fold_left addMeal meals
             {| calories := 0; protein := 0; carbs := 0; fats := 0 |} in
  {| calories := Math_round (calories s); protein := Math_round (protein s);
     carbs := Math_round (carbs s); fats := Math_round (fats s) |}.

Definition todayCalories (user_id : string) (today : Z) (meal_logs : list StoredMeal) : number :=
  calories (todayTotals (mealsData user_id today meal_logs)).

(** The meals of the calendar day [today]. *)
Definition on_day (today : Z) (m : StoredMeal) : Prop :=
  day (logged_at m) = today /\ well_formed (logged_at m).

End Dashboard.

(** ** supabase/migrations: tables and row-level-security policies

    Rows are column/value lists.  Every table has row-level security
    enabled and all policies are permissive and granted to the role
    [authenticated]; PostgreSQL then lets a command touch a row when one
    policy of that command accepts it, and none when there is no policy. *)

Module RLS.

Inductive Table :=
| users_profiles | food_items | meal_logs | weight_logs | measurements
| ai_recommendations.

Inductive Command := SELECT | INSERT | UPDATE | DELETE.

(** The policy expressions of the migration: [auth.uid() = column], [true]. *)
Inductive Expr :=
| auth_uid_equals (column : string)
| always.

Record Policy := {
  name : string;
  table : Table;
  command : Command;
  using_ : option Expr;
  with_check : option Expr }.

Definition policy (n : string) (t : Table) (c : Command)
    (u w : option Expr) : Policy :=
  {| name := n; table := t; command := c; using_ := u; with_check := w |}.

Definition own (column : string) : option Expr := Some (auth_uid_equals column).

Definition policies : list Policy := [
  policy "Users can view own profile" users_profiles SELECT (own "id") None;
  policy "Users can insert own profile" users_profiles INSERT None (own "id");
  policy "Users can update own profile" users_profiles UPDATE (own "id") (own "id");
  policy "Anyone can view food items" food_items SELECT (Some always) None;
  policy "Authenticated users can add food items" food_items INSERT None (Some always);
  policy "Users can view own meal logs" meal_logs SELECT (own "user_id") None;
  policy "Users can insert own meal logs" meal_logs INSERT None (own "user_id");
  policy "Users can update own meal logs" meal_logs UPDATE (own "user_id") (own "user_id");
  policy "Users can delete own meal logs" meal_logs DELETE (own "user_id") None;
  policy "Users can view own weight logs" weight_logs SELECT (own "user_id") None;
  policy "Users can insert own weight logs" weight_logs INSERT None (own "user_id");
  policy "Users can update own weight logs" weight_logs UPDATE (own "user_id") (own "user_id");
  policy "Users can delete own weight logs" weight_logs DELETE (own "user_id") None;
  policy "Users can view own measurements" measurements SELECT (own "user_id") None;
  policy "Users can insert own measurements" measurements INSERT None (own "user_id");
  policy "Users can update own measurements" measurements UPDATE (own "user_id") (own "user_id");
  policy "Users can delete own measurements" measurements DELETE (own "user_id") None;
  policy "Users can view own recommendations" ai_recommendations SELECT (own "user_id") None;
  policy "Users can insert recommendations" ai_recommendations INSERT None (own "user_id")
].

Definition Row := list (string * string).

Fixpoint column (c : string) (r : Row) : option string :=
  match r with
  | [] => None
  | (k, v) :: rest => if String.eqb c k then Some v else column c rest
  end.

(** Who sends a command: the role of the session and [auth.uid()]. *)
Inductive Caller :=
| anon
| authenticated (uid : string).

Definition table_eqb (a b : Table) : bool :=
  match a, b with
  | users_profiles, users_profiles | food_items, food_items
  | meal_logs, meal_logs | weight_logs, weight_logs
  | measurements, measurements | ai_recommendations, ai_recommendations => true
  | _, _ => false
  end.

Definition command_eqb (a b : Command) : bool :=
  match a, b with
  | SELECT, SELECT | INSERT, INSERT | UPDATE, UPDATE | DELETE, DELETE => true
  | _, _ => false
  end.

(** An expression holds when it evaluates to true; a comparison with a
    missing (NULL) value does not. *)
Definition holds (uid : string) (e : Expr) (r : Row) : bool :=
  match e with
  | always => true
  | auth_uid_equals c =>
      match column c r with
      | Some v => String.eqb uid v
      | None => false
      end
  end.

Definition applicable (t : Table) (c : Command) : list Policy :=
  filter (fun p => table_eqb (table p) t && command_eqb (command p) c) policies.

(** May the caller read row [r] of [t]: some policy's USING holds. *)
Definition visible (who : Caller) (t : Table) (c : Command) (r : Row) : bool :=
  match who with
  | anon => false
  | authenticated uid =>
      existsb (fun p => match using_ p with
                        | Some e => holds uid e r
                        | None => false
                        end) (applicable t c)
  end.

(** May the caller add row [r] to [t]: some policy's WITH CHECK holds. *)
Definition admitted (who : Caller) (t : Table) (r : Row) : bool :=
  match who with
  | anon => false
  | authenticated uid =>
      existsb (fun p => match with_check p with
                        | Some e => holds uid e r
                        | None => false
                        end) (applicable t INSERT)
  end.

(** The three tables of per-user logs. *)
Definition user_table (t : Table) : Prop :=
  t = meal_logs \/ t = weight_logs \/ t = measurements.

Definition Database := Table -> list Row.

Definition store (t : Table) (r : Row) (db : Database) : Database :=
  fun t' => if table_eqb t' t then (db t' ++ [r])%list else db t'.

Section Store.
(** The table's own constraints (keys, NOT NULL, CHECK), whatever they
    decide for a proposed row. *)
Variable constraints : Table -> Row -> Database -> bool.

(** [INSERT]: the complete new row [r] is stored when the constraints
    and the policies accept it; otherwise the command fails. *)
Definition insert (who : Caller) (t : Table) (r : Row) (db : Database) : option Database :=
  if constraints t r db && admitted who t r then Some (store t r db) else None.

(** [SELECT *]: the rows the policies let the caller see. *)
Definition select (who : Caller) (t : Table) (db : Database) : list Row :=
  filter (visible who t SELECT) (db t).

(** [DELETE ... WHERE id = ..]: only rows the policies let the caller
    delete are removed. *)
Definition delete (who : Caller) (t : Table) (id : string) (db : Database) : Database :=
  fun t' =>
    if table_eqb t' t
    then filter (fun r => negb (visible who t DELETE r
                                && match column "id" r with
                                   | Some v => String.eqb v id
                                   | None => false
                                   end)) (db t')
    else db t'.
End Store.

End RLS.

(** ** Sample rows, used to run the definitions *)

Module Examples.
Import JS Schema.
Local Open Scope float_scope.

Definition profile (goal : GoalType) (target : number) : UserProfile.t :=
  {| UserProfile.id := "user-1"; UserProfile.name := "Ada";
     UserProfile.goal_type := goal; UserProfile.daily_calorie_target := target;
     UserProfile.created_at := "2025-11-01T09:00:00+00:00";
     UserProfile.updated_at := "2025-11-01T09:00:00+00:00" |}.

Definition food (name : string) (calories protein : number) : FoodItem.t :=
  {| FoodItem.id := "food-1"; FoodItem.name := name;
     FoodItem.calories := calories; FoodItem.protein := protein;
     FoodItem.carbs := 0; FoodItem.fats := 0; FoodItem.barcode := None;
     FoodItem.created_at := "2025-11-01T09:00:00+00:00" |}.

Definition meal (logged_at : string) (servings : number)
    (food_items : option FoodItem.t) : MealLog.t :=
  {| MealLog.id := "meal-1"; MealLog.user_id := "user-1";
     MealLog.food_id := "food-1"; MealLog.servings := servings;
     MealLog.category := lunch; MealLog.logged_at := logged_at;
     MealLog.created_at := logged_at; MealLog.food_items := food_items |}.

Definition weighing (date : string) (weight : number) : WeightLog.t :=
  {| WeightLog.id := "weight-1"; WeightLog.user_id := "user-1";
     WeightLog.weight := weight; WeightLog.date := date;
     WeightLog.created_at := "2025-11-01T09:00:00+00:00" |}.

(** Two days, 750 and 601 calories: 675.5 a day on average. *)
Definition two_days : list MealLog.t :=
  [ meal "2025-11-01T12:30:00+00:00" 1.5 (Some (food "Salmon" 500 20));
    meal "2025-11-02T12:30:00+00:00" 2 (Some (food "Oatmeal" 300.5 10)) ].

(** One day, 2600 calories and 120 g of protein. *)
Definition feast : list MealLog.t :=
  [ meal "2025-11-01T12:30:00+00:00" 2 (Some (food "Burger" 1300 60)) ].



(** A meal whose food item was not joined. *)
Definition unjoined : list MealLog.t :=
  [ meal "2025-11-01T12:30:00+00:00" 1 None ].

Definition lighter : list WeightLog.t :=
  [ weighing "2025-11-02" 70.5; weighing "2025-11-01" 72 ].

Definition heavier : list WeightLog.t :=
  [ weighing "2025-11-02" 72; weighing "2025-11-01" 70.5 ].

(** The first of November 2025 is day 20393 of the epoch; a snack logged
    at 23:59:59.5 that day, and a lunch at 12:30. *)
Definition today : Z := 20393.

Definition late_snack : Dashboard.StoredMeal :=
  {| Dashboard.logged_at :=
       {| Dashboard.day := today; Dashboard.microsecond := 86399500000 |};
     Dashboard.row :=
       meal "2025-11-01T23:59:59.5+00:00" 1 (Some (food "Snack" 500 5)) |}.

Definition lunch_meal : Dashboard.StoredMeal :=
  {| Dashboard.logged_at :=
       {| Dashboard.day := today; Dashboard.microsecond := 45000000000 |};
     Dashboard.row :=
       meal "2025-11-01T12:30:00+00:00" 1 (Some (food "Soup" 300 12)) |}.

(** A store that rejects every write, at noon. *)
Definition denied : Effects.PostgrestError :=
  {| Effects.message := "new row violates row-level security policy";
     Effects.code := "42501" |}.

Definition rejecting : Effects.Runtime :=
  {| Effects.backend := fun _ _ => Effects.write_result (Some denied);
     Effects.toISOString := fun _ => "2025-11-01T12:00:00.000Z";
     Effects.daysAgo_toISOString := fun _ _ => "2025-10-25T12:00:00.000Z";
     Effects.parseFloat := fun _ => 72.5 |}.

Definition ada : Effects.User := {| Effects.id := "user-1" |}.

Definition weight_form : WeightTracking.State :=
  {| WeightTracking.weight := "72.5"; WeightTracking.date := "2025-11-01";
     WeightTracking.weightLogs := lighter; WeightTracking.loading := false |}.

Definition meal_form : MealLogging.State :=
  {| MealLogging.foods := [food "Soup" 300 12];
     MealLogging.filteredFoods := [food "Soup" 300 12];
     MealLogging.searchTerm := "";
     MealLogging.selectedFood := Some (food "Soup" 300 12);
     MealLogging.servings := 2; MealLogging.category := lunch;
     MealLogging.mealLogs := two_days; MealLogging.loading := false |}.

Definition measurement_form : MeasurementTracking.State :=
  {| MeasurementTracking.measurements := [];
     MeasurementTracking.loading := false;
     MeasurementTracking.formData :=
       {| MeasurementTracking.date := "2025-11-01";
          MeasurementTracking.waist := "80"; MeasurementTracking.chest := "";
          MeasurementTracking.arms := ""; MeasurementTracking.hips := "";
          MeasurementTracking.thighs := "" |} |}.

(** Rows of [meal_logs] as column lists, and an empty store without
    further constraints. *)
Definition own_meal : RLS.Row :=
  [("id", "meal-1"); ("user_id", "user-1"); ("food_id", "food-1");
   ("servings", "1"); ("category", "lunch")].

Definition empty_store : RLS.Database := fun _ => [].

Definition unconstrained : RLS.Table -> RLS.Row -> RLS.Database -> bool :=
  fun _ _ _ => true.

(** A store that serves the sample rows and accepts every write, with a
    clock that shows the given time. *)
Definition serving (clock : string) : Effects.Runtime :=
  {| Effects.backend := fun _ request =>
       match request with
       | Effects.select_profile _ =>
           Effects.profile_row (Some (profile muscle_gain 2000))
       | Effects.select_meal_logs _ _ _ => Effects.meal_rows (Some two_days)
       | Effects.select_weight_logs _ _ => Effects.weight_rows (Some lighter)
       | Effects.select_measurements _ _ => Effects.measurement_rows (Some [])
       | Effects.select_latest_recommendation _ => Effects.recommendation_row None
       | _ => Effects.write_result None
       end;
     Effects.toISOString := fun _ => clock;
     Effects.daysAgo_toISOString := fun _ _ => clock;
     Effects.parseFloat := fun _ => 72.5 |}.

Definition bob : Effects.User := {| Effects.id := "user-2" |}.

(** Three meals out of date order, two of them on the second day. *)
Definition three_meals : list MealLog.t :=
  [ meal "2025-11-02T08:00:00+00:00" 2 (Some (food "Oatmeal" 300.5 10));
    meal "2025-11-01T12:30:00+00:00" 1.5 (Some (food "Salmon" 500 20));
    meal "2025-11-02T19:00:00+00:00" 1 (Some (food "Banana" 100 1)) ].

(** One day on which the running total overflows to [Infinity], then
    meets [-Infinity], before a meal of 100 calories. *)
Definition overflowing : list MealLog.t :=
  [ meal "2025-11-01T08:00:00+00:00" 10 (Some (food "Feast" 1e308 0));
    meal "2025-11-01T12:00:00+00:00" 10 (Some (food "Refund" (-1e308) 0));
    meal "2025-11-01T19:00:00+00:00" 1 (Some (food "Banana" 100 1)) ].

End Examples.

(** ** The parts of its arguments [analyzeAndRecommend] uses *)

Module Reads.
Import JS Schema.

(** Of the profile: the goal and the calorie target. *)
Definition of_profile (profile : option UserProfile.t) : option (GoalType * number) :=
  option_map (fun p => (UserProfile.goal_type p, UserProfile.daily_calorie_target p))
             profile.

(** Of a meal: whether a food item is joined and, when one is, its
    calories and protein, the servings and the date of [logged_at]. *)
Definition of_meal (meal : MealLog.t) : option (number * number * number * string) :=
  match MealLog.food_items meal with
  | Some food =>
      Some (FoodItem.calories food, FoodItem.protein food, MealLog.servings meal,
            split_head "T" (MealLog.logged_at meal))
  | None => None
  end.

Definition of_meals (meals : option (list MealLog.t)) :
    option (list (option (number * number * number * string))) :=
  option_map (map of_meal) meals.

(** Of the weights: the weights of the first two entries. *)
Definition of_weights (weights : option (list WeightLog.t)) : option (number * number) :=
  match weights with
  | Some (w0 :: w1 :: _) => Some (WeightLog.weight w0, WeightLog.weight w1)
  | _ => None
  end.

(** The closing tip of each goal. *)
Definition tip_of (goal : GoalType) : string :=
  match goal with
  | weight_loss => AIRecommendation.tip_weight_loss
  | muscle_gain => AIRecommendation.tip_muscle_gain
  | maintenance => AIRecommendation.tip_maintenance
  end.

End Reads.

(** ** components/MealLogging: the food search *)

Module MealSearch.
Import JS Schema Text.

Section Engine.
(** [String.prototype.toLowerCase] of the engine. *)
Variable toLowerCase : string -> string.

(** [food.name.toLowerCase().includes(searchTerm.toLowerCase())] *)
Definition matches (searchTerm : string) (food : FoodItem.t) : bool :=
  includes (toLowerCase searchTerm) (toLowerCase (FoodItem.name food)).

(** The effect on [searchTerm, foods]: the list given to
    [setFilteredFoods]; the empty term is falsy. *)
Definition filteredFoods (searchTerm : string) (foods : list FoodItem.t) : list FoodItem.t :=
  match searchTerm with
  | EmptyString => foods
  | _ => filter (matches searchTerm) foods
  end.
End Engine.

(** On text of ASCII characters [toLowerCase] turns [A]-[Z] into
    [a]-[z] and keeps every other character. *)
Definition lower (c : ascii) : ascii :=
  let n := nat_of_ascii c in
  if (65 <=? n)%nat && (n <=? 90)%nat then ascii_of_nat (n + 32) else c.

Fixpoint ascii_toLowerCase (s : string) : string :=
  match s with
  | EmptyString => EmptyString
  | String c r => String (lower c) (ascii_toLowerCase r)
  end.

End MealSearch.

(** ** components/ProgressCharts: the bars *)

Module ProgressBars.
Import JS Schema.
Local Open Scope float_scope.

Definition is_zero_of_sign (s : bool) (x : number) : bool :=
  match Prim2SF x with
  | S754_zero s' => Bool.eqb s s'
  | _ => false
  end.

(** [Math.max] (ECMA-262, 21.3.2.24): [NaN] if an argument is [NaN];
    else the largest argument, [+0] being larger than [-0]; [-Infinity]
    without arguments. *)
Fixpoint max_from (highest : number) (args : list number) : number :=
  match args with
  | [] => highest
  | x :: rest =>
      if PrimFloat.is_nan x then PrimFloat.nan
      else if is_zero_of_sign false x && is_zero_of_sign true highest
      then max_from x rest
      else if highest <? x then max_from x rest
      else max_from highest rest
  end.

Definition Math_max (args : list number) : number :=
  max_from PrimFloat.neg_infinity args.

(** [Math.min] (ECMA-262, 21.3.2.25). *)
Fixpoint min_from (lowest : number) (args : list number) : number :=
  match args with
  | [] => lowest
  | x :: rest =>
      if PrimFloat.is_nan x then PrimFloat.nan
      else if is_zero_of_sign true x && is_zero_of_sign false lowest
      then min_from x rest
      else if x <? lowest then min_from x rest
      else min_from lowest rest
  end.

Definition Math_min (args : list number) : number :=
  min_from PrimFloat.infinity args.

(** [a || b] on numbers. *)
Definition or_else (a b : number) : number := if truthy a then a else b.

(** [Math.max(...weightLogs.map((w) => w.weight), 0)] *)
Definition maxWeight (weightLogs : list WeightLog.t) : number :=
  Math_max (map WeightLog.weight weightLogs ++ [0]).

(** [Math.min(...weightLogs.map((w) => w.weight), maxWeight)] *)
Definition minWeight (weightLogs : list WeightLog.t) : number :=
  Math_min (map WeightLog.weight weightLogs ++ [maxWeight weightLogs]).

(** [maxWeight - minWeight || 1] *)
Definition weightRange (weightLogs : list WeightLog.t) : number :=
  or_else (maxWeight weightLogs - minWeight weightLogs) 1.

(** [Math.max(...dailyCalories.map((d) => d.calories), 0)] *)
Definition maxCalories (dailyCalories : list ProgressCharts.DayCalories) : number :=
  Math_max (map ProgressCharts.calories dailyCalories ++ [0]).

(** The [width] style of a weight bar and of a calorie bar:
    [`${Math.max(heightPercent, 10)}%`]. *)
Definition weightBarWidth (weightLogs : list WeightLog.t) (log : WeightLog.t) : string :=
  let heightPercent :=
    (WeightLog.weight log - minWeight weightLogs) / weightRange weightLogs * 100 in
  (Number_toString (Math_max [heightPercent; 10]) ++ "%")%string.

Definition calorieBarWidth (dailyCalories : list ProgressCharts.DayCalories)
    (day : ProgressCharts.DayCalories) : string :=
  let heightPercent := ProgressCharts.calories day / maxCalories dailyCalories * 100 in
  (Number_toString (Math_max [heightPercent; 10]) ++ "%")%string.

End ProgressBars.

(** ** The policies by command *)

Module Access.
Import RLS.

(** The column the policies of a table compare with [auth.uid()]. *)
Definition owner_column (t : Table) : string :=
  match t with
  | users_profiles => "id"
  | _ => "user_id"
  end.

(** May the caller leave row [r] in [t] by command [c]: some policy's
    WITH CHECK holds. *)
Definition checked (who : Caller) (t : Table) (c : Command) (r : Row) : bool :=
  match who with
  | anon => false
  | authenticated uid =>
      existsb (fun p => match with_check p with
                        | Some e => holds uid e r
                        | None => false
                        end) (applicable t c)
  end.

End Access.

(** ** What a run sent to the store *)

Module Trace.
Import Effects.

Definition is_write (r : Request) : bool :=
  match r with
  | insert_weight_log _ _ _ | delete_weight_log _
  | insert_meal_log _ _ _ _ _ | delete_meal_log _
  | insert_measurement _ _ _ _ _ _ _ | delete_measurement _
  | insert_recommendation _ _ _ => true
  | _ => false
  end.

Definition requests (log : list Event) : list Request :=
  flat_map (fun ev => match ev with sent r _ => [r] | _ => [] end) log.

(** The inserts and deletes of a log, in the order sent. *)
Definition writes (log : list Event) : list Request := filter is_write (requests log).

Definition outcome {S A} (r : Outcome A * S * list Event) : Outcome A := fst (fst r).
Definition state {S A} (r : Outcome A * S * list Event) : S := snd (fst r).

(** A run begun with the log [h] returned normally and sent one write,
    [w], whatever else it read. *)
Definition settled {S} (run : Outcome unit * S * list Event) (h : list Event)
    (w : Request) : Prop :=
  outcome run = returned tt /\ writes (log_of run) = (writes h ++ [w])%list.

End Trace.

(** ** Quantities *)

Module Amounts.
Import JS Schema.
Local Open Scope float_scope.

(** A quantity, as the forms enter them and the catalogue holds them: a
    finite number that is not below zero. *)
Definition amount (x : number) : bool :=
  PrimFloat.is_finite x && negb (x <? 0).

(** The calories and the servings of a meal are quantities. *)
Definition plain (meal : MealLog.t) : bool :=
  match MealLog.food_items meal with
  | Some food => amount (FoodItem.calories food) && amount (MealLog.servings meal)
  | None => true
  end.

(** The sign of a binary64 value, [NaN] having none; and a value that is
    not below zero: a zero, or positive. *)
Definition signed (sx : bool) (r : spec_float) : Prop :=
  match r with
  | S754_zero s | S754_infinity s | S754_finite s _ _ => s = sx
  | S754_nan => False
  end.

Definition above (r : spec_float) : Prop :=
  match r with
  | S754_zero _ => True
  | S754_infinity s | S754_finite s _ _ => s = false
  | S754_nan => False
  end.

(** The order of two positive finite values, by exponent and mantissa. *)
Definition by_magnitude (e1 : Z) (m1 : positive) (e2 : Z) (m2 : positive) : comparison :=
  match (e1 ?= e2)%Z with
  | Eq => Pos.compare_cont Eq m1 m2
  | Lt => Lt
  | Gt => Gt
  end.

(** A whole number from 1000 to 5000, the range of the profile form's
    calorie target. *)
Definition form_target (x : number) : Prop :=
  exists n : Z, (1000 <= n <= 5000)%Z /\ x = number_of_Z n.

End Amounts.

(** ** components/Dashboard: the calorie progress bar *)

Module DashboardBar.
Import JS Schema.
Local Open Scope float_scope.

(** [profile ? (todayCalories / profile.daily_calorie_target) * 100 : 0] *)
Definition calorieProgress (profile : option UserProfile.t) (todayCalories : number) : number :=
  match profile with
  | Some p => todayCalories / UserProfile.daily_calorie_target p * 100
  | None => 0
  end.

(** The [width] style of the bar: [`${Math.min(calorieProgress, 100)}%`]. *)
Definition progressWidth (profile : option UserProfile.t) (todayCalories : number) : string :=
  (Number_toString (ProgressBars.Math_min [calorieProgress profile todayCalories; 100])
   ++ "%")%string.

End DashboardBar.

(** ** The other components' view of the store

    The same asynchronous handlers as in [Effects], over the queries of
    Dashboard, ProgressCharts, Profile and of [loadFoods]. *)

Module Queries.
Import JS Schema.

Inductive Query :=
| users_profiles_by_id (id : string)
| meal_logs_between (user_id from before : string)
| newest_weight (user_id : string)
| weight_logs_since (user_id since : string)
| meal_logs_since (user_id since : string)
| food_items_by_name
| update_profile (id name : string) (goal_type : GoalType)
    (daily_calorie_target : number) (updated_at : string).

(** The [data] or the [error] of an answer. *)
Inductive Answer :=
| profile_data (data : option UserProfile.t)
| meals_data (data : option (list MealLog.t))
| weight_data (data : option number)
| weights_data (data : option (list WeightLog.t))
| foods_data (data : option (list FoodItem.t))
| update_result (error : option Effects.PostgrestError).

Inductive Event :=
| sent (query : Query) (answer : Answer)
| console_error (label : string) (error : Effects.PostgrestError)
| called (callback : string).

Record Runtime := {
  backend : list Event -> Query -> Answer;
  toISOString : list Event -> string;
  daysAgo_toISOString : nat -> list Event -> string }.

Definition M (S A : Type) : Type :=
  S -> list Event -> Effects.Outcome A * S * list Event.

Definition ret {S A} (a : A) : M S A := fun s h => (Effects.returned a, s, h).

Definition bind {S A B} (c : M S A) (k : A -> M S B) : M S B :=
  fun s h =>
    match c s h with
    | (Effects.returned a, s', h') => k a s' h'
    | (Effects.thrown e, s', h') => (Effects.thrown e, s', h')
    end.

Definition throw {S A} (e : Effects.PostgrestError) : M S A :=
  fun s h => (Effects.thrown e, s, h).

Definition set {S} (f : S -> S) : M S unit := fun s h => (Effects.returned tt, f s, h).

Definition emit {S} (ev : Event) : M S unit :=
  fun s h => (Effects.returned tt, s, (h ++ [ev])%list).

Definition request {S} (rt : Runtime) (q : Query) : M S Answer :=
  fun s h => let a := backend rt h q in (Effects.returned a, s, (h ++ [sent q a])%list).

Definition now {S} (rt : Runtime) : M S string :=
  fun s h => (Effects.returned (toISOString rt h), s, h).

Definition daysAgo {S} (rt : Runtime) (n : nat) : M S string :=
  fun s h => (Effects.returned (daysAgo_toISOString rt n h), s, h).

Definition try_catch {S} (body : M S unit)
    (handler : Effects.PostgrestError -> M S unit) : M S unit :=
  fun s h =>
    match body s h with
    | (Effects.returned a, s', h') => (Effects.returned a, s', h')
    | (Effects.thrown e, s', h') => handler e s' h'
    end.

Definition finally {S} (body : M S unit) (finalizer : M S unit) : M S unit :=
  fun s h =>
    match body s h with
    | (Effects.returned a, s', h') => finalizer s' h'
    | (Effects.thrown e, s', h') =>
        match finalizer s' h' with
        | (Effects.returned _, s'', h'') => (Effects.thrown e, s'', h'')
        | other => other
        end
    end.

Definition throw_if_error {S} (answer : Answer) : M S unit :=
  match answer with
  | update_result (Some e) => throw e
  | _ => ret tt
  end.

Definition profile_of (answer : Answer) : option UserProfile.t :=
  match answer with profile_data data => data | _ => None end.
Definition meals_of (answer : Answer) : option (list MealLog.t) :=
  match answer with meals_data data => data | _ => None end.
Definition weight_of (answer : Answer) : option number :=
  match answer with weight_data data => data | _ => None end.
Definition weights_of (answer : Answer) : option (list WeightLog.t) :=
  match answer with weights_data data => data | _ => None end.
Definition foods_of (answer : Answer) : option (list FoodItem.t) :=
  match answer with foods_data data => data | _ => None end.


End Queries.

Declare Scope query_scope.
Delimit Scope query_scope with query.
Notation "x <- c ;; k" := (Queries.bind c (fun x => k))
  (at level 61, c at next level, right associativity) : query_scope.
Notation "c ;; k" := (Queries.bind c (fun _ => k))
  (at level 61, right associativity) : query_scope.

(** ** components/Dashboard: [loadDashboardData] *)

Module DashboardLoad.
Import JS Schema Queries.
Local Open Scope query_scope.

Inductive Tab := dashboard | meals | weight | measurements | progress | profile_tab.

Record Macros := { protein : number; carbs : number; fats : number }.

Record State := {
  activeTab : Tab;
  profile : option UserProfile.t;
  todayCalories : number;
  todayMacros : Macros;
  recentWeight : option number;
  loading : bool }.

Definition setProfile (v : option UserProfile.t) : M State unit :=
  set (fun s => {| activeTab := activeTab s; profile := v;
                   todayCalories := todayCalories s; todayMacros := todayMacros s;
                   recentWeight := recentWeight s; loading := loading s |}).
Definition setTodayCalories (v : number) : M State unit :=
  set (fun s => {| activeTab := activeTab s; profile := profile s;
                   todayCalories := v; todayMacros := todayMacros s;
                   recentWeight := recentWeight s; loading := loading s |}).
Definition setTodayMacros (v : Macros) : M State unit :=
  set (fun s => {| activeTab := activeTab s; profile := profile s;
                   todayCalories := todayCalories s; todayMacros := v;
                   recentWeight := recentWeight s; loading := loading s |}).
Definition setRecentWeight (v : option number) : M State unit :=
  set (fun s => {| activeTab := activeTab s; profile := profile s;
                   todayCalories := todayCalories s; todayMacros := todayMacros s;
                   recentWeight := v; loading := loading s |}).
Definition setLoading (v : bool) : M State unit :=
  set (fun s => {| activeTab := activeTab s; profile := profile s;
                   todayCalories := todayCalories s; todayMacros := todayMacros s;
                   recentWeight := recentWeight s; loading := v |}).

Section Handlers.
Variable rt : Runtime.
Variable user : option Effects.User.

Definition loadDashboardData : M State unit :=
  match user with
  | None => ret tt
  | Some u =>
      setLoading true ;;
      finally
        (try_catch
           (profileData <- request rt (users_profiles_by_id (Effects.id u)) ;;
            setProfile (profile_of profileData) ;;
            iso <- now rt ;;
            let today := split_head "T" iso in
            mealsData <- request rt
              (meal_logs_between (Effects.id u) today (today ++ "T23:59:59")) ;;
            match meals_of mealsData with
            | Some mealsData =>
                let sums := Dashboard.todayTotals mealsData in
                setTodayCalories (Dashboard.calories sums) ;;
                setTodayMacros {| protein := Dashboard.protein sums;
                                  carbs := Dashboard.carbs sums;
                                  fats := Dashboard.fats sums |}
            | None => ret tt
            end ;;
            weightData <- request rt (newest_weight (Effects.id u)) ;;
            setRecentWeight (weight_of weightData))
           (fun error => emit (console_error "Error loading dashboard data:" error)))
        (setLoading false)
  end.
End Handlers.

End DashboardLoad.

(** ** components/Profile *)

Module ProfileForm.
Import JS Schema Queries.
Local Open Scope query_scope.

Record FormData := {
  name : string;
  goal_type : GoalType;
  daily_calorie_target : number }.

Record State := { loading : bool; formData : FormData }.

Definition setLoading (v : bool) : M State unit :=
  set (fun s => {| loading := v; formData := formData s |}).
Definition setFormData (v : FormData) : M State unit :=
  set (fun s => {| loading := loading s; formData := v |}).

(** The effect on [profile]. *)
Definition syncForm (profile : option UserProfile.t) : M State unit :=
  match profile with
  | Some p =>
      setFormData {| name := UserProfile.name p;
                     goal_type := UserProfile.goal_type p;
                     daily_calorie_target := UserProfile.daily_calorie_target p |}
  | None => ret tt
  end.

Section Handlers.
Variable rt : Runtime.
Variable user : option Effects.User.

(** [handleSubmit], called in a render whose state is [st]. *)
Definition handleSubmit (st : State) : M State unit :=
  match user with
  | None => ret tt
  | Some u =>
      setLoading true ;;
      finally
        (try_catch
           (iso <- now rt ;;
            answer <- request rt
              (update_profile (Effects.id u) (name (formData st))
                 (goal_type (formData st)) (daily_calorie_target (formData st)) iso) ;;
            throw_if_error answer ;;
            emit (called "onProfileUpdated"))
           (fun error => emit (console_error "Error updating profile:" error)))
        (setLoading false)
  end.
End Handlers.

End ProfileForm.

(** ** components/ProgressCharts: [loadProgressData] *)

Module ProgressLoad.
Import JS Schema Queries.
Local Open Scope query_scope.

Inductive Period := week | month | year.

Definition daysBack (period : Period) : nat :=
  match period with
  | week => 7
  | month => 30
  | year => 365
  end.

Record State := {
  weightLogs : list WeightLog.t;
  dailyCalories : list ProgressCharts.DayCalories;
  period : Period }.

Definition setWeightLogs (v : list WeightLog.t) : M State unit :=
  set (fun s => {| weightLogs := v; dailyCalories := dailyCalories s;
                   period := period s |}).
Definition setDailyCalories (v : list ProgressCharts.DayCalories) : M State unit :=
  set (fun s => {| weightLogs := weightLogs s; dailyCalories := v;
                   period := period s |}).

Section Handlers.
Variable rt : Runtime.
Variable user : option Effects.User.
Variable localeCompare : string -> string -> comparison.

(** [loadProgressData], called in a render whose state is [st]. *)
Definition loadProgressData (st : State) : M State unit :=
  match user with
  | None => ret tt
  | Some u =>
      startDate <- daysAgo rt (daysBack (period st)) ;;
      weights <- request rt
        (weight_logs_since (Effects.id u) (split_head "T" startDate)) ;;
      match weights_of weights with
      | Some weights => setWeightLogs weights
      | None => ret tt
      end ;;
      meals <- request rt (meal_logs_since (Effects.id u) startDate) ;;
      match meals_of meals with
      | Some meals => setDailyCalories (ProgressCharts.calorieData localeCompare meals)
      | None => ret tt
      end
  end.
End Handlers.

End ProgressLoad.

(** ** components/MealLogging: [loadFoods] and the search effect *)

Module FoodLoad.
Import JS Schema Queries.
Local Open Scope query_scope.

Definition setFoods (v : list FoodItem.t) : M MealLogging.State unit :=
  set (fun s => {| MealLogging.foods := v;
                   MealLogging.filteredFoods := MealLogging.filteredFoods s;
                   MealLogging.searchTerm := MealLogging.searchTerm s;
                   MealLogging.selectedFood := MealLogging.selectedFood s;
                   MealLogging.servings := MealLogging.servings s;
                   MealLogging.category := MealLogging.category s;
                   MealLogging.mealLogs := MealLogging.mealLogs s;
                   MealLogging.loading := MealLogging.loading s |}).
Definition setFilteredFoods (v : list FoodItem.t) : M MealLogging.State unit :=
  set (fun s => {| MealLogging.foods := MealLogging.foods s;
                   MealLogging.filteredFoods := v;
                   MealLogging.searchTerm := MealLogging.searchTerm s;
                   MealLogging.selectedFood := MealLogging.selectedFood s;
                   MealLogging.servings := MealLogging.servings s;
                   MealLogging.category := MealLogging.category s;
                   MealLogging.mealLogs := MealLogging.mealLogs s;
                   MealLogging.loading := MealLogging.loading s |}).

Definition loadFoods (rt : Runtime) : M MealLogging.State unit :=
  answer <- request rt food_items_by_name ;;
  match foods_of answer with
  | Some data => setFoods data ;; setFilteredFoods data
  | None => ret tt
  end.

(** The effect on [searchTerm, foods], run in a render whose state is
    [st]. *)
Definition searchEffect (toLowerCase : string -> string) (st : MealLogging.State) :
    M MealLogging.State unit :=
  setFilteredFoods
    (MealSearch.filteredFoods toLowerCase (MealLogging.searchTerm st)
       (MealLogging.foods st)).

End FoodLoad.

(** ** More sample rows *)

Module Samples.
Import JS Schema.
Local Open Scope float_scope.

Definition item (name : string) (calories protein carbs fats : number)
    (barcode : string) : FoodItem.t :=
  {| FoodItem.id := barcode; FoodItem.name := name;
     FoodItem.calories := calories; FoodItem.protein := protein;
     FoodItem.carbs := carbs; FoodItem.fats := fats;
     FoodItem.barcode := Some barcode;
     FoodItem.created_at := "2025-11-01T09:00:00+00:00" |}.

(** The food items the migration inserts, as [loadFoods] receives them
    ([order('name')]); the barcode stands for the generated id. *)
Definition catalog : list FoodItem.t :=
  [ item "Almonds" 164 6 6 14 "1234567890009";
    item "Banana" 105 1.3 27 0.4 "1234567890005";
    item "Broccoli" 55 3.7 11.2 0.6 "1234567890003";
    item "Brown Rice" 216 5 45 1.8 "1234567890002";
    item "Chicken Breast" 165 31 0 3.6 "1234567890001";
    item "Eggs" 155 13 1.1 11 "1234567890007";
    item "Greek Yogurt" 100 10 3.6 4 "1234567890006";
    item "Oatmeal" 158 6 28 3 "1234567890008";
    item "Salmon" 206 22 0 13 "1234567890004";
    item "Sweet Potato" 112 2 26 0.1 "1234567890010" ].

(** The sample week of [Examples.two_days] and [Examples.lighter] seen
    through other rows: other ids, names, times of day, categories,
    carbs and fats, and a third, older weight entry. *)
Definition other_profile : UserProfile.t :=
  {| UserProfile.id := "user-2"; UserProfile.name := "Grace";
     UserProfile.goal_type := muscle_gain; UserProfile.daily_calorie_target := 2000;
     UserProfile.created_at := "2024-01-01T00:00:00+00:00";
     UserProfile.updated_at := "2025-10-31T23:00:00+00:00" |}.

Definition other_meal (id logged_at : string) (servings : number)
    (category : MealCategory) (food : FoodItem.t) : MealLog.t :=
  {| MealLog.id := id; MealLog.user_id := "user-2";
     MealLog.food_id := FoodItem.id food; MealLog.servings := servings;
     MealLog.category := category; MealLog.logged_at := logged_at;
     MealLog.created_at := logged_at; MealLog.food_items := Some food |}.

Definition other_week : list MealLog.t :=
  [ other_meal "meal-8" "2025-11-01T19:45:00+00:00" 1.5 dinner
      (item "Trout" 500 20 3 11 "77");
    other_meal "meal-9" "2025-11-02T07:10:00+00:00" 2 breakfast
      (item "Porridge" 300.5 10 54 6 "78") ].

Definition other_weights : list WeightLog.t :=
  [ {| WeightLog.id := "w-3"; WeightLog.user_id := "user-2"; WeightLog.weight := 70.5;
       WeightLog.date := "2025-11-05"; WeightLog.created_at := "2025-11-05T07:00:00+00:00" |};
    {| WeightLog.id := "w-2"; WeightLog.user_id := "user-2"; WeightLog.weight := 72;
       WeightLog.date := "2025-11-03"; WeightLog.created_at := "2025-11-03T07:00:00+00:00" |};
    {| WeightLog.id := "w-1"; WeightLog.user_id := "user-2"; WeightLog.weight := 90;
       WeightLog.date := "2025-10-01"; WeightLog.created_at := "2025-10-01T07:00:00+00:00" |} ].

(** A day on which the total overflows to [Infinity] and then meets
    [-Infinity]. *)
Definition cancelled_out : list MealLog.t :=
  [ Examples.meal "2025-11-01T08:00:00+00:00" 10 (Some (Examples.food "Feast" 1e308 0));
    Examples.meal "2025-11-01T12:00:00+00:00" 10
      (Some (Examples.food "Refund" (-1e308) 0)) ].

(** One day with a meal whose food item is missing between two others. *)
Definition one_day : list MealLog.t :=
  [ Examples.meal "2025-11-02T08:00:00+00:00" 2 (Some (Examples.food "Oatmeal" 300.5 10));
    Examples.meal "2025-11-02T12:00:00+00:00" 1 None;
    Examples.meal "2025-11-02T19:00:00+00:00" 1 (Some (Examples.food "Banana" 100 1)) ].

(** A day with a meal, and a later day whose only meal has no food item. *)
Definition second_day_unjoined : list MealLog.t :=
  [ Examples.meal "2025-11-01T12:30:00+00:00" 1.5 (Some (Examples.food "Salmon" 500 20));
    Examples.meal "2025-11-02T08:00:00+00:00" 1 None ].

End Samples.

(** ** The average per logged day, in the words of the specification *)

Module DailyAverage.
Import JS Schema.
Local Open Scope float_scope.

(** The meals that count: those whose food item was joined. *)
Definition counted (meals : list MealLog.t) : list MealLog.t :=
  filter (fun meal => match MealLog.food_items meal with
                      | Some _ => true
                      | None => false
                      end) meals.

(** The day of a meal: its [logged_at] up to the first "T". *)
Definition dayOf (meal : MealLog.t) : string :=
  split_head "T" (MealLog.logged_at meal).

(** The distinct days on which a counted meal was logged. *)
Definition distinctDays (meals : list MealLog.t) : list string :=
  nodup string_dec (map dayOf (counted meals)).

(** The protein of a meal: that of its food item times the servings. *)
Definition proteinOf (meal : MealLog.t) : number :=
  match MealLog.food_items meal with
  | Some food => FoodItem.protein food * MealLog.servings meal
  | None => 0
  end.

(** The protein of the counted meals, added up in list order. *)
Definition totalProtein (meals : list MealLog.t) : number :=
  fold_left PrimFloat.add (map proteinOf (counted meals)) 0.

(** Total protein over the distinct logged days (over 1 when there is
    none). *)
Definition proteinPerDay (meals : list MealLog.t) : number :=
  totalProtein meals
  / number_of_nat (Nat.max (List.length (distinctDays meals)) 1).

End DailyAverage.

(** ** [analyzeAndRecommend] as it is written

    The function is declared inside the component: its body runs where
    the component's state and the log of what the component did are in
    reach, and it works on variables of its own ([recommendations], the
    four totals, [daysLogged]) that it assigns and updates.  Here the
    body is written statement by statement, as a computation over a
    frame that holds the component's state beside those variables. *)

Module Body.
Import JS Schema Effects.
Local Open Scope float_scope.
Local Open Scope handler_scope.

Record Frame := {
  component : AIRecommendation.State;
  recommendations : list string;
  totalCalories : number;
  totalProtein : number;
  totalCarbs : number;
  totalFats : number;
  daysLogged : list string }.

(** Reading a variable. *)
Definition read {S A} (var : S -> A) : M S A := fun s h => (returned (var s), s, h).

(** [let recommendations = []], [recommendations.push(text)] *)
Definition set_recommendations (v : list string) : M Frame unit :=
  set (fun f => {| component := component f; recommendations := v;
                   totalCalories := totalCalories f; totalProtein := totalProtein f;
                   totalCarbs := totalCarbs f; totalFats := totalFats f;
                   daysLogged := daysLogged f |}).

Definition push (text : string) : M Frame unit :=
  all <- read recommendations ;; set_recommendations (all ++ [text])%list.

(** [let total = v], [total += v] for the four totals. *)
Definition set_totalCalories (v : number) : M Frame unit :=
  set (fun f => {| component := component f; recommendations := recommendations f;
                   totalCalories := v; totalProtein := totalProtein f;
                   totalCarbs := totalCarbs f; totalFats := totalFats f;
                   daysLogged := daysLogged f |}).

Definition set_totalProtein (v : number) : M Frame unit :=
  set (fun f => {| component := component f; recommendations := recommendations f;
                   totalCalories := totalCalories f; totalProtein := v;
                   totalCarbs := totalCarbs f; totalFats := totalFats f;
                   daysLogged := daysLogged f |}).

Definition set_totalCarbs (v : number) : M Frame unit :=
  set (fun f => {| component := component f; recommendations := recommendations f;
                   totalCalories := totalCalories f; totalProtein := totalProtein f;
                   totalCarbs := v; totalFats := totalFats f;
                   daysLogged := daysLogged f |}).

Definition set_totalFats (v : number) : M Frame unit :=
  set (fun f => {| component := component f; recommendations := recommendations f;
                   totalCalories := totalCalories f; totalProtein := totalProtein f;
                   totalCarbs := totalCarbs f; totalFats := v;
                   daysLogged := daysLogged f |}).

Definition add_to (var : Frame -> number) (assign : number -> M Frame unit)
    (v : number) : M Frame unit :=
  total <- read var ;; assign (total + v).

(** [const daysLogged = new Set()], [daysLogged.add(day)] *)
Definition set_daysLogged (v : list string) : M Frame unit :=
  set (fun f => {| component := component f; recommendations := recommendations f;
                   totalCalories := totalCalories f; totalProtein := totalProtein f;
                   totalCarbs := totalCarbs f; totalFats := totalFats f;
                   daysLogged := v |}).

Definition daysLogged_add (day : string) : M Frame unit :=
  days <- read daysLogged ;; set_daysLogged (AIRecommendation.Set_add day days).

(** [array.forEach(callback)] *)
Fixpoint forEach {S A} (array : list A) (callback : A -> M S unit) : M S unit :=
  match array with
  | [] => ret tt
  | x :: rest => callback x ;; forEach rest callback
  end.

Definition analyzeAndRecommend (profile : option UserProfile.t)
    (meals : option (list MealLog.t)) (weights : option (list WeightLog.t)) :
    M Frame string :=
  match profile with
  | None => ret AIRecommendation.msg_no_profile
  | Some profile =>
      set_recommendations [] ;;
      (match meals with
       | None | Some [] => push AIRecommendation.msg_start_logging
       | Some meals =>
           set_totalCalories 0 ;;
           set_totalProtein 0 ;;
           set_totalCarbs 0 ;;
           set_totalFats 0 ;;
           set_daysLogged [] ;;
           forEach meals (fun meal =>
             match MealLog.food_items meal with
             | Some food_items =>
                 add_to totalCalories set_totalCalories
                   (FoodItem.calories food_items * MealLog.servings meal) ;;
                 add_to totalProtein set_totalProtein
                   (FoodItem.protein food_items * MealLog.servings meal) ;;
                 add_to totalCarbs set_totalCarbs
                   (FoodItem.carbs food_items * MealLog.servings meal) ;;
                 add_to totalFats set_totalFats
                   (FoodItem.fats food_items * MealLog.servings meal) ;;
                 daysLogged_add (split_head "T" (MealLog.logged_at meal))
             | None => ret tt
             end) ;;
           calories <- read totalCalories ;;
           days <- read daysLogged ;;
           let avgDailyCalories :=
             calories / number_of_nat (Nat.max (List.length days) 1) in
           let targetCalories := UserProfile.daily_calorie_target profile in
           (if avgDailyCalories <? targetCalories * 0.8
            then push (AIRecommendation.msg_below avgDailyCalories targetCalories)
            else if targetCalories * 1.2 <? avgDailyCalories
            then push (AIRecommendation.msg_exceeds avgDailyCalories targetCalories)
            else push (AIRecommendation.msg_aligned avgDailyCalories)) ;;
           protein <- read totalProtein ;;
           days <- read daysLogged ;;
           let avgProtein := protein / number_of_nat (Nat.max (List.length days) 1) in
           if (avgProtein <? 50) && goal_eqb (UserProfile.goal_type profile) muscle_gain
           then push AIRecommendation.msg_protein
           else ret tt
       end) ;;
      (match weights with
       | Some (w0 :: w1 :: _) =>
           let weightChange := WeightLog.weight w0 - WeightLog.weight w1 in
           if goal_eqb (UserProfile.goal_type profile) weight_loss && (0 <? weightChange)
           then push (AIRecommendation.msg_weight_increased weightChange)
           else if goal_eqb (UserProfile.goal_type profile) muscle_gain
                   && (weightChange <? 0)
           then push (AIRecommendation.msg_weight_decreased weightChange)
           else if (weightChange <? 0)
                   && goal_eqb (UserProfile.goal_type profile) weight_loss
           then push (AIRecommendation.msg_weight_lost weightChange)
           else ret tt
       | _ => push AIRecommendation.msg_log_weight
       end) ;;
      (if goal_eqb (UserProfile.goal_type profile) weight_loss
       then push AIRecommendation.tip_weight_loss
       else if goal_eqb (UserProfile.goal_type profile) muscle_gain
       then push AIRecommendation.tip_muscle_gain
       else push AIRecommendation.tip_maintenance) ;;
      all <- read recommendations ;;
      ret (join AIRecommendation.blank_line all)
  end.

(** A part of the body that returns, touches neither the component state
    nor the log, and appends the texts [texts] to [recommendations]. *)
Definition pushes (part : M Frame unit) (texts : list string) : Prop :=
  forall frame h,
    exists frame',
      part frame h = (returned tt, frame', h)
      /\ component frame' = component frame
      /\ recommendations frame' = (recommendations frame ++ texts)%list.

End Body.

(** ** A frame left behind by an earlier call, and a log with a request *)

Module Leftover.
Import JS Schema.
Local Open Scope float_scope.

Definition frame : Body.Frame :=
  {| Body.component :=
       {| AIRecommendation.recommendation := None;
          AIRecommendation.loading := true |};
     Body.recommendations := ["Start logging your meals to track your calorie and macro intake."];
     Body.totalCalories := 9000; Body.totalProtein := 400;
     Body.totalCarbs := 1; Body.totalFats := 1;
     Body.daysLogged := ["2025-10-01"; "2025-10-02"; "2025-10-03"] |}.

Definition log : list Effects.Event :=
  [ Effects.sent (Effects.select_profile "user-2") (Effects.profile_row None) ].

End Leftover.

(** ** A collation other than the order of the code units *)

Module Collation.
(** A collation that, unlike the order of the code units, ignores the
    case of ASCII letters. *)
Definition caseless (a b : string) : comparison :=
  String.compare (MealSearch.ascii_toLowerCase a) (MealSearch.ascii_toLowerCase b).
End Collation.

(* ================================================================== *)
(** * Part II: theorems *)
(* ================================================================== *)

(** ** Strings *)

Section StringFacts.
Import Text.

Lemma append_empty_r (s : string) : s ++ "" = s.
Proof. induction s as [|c s IH]; simpl; [reflexivity | now rewrite IH]. Qed.

Lemma append_assoc (a b c : string) : (a ++ b) ++ c = a ++ b ++ c.
Proof. induction a as [|x a IH]; simpl; [reflexivity | now rewrite IH]. Qed.

Lemma starts_with_append (p b : string) : starts_with p (p ++ b) = true.
Proof.
  induction p as [|c p IH]; simpl; [reflexivity|].
  now rewrite Ascii.eqb_refl, IH.
Qed.

Lemma starts_with_split (p s : string) :
  starts_with p s = true -> exists b, s = p ++ b.
Proof.
  revert s; induction p as [|c p IH]; intros s H.
  - now exists s.
  - destruct s as [|d s]; simpl in H; [discriminate|].
    apply andb_true_iff in H as [Hc Hp].
    apply Ascii.eqb_eq in Hc; subst d.
    destruct (IH _ Hp) as [b ->]. now exists b.
Qed.

Lemma includes_unfold (p s : string) :
  includes p s =
  starts_with p s || match s with EmptyString => false | String _ r => includes p r end.
Proof. destruct s; reflexivity. Qed.

Lemma includes_intro (p a b : string) : includes p (a ++ p ++ b) = true.
Proof.
  induction a as [|c a IH]; simpl.
  - now rewrite includes_unfold, starts_with_append.
  - rewrite IH. apply orb_true_r.
Qed.

Lemma includes_contains (p s : string) : includes p s = true <-> contains p s.
Proof.
  split.
  - induction s as [|c s IH]; simpl; intros H.
    + rewrite orb_false_r in H. apply starts_with_split in H as [b ->].
      now exists "", b.
    + apply orb_true_iff in H as [H|H].
      * apply starts_with_split in H as [b ->]. now exists "", b.
      * destruct (IH H) as (a & b & ->). now exists (String c a), b.
  - intros (a & b & ->). apply includes_intro.
Qed.


Lemma contains_refl (p : string) : contains p p.
Proof. exists "", "". simpl. now rewrite append_empty_r. Qed.

Lemma contains_trans (p q s : string) :
  contains p q -> contains q s -> contains p s.
Proof.
  intros (a & b & ->) (a' & b' & ->).
  exists (a' ++ a), (b ++ b'). now rewrite !append_assoc.
Qed.

Lemma contains_append_l (p a b : string) : contains p a -> contains p (a ++ b).
Proof.
  intros (x & y & ->). exists x, (y ++ b). now rewrite !append_assoc.
Qed.

Lemma contains_append_r (p a b : string) : contains p b -> contains p (a ++ b).
Proof.
  intros (x & y & ->). exists (a ++ x), y. now rewrite !append_assoc.
Qed.

(** Every joined part occurs in the joined text. *)
Lemma contains_join (sep m : string) (parts : list string) :
  In m parts -> contains m (JS.join sep parts).
Proof.
  unfold JS.join.
  induction parts as [|x [|y rest] IH]; intros Hin.
  - destruct Hin.
  - destruct Hin as [->|[]]. apply contains_refl.
  - destruct Hin as [->|Hin].
    + change (contains m (m ++ sep ++ String.concat sep (y :: rest))).
      apply contains_append_l, contains_refl.
    + change (contains m (x ++ sep ++ String.concat sep (y :: rest))).
      apply contains_append_r, contains_append_r, IH, Hin.
Qed.

Lemma starts_with_before (c : ascii) (p u b : string) :
  occurs c p = false ->
  starts_with p (u ++ String c b) = true -> starts_with p u = true.
Proof.
  revert u; induction p as [|e p IH]; intros u Hc H; [reflexivity|].
  simpl in Hc. apply orb_false_iff in Hc as [Hce Hcp].
  destruct u as [|d u]; simpl in *.
  - apply andb_true_iff in H as [He _]. rewrite eqb_sym in He. congruence.
  - apply andb_true_iff in H as [-> H]. simpl. eauto.
Qed.

(** An occurrence of [p] cannot run across a character [p] lacks. *)
Lemma includes_across (c : ascii) (p a b : string) :
  occurs c p = false ->
  includes p (a ++ String c b) = true ->
  includes p a = true \/ includes p b = true.
Proof.
  intros Hc. induction a as [|d a IH]; simpl; intros H.
  - apply orb_true_iff in H as [H|H]; [|now right].
    left. destruct p as [|e p]; [reflexivity|].
    simpl in *. apply orb_false_iff in Hc as [Hce _].
    apply andb_true_iff in H as [He _]. rewrite eqb_sym in He. congruence.
  - apply orb_true_iff in H as [H|H].
    + left. change (String d (a ++ String c b)) with (String d a ++ String c b) in H.
      apply starts_with_before in H; [|assumption].
      now rewrite H.
    + destruct (IH H) as [H'|H']; [left|now right].
      rewrite H'. apply orb_true_r.
Qed.

Lemma includes_empty (p : string) : includes p "" = true -> p = "".
Proof. destruct p; simpl; [reflexivity | discriminate]. Qed.

Lemma includes_of_empty (s : string) : includes "" s = true.
Proof. destruct s; reflexivity. Qed.

Lemma includes_around (sep p a b : string) :
  sep <> "" -> apart sep p = true ->
  includes p (a ++ sep ++ b) = true ->
  includes p a = true \/ includes p b = true.
Proof.
  revert a; induction sep as [|c sep IH]; intros a Hne Hap H; [congruence|].
  simpl in Hap. apply andb_true_iff in Hap as [Hc Hap].
  apply negb_true_iff in Hc.
  change (includes p (a ++ String c (sep ++ b)) = true) in H.
  apply includes_across in H as [H|H]; [now left| |assumption].
  destruct sep as [|d sep]; [now right|].
  destruct (IH "" ltac:(discriminate) Hap H) as [E|E]; [|now right].
  apply includes_empty in E. subst p. left. apply includes_of_empty.
Qed.

(** A pattern that shares no character with the separator occurs in a
    joined text only inside one of the parts. *)
Lemma includes_join (sep p : string) (parts : list string) :
  sep <> "" -> apart sep p = true ->
  includes p (JS.join sep parts) = true ->
  p = "" \/ exists m, In m parts /\ includes p m = true.
Proof.
  unfold JS.join. intros Hne Hap.
  induction parts as [|x [|y rest] IH]; intros H.
  - left. now apply includes_empty.
  - right. exists x. split; [now left | exact H].
  - change (includes p (x ++ sep ++ String.concat sep (y :: rest)) = true) in H.
    apply includes_around in H as [H|H]; try assumption.
    + right. exists x. split; [now left | exact H].
    + destruct (IH H) as [E|(m & Hm & Hp)]; [now left|].
      right. exists m. split; [now right | exact Hp].
Qed.

End StringFacts.

(** ** The matcher is sound *)

Section Matcher.
Import Text.
Variable p : string.
Variable D : list ascii.

Lemma accepting_false (U : pending) : accepting U = false -> ~ In "" U.
Proof.
  unfold accepting. intros H Hin.
  assert (existsb (String.eqb "") U = true)
    by (apply existsb_exists; exists ""; split; [assumption | reflexivity]).
  congruence.
Qed.

Lemma danger_mono (U V : pending) (s : string) :
  incl U V -> danger p U s -> danger p V s.
Proof.
  intros HUV [(q & Hq & Hs)|H]; [left | now right].
  exists q; split; [apply HUV, Hq | exact Hs].
Qed.

Lemma danger_end (U : pending) :
  In p U -> accepting U = false -> ~ danger p U "".
Proof.
  intros Hp Hacc [(q & Hq & Hs)|H]; apply (accepting_false U Hacc).
  - destruct q; [assumption | discriminate].
  - apply includes_empty in H. now subst p.
Qed.

Lemma in_advance (U : pending) (c : ascii) : In p (advance p U c).
Proof. now left. Qed.

Lemma completes_step (U : pending) (c : ascii) (r : string) :
  accepting U = false ->
  completes U (String c r) -> completes (advance p U c) r.
Proof.
  intros Hacc (q & Hq & Hs).
  destruct q as [|d q]; [now apply accepting_false in Hacc|].
  simpl in Hs. apply andb_true_iff in Hs as [Hd Hs].
  exists q. split; [|exact Hs].
  right. apply in_flat_map. exists (String d q). split; [exact Hq|].
  simpl. rewrite eqb_sym, Hd. now left.
Qed.

Lemma danger_step (U : pending) (c : ascii) (r : string) :
  In p U -> accepting U = false ->
  danger p U (String c r) -> danger p (advance p U c) r.
Proof.
  intros Hp Hacc [H|H].
  - left. now apply completes_step.
  - rewrite includes_unfold in H. apply orb_true_iff in H as [H|H]; [|now right].
    left. apply completes_step; [assumption|]. now exists p.
Qed.

Lemma scan_lit_sound (l : string) :
  forall (U U' : pending) (rest : string),
    scan_lit p U l = Some U' -> In p U -> accepting U = false ->
    danger p U (l ++ rest) ->
    danger p U' rest /\ In p U' /\ accepting U' = false.
Proof.
  induction l as [|c l IH]; intros U U' rest Hscan Hp Hacc Hd;
    cbn [scan_lit] in Hscan.
  - inversion Hscan; subst; auto.
  - destruct (accepting (advance p U c)) eqn:Hacc'; [discriminate|].
    apply (IH _ _ _ Hscan); [apply in_advance | exact Hacc' |].
    apply danger_step; assumption.
Qed.

Lemma subset_incl (U V : pending) : subset U V = true -> incl U V.
Proof.
  unfold subset. intros H q Hq.
  rewrite forallb_forall in H. specialize (H q Hq).
  apply existsb_exists in H as (q' & Hq' & E).
  apply String.eqb_eq in E. now subst q'.
Qed.

Lemma closed_incl (U : pending) (c : ascii) :
  closed p D U = true -> In c D -> incl (advance p U c) U.
Proof.
  unfold closed. intros H Hc. rewrite forallb_forall in H.
  apply subset_incl, H, Hc.
Qed.

Lemma hole_sound (U : pending) (r : string) :
  forall rest,
    closed p D U = true -> In p U -> accepting U = false ->
    all_in D r = true -> danger p U (r ++ rest) -> danger p U rest.
Proof.
  induction r as [|c r IH]; intros rest Hcl Hp Hacc Hr Hd; [exact Hd|].
  simpl in Hr. apply andb_true_iff in Hr as [Hc Hr].
  apply existsb_exists in Hc as (c' & Hc' & E).
  apply Ascii.eqb_eq in E. subst c'.
  apply IH; try assumption.
  apply (danger_mono (advance p U c)); [now apply closed_incl|].
  apply danger_step; assumption.
Qed.

Lemma widen_incl (U : pending) : incl U (widen p D U).
Proof.
  intros q Hq. unfold widen. apply nodup_In, in_or_app. now left.
Qed.

Lemma saturate_incl (n : nat) : forall U, incl U (saturate n p D U).
Proof.
  induction n as [|n IH]; intros U; simpl; [apply incl_refl|].
  destruct (closed p D U); [apply incl_refl|].
  eapply incl_tran; [apply widen_incl | apply IH].
Qed.

Lemma absent_in_sound (segs : list seg) (s : string) :
  shaped D segs s ->
  forall U, absent_in p D U segs = true -> In p U -> accepting U = false ->
            ~ danger p U s.
Proof.
  induction 1 as [|l segs s Hs IH|r segs s Hr Hs IH]; intros U Hab Hp Hacc.
  - now apply danger_end.
  - simpl in Hab. destruct (scan_lit p U l) as [U'|] eqn:Hscan; [|discriminate].
    intros Hd.
    destruct (scan_lit_sound l U U' s Hscan Hp Hacc Hd) as (Hd' & Hp' & Hacc').
    exact (IH U' Hab Hp' Hacc' Hd').
  - simpl in Hab.
    apply andb_true_iff in Hab as [Hab Hrest].
    apply andb_true_iff in Hab as [Hcl Hacc'].
    apply negb_true_iff in Hacc'.
    set (U' := saturate (S (String.length p)) p D U) in *.
    assert (HUU' : incl U U') by apply saturate_incl.
    intros Hd. apply (IH U' Hrest (HUU' _ Hp) Hacc').
    apply (hole_sound U' r); try assumption; [now apply HUU'|].
    now apply (danger_mono U).
Qed.

(** A text of shape [segs], whatever fills its holes, does not contain
    [p] when the matcher says so. *)
Lemma absent_sound (segs : list seg) (s : string) :
  absent p D segs = true -> shaped D segs s -> includes p s = false.
Proof.
  unfold absent. intros H Hs.
  apply andb_true_iff in H as [Hacc H]. apply negb_true_iff in Hacc.
  destruct (includes p s) eqn:E; [|reflexivity].
  exfalso. apply (absent_in_sound segs s Hs [p] H); [now left | exact Hacc|].
  now right.
Qed.

End Matcher.

(** ** Rendered numbers stay within the numeric alphabet *)

Section NumberText.
Import Text JS.

Lemma all_in_append (D : list ascii) (a b : string) :
  all_in D (a ++ b) = all_in D a && all_in D b.
Proof.
  induction a as [|c a IH]; simpl; [reflexivity|].
  now rewrite IH, andb_assoc.
Qed.

Lemma numeric_uint (d : Decimal.uint) :
  all_in numeric_alphabet (NilEmpty.string_of_uint d) = true.
Proof. induction d; simpl; try rewrite IHd; reflexivity. Qed.

Lemma numeric_digits (n : N) : all_in numeric_alphabet (digits n) = true.
Proof. apply numeric_uint. Qed.

Lemma numeric_zeros (n : nat) : all_in numeric_alphabet (zeros n) = true.
Proof. induction n as [|n IH]; simpl; [|rewrite IH]; reflexivity. Qed.

Lemma all_in_substring (D : list ascii) (s : string) :
  all_in D s = true -> forall n m, all_in D (substring n m s) = true.
Proof.
  induction s as [|c s IH]; intros Hs n m.
  - destruct n, m; reflexivity.
  - simpl in Hs. apply andb_true_iff in Hs as [Hc Hs].
    destruct n as [|n]; [destruct m as [|m]|]; simpl; auto.
    now rewrite Hc, IH.
Qed.

Lemma numeric_format_decimal (ds : string) (n : Z) :
  all_in numeric_alphabet ds = true ->
  all_in numeric_alphabet (format_decimal ds n) = true.
Proof.
  intros Hds. unfold format_decimal.
  set (ex := (if n - 1 <? 0 then "-" else "+") ++ digits (Z.to_N (Z.abs (n - 1)))).
  assert (Hex : all_in numeric_alphabet ex = true).
  { subst ex. rewrite all_in_append, numeric_digits. now destruct (n - 1 <? 0). }
  clearbody ex.
  destruct ((Z.of_nat (String.length ds) <=? n) && (n <=? 21));
    [|destruct ((0 <? n) && (n <=? 21)); [|destruct ((-6 <? n) && (n <=? 0))]].
  - now rewrite all_in_append, Hds, numeric_zeros.
  - rewrite !all_in_append, !all_in_substring by assumption. reflexivity.
  - rewrite !all_in_append, numeric_zeros, Hds. reflexivity.
  - destruct ds as [|d [|d' rest]].
    + rewrite all_in_append, Hex. reflexivity.
    + change (String d "e" ++ ?x) with (String d "" ++ "e" ++ x).
      rewrite !all_in_append, Hds, Hex. reflexivity.
    + change (String d (String d' rest)) with (String d "" ++ String d' rest) in Hds.
      rewrite all_in_append in Hds. apply andb_true_iff in Hds as [Hd Hrest].
      change (String d "." ++ ?x) with (String d "" ++ "." ++ x).
      rewrite !all_in_append, Hd, Hrest, Hex. reflexivity.
Qed.

Lemma numeric_toString_finite (m : positive) (e : Z) :
  all_in numeric_alphabet (toString_finite m e) = true.
Proof.
  unfold toString_finite, shortest_digits.
  destruct (shortest_from _ _ _ _ _) as [s0 q0].
  destruct (strip_zeros _ _ _) as [s q].
  apply numeric_format_decimal, numeric_digits.
Qed.

Lemma numeric_Number_toString (x : number) :
  all_in numeric_alphabet (Number_toString x) = true.
Proof.
  unfold Number_toString.
  destruct (Prim2SF x) as [s|s| |s m e]; try destruct s; try reflexivity;
    rewrite all_in_append, numeric_toString_finite; reflexivity.
Qed.

Lemma numeric_fixed_digits (n : N) (fd : nat) :
  all_in numeric_alphabet (fixed_digits n fd) = true.
Proof.
  unfold fixed_digits. destruct fd as [|fd]; [apply numeric_digits|].
  set (m := if (_ <=? _)%nat then _ else _).
  assert (Hm : all_in numeric_alphabet m = true).
  { subst m. destruct (_ <=? _)%nat; [|apply numeric_digits].
    now rewrite all_in_append, numeric_zeros, numeric_digits. }
  rewrite !all_in_append, !all_in_substring by assumption. reflexivity.
Qed.

Lemma numeric_toFixed (x : number) (fd : nat) :
  all_in numeric_alphabet (toFixed x fd) = true.
Proof.
  unfold toFixed.
  destruct (Prim2SF x) as [s|s| |s m e]; try destruct s; try reflexivity;
    try apply numeric_fixed_digits;
    rewrite all_in_append; destruct (ge_pow10 m e 21);
    rewrite ?numeric_toString_finite, ?numeric_fixed_digits; reflexivity.
Qed.

End NumberText.

(** ** The recommendation text, message by message *)

Ltac table := cbv beta iota zeta delta [Templates.fires].
Ltac table_in H := cbv beta iota zeta delta [Templates.fires] in H.

Section RecommendationFacts.
Import Text JS Schema AIRecommendation Templates.
Local Open Scope float_scope.

Lemma shaped_one (D : list ascii) (l : string) : shaped D [Lit l] l.
Proof.
  rewrite <- (append_empty_r l) at 2. apply shaped_lit, shaped_nil.
Qed.

Lemma kind_shaped (k : Kind) (m : string) :
  is_kind k m -> shaped numeric_alphabet (shape k) m.
Proof.
  destruct 1; cbn [shape]; try apply shaped_one;
    unfold msg_below, msg_exceeds, msg_aligned, msg_weight_increased,
      msg_weight_decreased, msg_weight_lost;
    repeat first
      [ apply shaped_one
      | apply shaped_lit
      | apply shaped_hole;
        [ first [apply numeric_Number_toString | apply numeric_toFixed] | ] ].
Qed.

Lemma kind_eqb_eq (k k' : Kind) : kind_eqb k k' = true -> k = k'.
Proof. destruct k, k'; simpl; congruence. Qed.

Lemma markers_checked :
  forallb (fun k =>
    forallb (fun k' =>
      kind_eqb k k' || absent (marker k) numeric_alphabet (shape k')) all_kinds)
    all_kinds = true.
Proof. vm_compute. reflexivity. Qed.

Lemma all_kinds_complete (k : Kind) : In k all_kinds.
Proof. destruct k; simpl; tauto. Qed.

Lemma marker_absent (k k' : Kind) :
  kind_eqb k k' = false ->
  absent (marker k) numeric_alphabet (shape k') = true.
Proof.
  intros E. pose proof markers_checked as H.
  rewrite forallb_forall in H. specialize (H k (all_kinds_complete k)).
  rewrite forallb_forall in H. specialize (H k' (all_kinds_complete k')).
  now rewrite E in H.
Qed.

Lemma marker_present (k : Kind) (m : string) :
  is_kind k m -> contains (marker k) m.
Proof.
  destruct 1; cbn [marker];
    unfold msg_below, msg_exceeds, msg_aligned, msg_weight_increased,
      msg_weight_decreased, msg_weight_lost.
  - apply includes_contains. vm_compute. reflexivity.
  - eexists ("Your average daily intake (" ++ _)%string, _.
    rewrite append_assoc. reflexivity.
  - eexists ("Your average daily intake (" ++ _)%string, _.
    rewrite append_assoc. reflexivity.
  - eexists ("Great job! Your calorie intake (" ++ _)%string, ""%string.
    rewrite append_assoc, append_empty_r. reflexivity.
  - apply includes_contains. vm_compute. reflexivity.
  - eexists ""%string, _. reflexivity.
  - eexists ""%string, _. reflexivity.
  - eexists ""%string, _. reflexivity.
  - apply includes_contains. vm_compute. reflexivity.
  - apply includes_contains. vm_compute. reflexivity.
  - apply includes_contains. vm_compute. reflexivity.
  - apply includes_contains. vm_compute. reflexivity.
Qed.

(** A message carries the marker of its own kind only. *)
Lemma marker_kind (k k' : Kind) (m : string) :
  is_kind k' m -> includes (marker k) m = true -> k = k'.
Proof.
  intros Hk Hm. destruct (kind_eqb k k') eqn:E; [now apply kind_eqb_eq|].
  rewrite (absent_sound _ _ _ _ (marker_absent k k' E) (kind_shaped k' m Hk)) in Hm.
  discriminate.
Qed.

Lemma message_kind profile meals weights (k : Kind) :
  is_kind k (message profile meals weights k).
Proof. destruct k; constructor. Qed.

Lemma ltb_zero_asym (d : number) : (d <? 0) = true -> (0 <? d) = false.
Proof.
  rewrite !FloatAxioms.ltb_spec.
  change (Prim2SF 0) with (S754_zero false).
  destruct (Prim2SF d) as [s|s| |s m e]; try destruct s;
    unfold SFltb; simpl; congruence.
Qed.

Lemma mealAdvice_sound profile meals weights (m : string) :
  In m (mealAdvice profile meals) ->
  exists k, fires profile meals weights k = true /\ m = message profile meals weights k.
Proof.
  destruct meals as [[|m0 ms]|]; cbn [mealAdvice].
  - intros [<-|[]]. now exists start_logging.
  - intros Hin. apply in_app_or in Hin as [Hin|Hin].
    + revert Hin.
      destruct (avgDailyCalories (m0 :: ms) <? _) eqn:E1.
      { intros [<-|[]]. exists below. split; [table; exact E1 | reflexivity]. }
      destruct (_ <? avgDailyCalories (m0 :: ms)) eqn:E2; intros [<-|[]].
      * exists exceeds. split; [table; now rewrite E1, E2 | reflexivity].
      * exists aligned. split; [table; now rewrite E1, E2 | reflexivity].
    + revert Hin.
      destruct ((avgProtein (m0 :: ms) <? 50) && _) eqn:E; [|intros []].
      intros [<-|[]].
      exists protein. split; [table; exact E | reflexivity].
  - intros [<-|[]]. now exists start_logging.
Qed.

Lemma weightAdvice_sound profile meals weights (m : string) :
  In m (weightAdvice profile weights) ->
  exists k, fires profile meals weights k = true /\ m = message profile meals weights k.
Proof.
  destruct weights as [[|w0 [|w1 ws]]|]; cbn [weightAdvice];
    try (intros [<-|[]]; now exists log_weight).
  destruct (goal_eqb _ weight_loss && (0 <? _)) eqn:E1.
  { intros [<-|[]]. exists weight_increased. split; [table; exact E1 | reflexivity]. }
  destruct (goal_eqb _ muscle_gain && (_ <? 0)) eqn:E2.
  { intros [<-|[]]. exists weight_decreased.
    split; [table; now rewrite E1, E2 | reflexivity]. }
  destruct ((_ <? 0) && goal_eqb _ weight_loss) eqn:E3; [|intros []].
  intros [<-|[]].
  exists weight_lost. split; [table; now rewrite E1, E2, E3 | reflexivity].
Qed.

Lemma goalTip_sound profile meals weights (m : string) :
  In m (goalTip profile) ->
  exists k, fires profile meals weights k = true /\ m = message profile meals weights k.
Proof.
  unfold goalTip.
  destruct (goal_eqb _ weight_loss) eqn:E1.
  { intros [<-|[]]. exists tip_loss. split; [table; exact E1 | reflexivity]. }
  destruct (goal_eqb _ muscle_gain) eqn:E2; intros [<-|[]].
  - exists tip_gain. split; [table; now rewrite E1, E2 | reflexivity].
  - exists tip_maintain. split; [table; now rewrite E1, E2 | reflexivity].
Qed.

(** Every element of [recommendations] is the message of a rule that
    fires, *)
Lemma recommendations_sound profile meals weights (m : string) :
  In m (recommendations profile meals weights) ->
  exists k, fires profile meals weights k = true /\ m = message profile meals weights k.
Proof.
  unfold recommendations. intros Hin.
  apply in_app_or in Hin as [Hin|Hin]; [now apply mealAdvice_sound|].
  apply in_app_or in Hin as [Hin|Hin];
    [now apply weightAdvice_sound | now apply goalTip_sound].
Qed.

(** and every rule that fires has its message there. *)
Lemma recommendations_complete profile meals weights (k : Kind) :
  fires profile meals weights k = true ->
  In (message profile meals weights k) (recommendations profile meals weights).
Proof.
  unfold recommendations. intros Hf.
  destruct k.
  - apply in_or_app. left. destruct meals as [[|m0 ms]|]; try discriminate Hf; now left.
  - apply in_or_app. left. destruct meals as [[|m0 ms]|]; try discriminate Hf.
    table_in Hf. cbn [mealAdvice]. apply in_or_app. left. rewrite Hf. now left.
  - apply in_or_app. left. destruct meals as [[|m0 ms]|]; try discriminate Hf.
    table_in Hf. apply andb_true_iff in Hf as [E1 E2]. apply negb_true_iff in E1.
    cbn [mealAdvice]. apply in_or_app. left. rewrite E1, E2. now left.
  - apply in_or_app. left. destruct meals as [[|m0 ms]|]; try discriminate Hf.
    table_in Hf. apply andb_true_iff in Hf as [E1 E2].
    apply negb_true_iff in E1, E2.
    cbn [mealAdvice]. apply in_or_app. left. rewrite E1, E2. now left.
  - apply in_or_app. left. destruct meals as [[|m0 ms]|]; try discriminate Hf.
    table_in Hf. cbn [mealAdvice]. apply in_or_app. right. rewrite Hf. now left.
  - apply in_or_app. right. apply in_or_app. left.
    destruct weights as [[|w0 [|w1 ws]]|]; try discriminate Hf.
    table_in Hf. cbn [weightAdvice]. rewrite Hf. now left.
  - apply in_or_app. right. apply in_or_app. left.
    destruct weights as [[|w0 [|w1 ws]]|]; try discriminate Hf.
    table_in Hf. apply andb_true_iff in Hf as [E1 E2]. apply negb_true_iff in E1.
    cbn [weightAdvice]. rewrite E1, E2. now left.
  - apply in_or_app. right. apply in_or_app. left.
    destruct weights as [[|w0 [|w1 ws]]|]; try discriminate Hf.
    table_in Hf. apply andb_true_iff in Hf as [Hf E3].
    apply andb_true_iff in Hf as [E1 E2]. apply negb_true_iff in E1, E2.
    cbn [weightAdvice]. rewrite E1, E2, E3. now left.
  - apply in_or_app. right. apply in_or_app. left.
    destruct weights as [[|w0 [|w1 ws]]|]; try discriminate Hf; now left.
  - apply in_or_app. right. apply in_or_app. right.
    table_in Hf. unfold goalTip. rewrite Hf. now left.
  - apply in_or_app. right. apply in_or_app. right.
    table_in Hf. apply andb_true_iff in Hf as [E1 E2]. apply negb_true_iff in E1.
    unfold goalTip. rewrite E1, E2. now left.
  - apply in_or_app. right. apply in_or_app. right.
    table_in Hf. apply andb_true_iff in Hf as [E1 E2]. apply negb_true_iff in E1, E2.
    unfold goalTip. rewrite E1, E2. now left.
Qed.

Lemma marker_apart (k : Kind) :
  apart blank_line (marker k) = true /\ marker k <> ""%string.
Proof. destruct k; split; (reflexivity || discriminate). Qed.

(** The text of a profile mentions exactly the kinds whose rule fires. *)
Lemma mentions_fires profile meals weights (k : Kind) :
  mentions k (analyzeAndRecommend (Some profile) meals weights) <->
  fires profile meals weights k = true.
Proof.
  cbn [analyzeAndRecommend]. split.
  - intros (m & Hk & Hm).
    pose proof (contains_trans _ _ _ (marker_present k m Hk) Hm) as Hc.
    apply includes_contains in Hc.
    destruct (marker_apart k) as [Hap Hne].
    apply includes_join in Hc as [E|(m' & Hin & Hinc)];
      [congruence | | discriminate | exact Hap].
    apply (recommendations_sound profile meals weights) in Hin as (k' & Hf & ->).
    now rewrite (marker_kind k k' _ (message_kind _ _ _ k') Hinc).
  - intros Hf. exists (message profile meals weights k). split.
    + apply message_kind.
    + apply contains_join, recommendations_complete, Hf.
Qed.

(** The message of a rule that fires occurs in the text, numbers and all. *)
Lemma fires_contains profile meals weights (k : Kind) :
  fires profile meals weights k = true ->
  contains (message profile meals weights k)
           (analyzeAndRecommend (Some profile) meals weights).
Proof.
  intros Hf. apply contains_join, recommendations_complete, Hf.
Qed.

End RecommendationFacts.

(** ** The claims about [analyzeAndRecommend] *)

Section RecommendationClaims.
Import Text JS Schema AIRecommendation Templates.
Local Open Scope float_scope.

(** C9.  With no profile the function returns the one sentence asking to
    complete the profile, whatever the meals and the weights. *)
Theorem no_profile_text
    (meals : option (list MealLog.t)) (weights : option (list WeightLog.t)) :
  analyzeAndRecommend None meals weights
  = "Complete your profile to get personalized recommendations."%string.
Proof. reflexivity. Qed.




Lemma goal_eqb_eq (a b : GoalType) : goal_eqb a b = true <-> a = b.
Proof. destruct a, b; simpl; split; congruence. Qed.

Lemma not_mentioned profile meals weights (k : Kind) :
  fires profile meals weights k = false ->
  ~ mentions k (analyzeAndRecommend (Some profile) meals weights).
Proof. intros Hk Hm. apply mentions_fires in Hm. congruence. Qed.

(** C3.  With two or more weight entries, newest first, and
    [delta = weights[0].weight - weights[1].weight]: a weight-loss goal
    with a positive delta gives the "weight increased" warning, a
    muscle-gain goal with a negative delta the "weight decreased" warning,
    a weight-loss goal with a negative delta the congratulation, and the
    "Log your weight regularly" message is absent.  With fewer than two
    entries (or none) that message is present and the three others are
    absent. *)
Theorem weight_message_by_delta
    (profile : UserProfile.t) (meals : option (list MealLog.t))
    (weights : option (list WeightLog.t)) :
  let text := analyzeAndRecommend (Some profile) meals weights in
  let goal := UserProfile.goal_type profile in
  match weights with
  | Some (w0 :: w1 :: _) =>
      let delta := WeightLog.weight w0 - WeightLog.weight w1 in
      (goal = weight_loss -> (0 <? delta) = true ->
       contains (msg_weight_increased delta) text)
      /\ (goal = muscle_gain -> (delta <? 0) = true ->
          contains (msg_weight_decreased delta) text)
      /\ (goal = weight_loss -> (delta <? 0) = true ->
          contains (msg_weight_lost delta) text)
      /\ ~ contains msg_log_weight text
  | _ =>
      contains msg_log_weight text
      /\ ~ mentions weight_increased text
      /\ ~ mentions weight_decreased text
      /\ ~ mentions weight_lost text
  end.
Proof.
  intros text goal. subst text.
  assert (Hfew : match weights with Some (_ :: _ :: _) => False | _ => True end ->
    contains msg_log_weight (analyzeAndRecommend (Some profile) meals weights)
    /\ ~ mentions weight_increased (analyzeAndRecommend (Some profile) meals weights)
    /\ ~ mentions weight_decreased (analyzeAndRecommend (Some profile) meals weights)
    /\ ~ mentions weight_lost (analyzeAndRecommend (Some profile) meals weights)).
  { intros Hw. repeat split.
    - apply (fires_contains profile meals weights log_weight).
      now destruct weights as [[|w0 [|w1 ws]]|].
    - apply not_mentioned. now destruct weights as [[|w0 [|w1 ws]]|].
    - apply not_mentioned. now destruct weights as [[|w0 [|w1 ws]]|].
    - apply not_mentioned. now destruct weights as [[|w0 [|w1 ws]]|]. }
  destruct weights as [[|w0 [|w1 ws]]|]; try (apply Hfew; exact I).
  clear Hfew. intros delta. repeat split.
  - intros Hg Hd.
    apply (fires_contains profile meals (Some (w0 :: w1 :: ws)) weight_increased).
    table. fold goal delta. rewrite Hg, Hd. reflexivity.
  - intros Hg Hd.
    apply (fires_contains profile meals (Some (w0 :: w1 :: ws)) weight_decreased).
    table. fold goal delta. rewrite Hg, Hd. reflexivity.
  - intros Hg Hd.
    apply (fires_contains profile meals (Some (w0 :: w1 :: ws)) weight_lost).
    table. fold goal delta. rewrite Hg, Hd, (ltb_zero_asym delta Hd). reflexivity.
  - intros Hc.
    assert (Hm : mentions log_weight
                   (analyzeAndRecommend (Some profile) meals (Some (w0 :: w1 :: ws))))
      by (exists msg_log_weight; split; [constructor | exact Hc]).
    apply mentions_fires in Hm. discriminate Hm.
Qed.

Lemma weight_message_by_delta_witness :
  contains "Your weight decreased by 1.5 kg. Increase calorie intake and focus on protein-rich foods."
    (analyzeAndRecommend (Some (Examples.profile muscle_gain 2000))
       (Some Examples.two_days) (Some Examples.lighter))
  /\ contains "Your weight increased by 1.5 kg. Review your calorie deficit and increase physical activity."
    (analyzeAndRecommend (Some (Examples.profile weight_loss 2000))
       (Some Examples.two_days) (Some Examples.heavier))
  /\ contains "Excellent progress! You've lost 1.5 kg. Keep up the good work!"
    (analyzeAndRecommend (Some (Examples.profile weight_loss 2000))
       (Some Examples.two_days) (Some Examples.lighter))
  /\ contains msg_log_weight
    (analyzeAndRecommend (Some (Examples.profile weight_loss 2000))
       (Some Examples.two_days) (Some [Examples.weighing "2025-11-02" 70.5])).
Proof.
  split; [|split; [|split]].
  - exact (proj1 (proj2 (weight_message_by_delta (Examples.profile muscle_gain 2000)
             (Some Examples.two_days) (Some Examples.lighter))) eq_refl eq_refl).
  - exact (proj1 (weight_message_by_delta (Examples.profile weight_loss 2000)
             (Some Examples.two_days) (Some Examples.heavier)) eq_refl eq_refl).
  - exact (proj1 (proj2 (proj2 (weight_message_by_delta (Examples.profile weight_loss 2000)
             (Some Examples.two_days) (Some Examples.lighter)))) eq_refl eq_refl).
  - exact (proj1 (weight_message_by_delta (Examples.profile weight_loss 2000)
             (Some Examples.two_days) (Some [Examples.weighing "2025-11-02" 70.5]))).
Defined.

(** *** The averages *)

Lemma tally_without_food (acc : Totals) (meal : MealLog.t) :
  has_food meal = false -> tally acc meal = acc.
Proof. unfold has_food, tally. now destruct (MealLog.food_items meal). Qed.

Lemma totals_skip_unjoined (meals : list MealLog.t) :
  forall acc, fold_left tally meals acc = fold_left tally (filter has_food meals) acc.
Proof.
  induction meals as [|meal meals IH]; intros acc; [reflexivity|].
  cbn [filter fold_left]. destruct (has_food meal) eqn:E.
  - cbn [fold_left]. apply IH.
  - rewrite tally_without_food by assumption. apply IH.
Qed.

Lemma in_Set_add (d x : string) (s : list string) :
  In d (Set_add x s) <-> d = x \/ In d s.
Proof.
  unfold Set_add. destruct (existsb (String.eqb x) s) eqn:E.
  - split; [now right|]. intros [->|H]; [|exact H].
    apply existsb_exists in E as (y & Hy & Exy).
    apply String.eqb_eq in Exy. now subst y.
  - rewrite in_app_iff. simpl. split; [intros [H|[->|[]]]|intros [->|H]]; auto.
Qed.

Lemma NoDup_Set_add (x : string) (s : list string) :
  NoDup s -> NoDup (Set_add x s).
Proof.
  unfold Set_add. intros Hs. destruct (existsb (String.eqb x) s) eqn:E; [exact Hs|].
  apply NoDup_app; [exact Hs | repeat constructor; intros [] |].
  intros y Hy [->|[]].
  assert (existsb (String.eqb y) s = true)
    by (apply existsb_exists; exists y; split; [exact Hy | apply String.eqb_refl]).
  congruence.
Qed.

Lemma daysLogged_fold (meals : list MealLog.t) :
  forall acc d,
    In d (daysLogged (fold_left tally meals acc)) <->
    In d (daysLogged acc) \/ exists meal, In meal meals /\ logged_on d meal.
Proof.
  induction meals as [|meal meals IH]; intros acc d; cbn [fold_left].
  - split; [now left | intros [H|(meal & [] & _)]; exact H].
  - rewrite IH. unfold tally at 1, logged_on at 2, has_food.
    destruct (MealLog.food_items meal) as [food|] eqn:E.
    + cbn [daysLogged]. rewrite in_Set_add. split.
      * intros [[->|H]|(meal' & Hin & Hl)]; auto.
        -- right. exists meal. split; [now left|].
           unfold logged_on, has_food. now rewrite E.
        -- right. exists meal'. split; [now right | exact Hl].
      * intros [H|(meal' & [<-|Hin] & Hl)]; auto.
        -- left. left. destruct Hl as [_ <-]. reflexivity.
        -- right. exists meal'. now split.
    + split.
      * intros [H|(meal' & Hin & Hl)]; auto.
        right. exists meal'. split; [now right | exact Hl].
      * intros [H|(meal' & [<-|Hin] & Hl)]; auto.
        -- destruct Hl as [Hf _]. unfold has_food in Hf. now rewrite E in Hf.
        -- right. exists meal'. now split.
Qed.

Lemma daysLogged_NoDup (meals : list MealLog.t) :
  forall acc, NoDup (daysLogged acc) -> NoDup (daysLogged (fold_left tally meals acc)).
Proof.
  induction meals as [|meal meals IH]; intros acc Hacc; cbn [fold_left]; [exact Hacc|].
  apply IH. unfold tally. destruct (MealLog.food_items meal); [|exact Hacc].
  cbn [daysLogged]. now apply NoDup_Set_add.
Qed.

Lemma no_food_no_totals (meals : list MealLog.t) :
  Forall (fun meal => MealLog.food_items meal = None) meals ->
  totals meals = no_totals.
Proof.
  unfold totals. rewrite totals_skip_unjoined.
  intros H. replace (filter has_food meals) with (@nil MealLog.t); [reflexivity|].
  induction H as [|meal meals Hm _ IH]; [reflexivity|].
  cbn [filter]. unfold has_food at 1. now rewrite Hm.
Qed.

Lemma text_not_empty profile meals weights :
  analyzeAndRecommend profile meals weights <> ""%string.
Proof.
  destruct profile as [profile|]; [|discriminate].
  intros E.
  assert (Hk : exists k, fires profile meals weights k = true
                         /\ message profile meals weights k <> ""%string).
  { destruct (goal_eqb (UserProfile.goal_type profile) weight_loss) eqn:E1;
      [|destruct (goal_eqb (UserProfile.goal_type profile) muscle_gain) eqn:E2].
    - exists tip_loss. split; [table; exact E1 | discriminate].
    - exists tip_gain. split; [table; now rewrite E1, E2 | discriminate].
    - exists tip_maintain. split; [table; now rewrite E1, E2 | discriminate]. }
  destruct Hk as (k & Hf & Hne).
  apply fires_contains, includes_contains in Hf. rewrite E in Hf.
  now apply includes_empty in Hf.
Qed.

(** C10.  The function returns a (non-empty) text for every input; both
    averages divide by [max(number of logged days, 1)], which is at
    least 1; a meal without a joined food item changes neither the totals
    nor the set of logged days, whose members are the dates of the meals
    that have a food item; and when no meal has one, the totals are zero
    and both averages are [0 / 1 = 0]. *)
Theorem averages_never_divide_by_zero
    (profile : option UserProfile.t) (maybe_meals : option (list MealLog.t))
    (weights : option (list WeightLog.t)) (meals : list MealLog.t) :
  (exists text, analyzeAndRecommend profile maybe_meals weights = text
                /\ text <> ""%string)
  /\ avgDailyCalories meals
     = totalCalories (totals meals)
       / number_of_nat (Nat.max (List.length (daysLogged (totals meals))) 1)
  /\ avgProtein meals
     = totalProtein (totals meals)
       / number_of_nat (Nat.max (List.length (daysLogged (totals meals))) 1)
  /\ (1 <= Nat.max (List.length (daysLogged (totals meals))) 1)%nat
  /\ totals meals = totals (filter has_food meals)
  /\ NoDup (daysLogged (totals meals))
  /\ (forall d, In d (daysLogged (totals meals)) <->
                exists meal, In meal meals /\ MealLog.food_items meal <> None
                             /\ split_head "T" (MealLog.logged_at meal) = d)
  /\ (Forall (fun meal => MealLog.food_items meal = None) meals ->
      totals meals = no_totals
      /\ avgDailyCalories meals = 0 /\ avgProtein meals = 0).
Proof.
  split; [|split; [|split; [|split; [|split; [|split; [|split]]]]]].
  - eexists. split; [reflexivity | apply text_not_empty].
  - reflexivity.
  - reflexivity.
  - apply Nat.le_max_r.
  - apply totals_skip_unjoined.
  - apply daysLogged_NoDup. constructor.
  - intros d. unfold totals. rewrite daysLogged_fold. split.
    + intros [[]|(meal & Hin & Hf & Hd)]. exists meal. repeat split; auto.
      unfold has_food in Hf. destruct (MealLog.food_items meal); congruence.
    + intros (meal & Hin & Hf & Hd). right. exists meal. repeat split; auto.
      unfold has_food. now destruct (MealLog.food_items meal).
  - intros H. unfold avgDailyCalories, avgProtein.
    rewrite (no_food_no_totals meals H). repeat split.
Qed.

Lemma averages_never_divide_by_zero_witness :
  avgDailyCalories Examples.unjoined = 0
  /\ avgProtein Examples.unjoined = 0
  /\ avgDailyCalories Examples.two_days = 675.5
  /\ analyzeAndRecommend (Some (Examples.profile maintenance 2000))
       (Some Examples.unjoined) None
     = join blank_line
         [ "Your average daily intake (0 cal) is below your target (2000 cal). Consider adding nutrient-dense snacks.";
           "Log your weight regularly to track progress and adjust your plan accordingly.";
           "Tip: Maintain balanced macros, stay active, and monitor your weight to ensure you remain at maintenance." ]%string.
Proof.
  pose proof (averages_never_divide_by_zero None None None Examples.unjoined)
    as (_ & _ & _ & _ & _ & _ & _ & Hzero).
  destruct (Hzero ltac:(repeat constructor)) as (_ & Hc & Hp).
  split; [exact Hc|]. split; [exact Hp|]. split; reflexivity.
Defined.

(** *** The protein average, in the words of the specification *)

Lemma totalProtein_fold (meals : list MealLog.t) :
  forall acc,
    totalProtein (fold_left tally meals acc)
    = fold_left PrimFloat.add
        (map DailyAverage.proteinOf (DailyAverage.counted meals)) (totalProtein acc).
Proof.
  induction meals as [|meal meals IH]; intros acc; [reflexivity|].
  cbn [fold_left]. rewrite IH. unfold DailyAverage.counted. cbn [filter].
  unfold tally.
  destruct (MealLog.food_items meal) as [food|] eqn:E; [|reflexivity].
  cbn [map fold_left totalProtein].
  assert (Ep : DailyAverage.proteinOf meal
               = FoodItem.protein food * MealLog.servings meal)
    by (unfold DailyAverage.proteinOf; now rewrite E).
  rewrite Ep. reflexivity.
Qed.

Lemma distinctDays_length (meals : list MealLog.t) :
  List.length (daysLogged (totals meals))
  = List.length (DailyAverage.distinctDays meals).
Proof.
  apply Permutation_length, NoDup_Permutation.
  - apply daysLogged_NoDup. constructor.
  - apply NoDup_nodup.
  - intros d. unfold totals. rewrite daysLogged_fold.
    unfold DailyAverage.distinctDays. rewrite nodup_In, in_map_iff.
    unfold DailyAverage.counted. split.
    + intros [[]|(meal & Hin & Hf & Hd)]. exists meal. split; [exact Hd|].
      apply filter_In. split; [exact Hin|].
      unfold has_food in Hf. now destruct (MealLog.food_items meal).
    + intros (meal & Hd & Hin). apply filter_In in Hin as [Hin Hf].
      right. exists meal. split; [exact Hin|]. split; [|exact Hd].
      unfold has_food. now destruct (MealLog.food_items meal).
Qed.

Lemma avgProtein_per_day (meals : list MealLog.t) :
  avgProtein meals = DailyAverage.proteinPerDay meals.
Proof.
  unfold avgProtein, DailyAverage.proteinPerDay, divisor, DailyAverage.totalProtein.
  rewrite distinctDays_length. unfold totals at 1. rewrite totalProtein_fold.
  reflexivity.
Qed.

(** C4.  For a profile and a non-empty meal list the text contains the
    protein advice exactly when the goal is muscle gain and the average
    daily protein is below 50 grams; the average is the protein of the
    meals that have a food item, added up in list order, over the number
    of distinct days on which such a meal was logged (over 1 when there
    is no such day). *)
Theorem protein_advice_exactly_when
    (profile : UserProfile.t) (meals : list MealLog.t)
    (weights : option (list WeightLog.t)) :
  meals <> [] ->
  avgProtein meals = DailyAverage.proteinPerDay meals
  /\ (contains msg_protein (analyzeAndRecommend (Some profile) (Some meals) weights)
      <-> UserProfile.goal_type profile = muscle_gain
          /\ (DailyAverage.proteinPerDay meals <? 50) = true).
Proof.
  intros Hne. split; [apply avgProtein_per_day|].
  rewrite <- avgProtein_per_day.
  destruct meals as [|m0 ms]; [congruence|]. split.
  - intros Hc.
    assert (Hm : mentions protein
                   (analyzeAndRecommend (Some profile) (Some (m0 :: ms)) weights))
      by (exists msg_protein; split; [constructor | exact Hc]).
    apply mentions_fires in Hm. table_in Hm.
    apply andb_true_iff in Hm as [Hp Hg]. apply goal_eqb_eq in Hg. now split.
  - intros [Hg Hp].
    apply (fires_contains profile (Some (m0 :: ms)) weights protein).
    table. rewrite Hp. now apply goal_eqb_eq in Hg as ->.
Qed.

Lemma protein_advice_exactly_when_witness :
  Examples.two_days <> [] /\ Examples.feast <> []
  /\ DailyAverage.proteinPerDay Examples.two_days = 25
  /\ contains msg_protein
       (analyzeAndRecommend (Some (Examples.profile muscle_gain 2000))
          (Some Examples.two_days) (Some Examples.lighter))
  /\ ~ contains msg_protein
         (analyzeAndRecommend (Some (Examples.profile weight_loss 2000))
            (Some Examples.two_days) (Some Examples.lighter))
  /\ DailyAverage.proteinPerDay Examples.feast = 120
  /\ ~ contains msg_protein
         (analyzeAndRecommend (Some (Examples.profile muscle_gain 2000))
            (Some Examples.feast) None).
Proof.
  assert (H2 : Examples.two_days <> []) by discriminate.
  assert (H1 : Examples.feast <> []) by discriminate.
  split; [exact H2|]. split; [exact H1|].
  split; [reflexivity|]. split; [|split; [|split; [reflexivity|]]].
  - exact (proj2 (proj2 (protein_advice_exactly_when
             (Examples.profile muscle_gain 2000) Examples.two_days
             (Some Examples.lighter) H2)) (conj eq_refl eq_refl)).
  - intros Hc.
    destruct (proj1 (proj2 (protein_advice_exactly_when
                (Examples.profile weight_loss 2000) Examples.two_days
                (Some Examples.lighter) H2)) Hc) as [Hg _].
    discriminate Hg.
  - intros Hc.
    destruct (proj1 (proj2 (protein_advice_exactly_when
                (Examples.profile muscle_gain 2000) Examples.feast None H1)) Hc)
      as [_ Hp].
    discriminate Hp.
Defined.

(** The text for a sample week. *)
Example recommendation_for_a_sample_week :
  analyzeAndRecommend (Some (Examples.profile muscle_gain 2000))
    (Some Examples.two_days) (Some Examples.lighter)
  = join blank_line
      [ "Your average daily intake (676 cal) is below your target (2000 cal). Consider adding nutrient-dense snacks.";
        "For muscle gain, increase your protein intake. Aim for lean meats, fish, eggs, and legumes.";
        "Your weight decreased by 1.5 kg. Increase calorie intake and focus on protein-rich foods.";
        "Tip: Prioritize protein intake (1.6-2.2g per kg body weight), progressive resistance training, and adequate rest." ]%string.
Proof. reflexivity. Qed.

End RecommendationClaims.

(** ** The dashboard's day filter *)

Section DashboardFacts.
Import Dashboard.

(** What the filter selects: the user's meals of the day logged before
    23:59:59. *)
Lemma selected_spec (user_id : string) (today : Z) (m : StoredMeal) :
  well_formed (logged_at m) ->
  (selected user_id today m = true <->
   Schema.MealLog.user_id (row m) = user_id
   /\ day (logged_at m) = today
   /\ (microsecond (logged_at m) < 86399 * 1000000)%Z).
Proof.
  unfold well_formed, microseconds_per_day, selected, ts_leb, ts_ltb, start_of,
    T23_59_59. cbn [day microsecond]. intros Hwf.
  rewrite !andb_true_iff, negb_true_iff, String.eqb_eq, !orb_true_iff,
    orb_false_iff, !andb_true_iff, andb_false_iff, !Z.ltb_lt, !Z.ltb_ge,
    !Z.eqb_eq, Z.eqb_neq.
  split.
  - intros [[Hu [Hlo Hlo']] Hhi]. repeat split; try assumption; lia.
  - intros (Hu & Hd & Hms). repeat split; try assumption; lia.
Qed.

(** The meals of the day logged before 23:59:59 are fetched; *)
Lemma meals_before_last_second_are_fetched
    (user_id : string) (today : Z) (meal_logs : list StoredMeal) (m : StoredMeal) :
  In m meal_logs -> Schema.MealLog.user_id (row m) = user_id ->
  on_day today m -> (microsecond (logged_at m) < 86399 * 1000000)%Z ->
  In (row m) (mealsData user_id today meal_logs).
Proof.
  intros Hin Hu [Hd Hwf] Hms. unfold mealsData. apply in_map, filter_In.
  split; [exact Hin|]. now apply selected_spec.
Qed.

(** those of its last second never are. *)
Lemma last_second_is_never_selected (user_id : string) (today : Z) (m : StoredMeal) :
  on_day today m -> (86399 * 1000000 <= microsecond (logged_at m))%Z ->
  selected user_id today m = false.
Proof.
  intros [Hd Hwf] Hms. destruct (selected user_id today m) eqn:E; [|reflexivity].
  apply selected_spec in E as (_ & _ & Hlt); [lia | exact Hwf].
Qed.

(** C6, on the code.  A snack of 500 calories logged at 23:59:59.5 of the
    current day is a meal of that day, and the query behind "Today's
    Meals" lists it; the dashboard's filter drops it and today's calories
    stay 0, while a lunch of the same day at 12:30 is counted. *)
Theorem last_second_of_the_day_is_dropped :
  on_day Examples.today Examples.late_snack
  /\ Schema.MealLog.user_id (row Examples.late_snack) = "user-1"%string
  /\ listed "user-1" Examples.today Examples.late_snack = true
  /\ mealsData "user-1" Examples.today [Examples.late_snack] = []
  /\ todayCalories "user-1" Examples.today [Examples.late_snack] = 0%float
  /\ todayCalories "user-1" Examples.today [Examples.lunch_meal; Examples.late_snack]
     = 300%float.
Proof.
  repeat split; try reflexivity;
    unfold well_formed, microseconds_per_day; simpl; lia.
Qed.

End DashboardFacts.

(** ** Row-level security *)

Section PolicyFacts.
Import RLS.
Variable constraints : Table -> Row -> Database -> bool.

Lemma admitted_own (t : Table) (who : Caller) (r : Row) :
  user_table t -> admitted who t r = true ->
  exists uid, who = authenticated uid /\ column "user_id" r = Some uid.
Proof.
  intros Ht Had. destruct who as [|uid]; [discriminate|]. exists uid.
  split; [reflexivity|].
  destruct Ht as [-> | [-> | ->]]; cbn in Had;
    rewrite orb_false_r in Had;
    destruct (column "user_id" r) as [v|]; try discriminate;
    apply String.eqb_eq in Had; now subst.
Qed.

Lemma visible_own (t : Table) (who : Caller) (r : Row) :
  user_table t ->
  (visible who t SELECT r = true <->
   exists uid, who = authenticated uid /\ column "user_id" r = Some uid).
Proof.
  intros Ht. destruct who as [|uid].
  - split; [discriminate | intros (uid & E & _); discriminate].
  - destruct Ht as [-> | [-> | ->]]; cbn; rewrite orb_false_r;
      (split;
       [ intros H; exists uid; split; [reflexivity|];
         destruct (column "user_id" r) as [v|]; try discriminate;
         apply String.eqb_eq in H; now subst
       | intros (uid' & E & Hc); inversion E; subst uid'; rewrite Hc;
         apply String.eqb_refl ]).
Qed.

Lemma table_eqb_refl (t : Table) : table_eqb t t = true.
Proof. now destruct t. Qed.

(** C8.  On [meal_logs], [weight_logs] and [measurements], an insert by
    an authenticated caller succeeds only for a row whose [user_id] is
    the caller's; the stored row is returned by the caller's next select,
    and by no select of another user or of an anonymous session. *)
Theorem own_rows_only (t : Table) (uid : string) (r : Row) (db db' : Database) :
  user_table t ->
  insert constraints (authenticated uid) t r db = Some db' ->
  column "user_id" r = Some uid
  /\ In r (select (authenticated uid) t db')
  /\ (forall other, other <> uid -> ~ In r (select (authenticated other) t db'))
  /\ ~ In r (select anon t db').
Proof.
  intros Ht Hins. unfold insert in Hins.
  destruct (constraints t r db && admitted (authenticated uid) t r) eqn:E;
    [|discriminate].
  inversion Hins; subst db'. apply andb_true_iff in E as [_ Had].
  destruct (admitted_own t _ r Ht Had) as (uid' & Eu & Hcol).
  inversion Eu; subst uid'.
  split; [exact Hcol|]. split; [|split].
  - unfold select, store. rewrite table_eqb_refl. apply filter_In. split.
    + apply in_or_app. right. now left.
    + apply (visible_own t _ r Ht). exists uid. split; [reflexivity | exact Hcol].
  - intros other Hne Hin. unfold select in Hin. apply filter_In in Hin as [_ Hv].
    apply (visible_own t _ r Ht) in Hv as (uid' & Eo & Hc).
    inversion Eo; subst uid'. congruence.
  - intros Hin. unfold select in Hin. apply filter_In in Hin as [_ Hv].
    discriminate Hv.
Qed.

End PolicyFacts.

Lemma own_rows_only_witness :
  RLS.column "user_id" Examples.own_meal = Some "user-1"%string
  /\ In Examples.own_meal
       (RLS.select (RLS.authenticated "user-1") RLS.meal_logs
          (RLS.store RLS.meal_logs Examples.own_meal Examples.empty_store))
  /\ (forall other, other <> "user-1"%string ->
      ~ In Examples.own_meal
          (RLS.select (RLS.authenticated other) RLS.meal_logs
             (RLS.store RLS.meal_logs Examples.own_meal Examples.empty_store)))
  /\ ~ In Examples.own_meal
        (RLS.select RLS.anon RLS.meal_logs
           (RLS.store RLS.meal_logs Examples.own_meal Examples.empty_store)).
Proof.
  exact (own_rows_only Examples.unconstrained RLS.meal_logs "user-1"
           Examples.own_meal Examples.empty_store
           (RLS.store RLS.meal_logs Examples.own_meal Examples.empty_store)
           (or_introl eq_refl) eq_refl).
Defined.

(** ** Failed writes in the form handlers *)

Ltac run_handler :=
  cbv beta iota zeta delta
    [WeightTracking.handleSubmit WeightTracking.handleDelete
     WeightTracking.setLoading
     MealLogging.handleLogMeal MealLogging.handleDeleteMeal MealLogging.setLoading
     MeasurementTracking.handleSubmit MeasurementTracking.handleDelete
     MeasurementTracking.setLoading
     Effects.finally Effects.try_catch Effects.bind Effects.request Effects.set
     Effects.now Effects.emit Effects.throw_if_error Effects.throw Effects.ret].

Section HandlerFacts.
Import Effects.
Variable rt : Runtime.
Variable u : User.
Variable h : list Event.
Variable e : PostgrestError.

Lemma weight_submit_rejected (st : WeightTracking.State) :
  let ask := insert_weight_log (id u) (parseFloat rt (WeightTracking.weight st))
               (WeightTracking.date st) in
  backend rt h ask = write_result (Some e) ->
  WeightTracking.handleSubmit rt (Some u) st st h
  = (returned tt,
     {| WeightTracking.weight := WeightTracking.weight st;
        WeightTracking.date := WeightTracking.date st;
        WeightTracking.weightLogs := WeightTracking.weightLogs st;
        WeightTracking.loading := false |},
     h ++ [sent ask (write_result (Some e));
           console_error "Error logging weight:" e])%list.
Proof.
  intros ask H. run_handler. fold ask. rewrite H. cbn.
  now rewrite <- app_assoc.
Qed.

Lemma weight_delete_rejected (st : WeightTracking.State) (row_id : string) :
  backend rt h (delete_weight_log row_id) = write_result (Some e) ->
  WeightTracking.handleDelete rt (Some u) row_id st h
  = (returned tt, st,
     h ++ [sent (delete_weight_log row_id) (write_result (Some e));
           console_error "Error deleting weight log:" e])%list.
Proof.
  intros H. run_handler. rewrite H. cbn. now rewrite <- app_assoc.
Qed.

Lemma meal_submit_rejected (st : MealLogging.State) (food : Schema.FoodItem.t) :
  let ask := insert_meal_log (id u) (Schema.FoodItem.id food)
               (MealLogging.servings st) (MealLogging.category st)
               (toISOString rt h) in
  MealLogging.selectedFood st = Some food ->
  backend rt h ask = write_result (Some e) ->
  MealLogging.handleLogMeal rt (Some u) st st h
  = (returned tt,
     {| MealLogging.foods := MealLogging.foods st;
        MealLogging.filteredFoods := MealLogging.filteredFoods st;
        MealLogging.searchTerm := MealLogging.searchTerm st;
        MealLogging.selectedFood := MealLogging.selectedFood st;
        MealLogging.servings := MealLogging.servings st;
        MealLogging.category := MealLogging.category st;
        MealLogging.mealLogs := MealLogging.mealLogs st;
        MealLogging.loading := false |},
     h ++ [sent ask (write_result (Some e));
           console_error "Error logging meal:" e])%list.
Proof.
  intros ask Hfood H. run_handler. rewrite Hfood.
  cbv beta iota zeta. fold ask. rewrite H. cbn.
  now rewrite Hfood, <- app_assoc.
Qed.

Lemma meal_delete_rejected (st : MealLogging.State) (row_id : string) :
  backend rt h (delete_meal_log row_id) = write_result (Some e) ->
  MealLogging.handleDeleteMeal rt (Some u) row_id st h
  = (returned tt, st,
     h ++ [sent (delete_meal_log row_id) (write_result (Some e));
           console_error "Error deleting meal:" e])%list.
Proof.
  intros H. run_handler. rewrite H. cbn. now rewrite <- app_assoc.
Qed.

Lemma measurement_submit_rejected (st : MeasurementTracking.State) :
  let form := MeasurementTracking.formData st in
  let parsed := MeasurementTracking.parsed rt in
  let ask := insert_measurement (id u) (MeasurementTracking.date form)
               (parsed (MeasurementTracking.waist form))
               (parsed (MeasurementTracking.chest form))
               (parsed (MeasurementTracking.arms form))
               (parsed (MeasurementTracking.hips form))
               (parsed (MeasurementTracking.thighs form)) in
  backend rt h ask = write_result (Some e) ->
  MeasurementTracking.handleSubmit rt (Some u) st st h
  = (returned tt,
     {| MeasurementTracking.measurements := MeasurementTracking.measurements st;
        MeasurementTracking.loading := false;
        MeasurementTracking.formData := MeasurementTracking.formData st |},
     h ++ [sent ask (write_result (Some e));
           console_error "Error logging measurements:" e])%list.
Proof.
  intros form parsed ask H. run_handler. fold form parsed ask. rewrite H. cbn.
  now rewrite <- app_assoc.
Qed.

Lemma measurement_delete_rejected (st : MeasurementTracking.State) (row_id : string) :
  backend rt h (delete_measurement row_id) = write_result (Some e) ->
  MeasurementTracking.handleDelete rt (Some u) row_id st h
  = (returned tt, st,
     h ++ [sent (delete_measurement row_id) (write_result (Some e));
           console_error "Error deleting measurement:" e])%list.
Proof.
  intros H. run_handler. rewrite H. cbn. now rewrite <- app_assoc.
Qed.

End HandlerFacts.

(** C7.  When the store answers a write with an error, each handler
    (weight, meal and measurement insert, and the three deletes) returns
    normally after that one request and one [console.error]: no second
    request, no callback.  The inserts end with [loading] false and every
    other state field as before; the deletes leave the state as it was. *)
Theorem failed_write_resets_only_loading
    (rt : Effects.Runtime) (u : Effects.User) (h : list Effects.Event)
    (e : Effects.PostgrestError) :
  let failed := Effects.write_result (Some e) in
  let ended {S : Type} (final : S) (ask : Effects.Request) (label : string) :=
    (Effects.returned tt, final,
     h ++ [Effects.sent ask failed; Effects.console_error label e])%list in
  (forall st,
     let ask := Effects.insert_weight_log (Effects.id u)
                  (Effects.parseFloat rt (WeightTracking.weight st))
                  (WeightTracking.date st) in
     Effects.backend rt h ask = failed ->
     WeightTracking.handleSubmit rt (Some u) st st h
     = ended {| WeightTracking.weight := WeightTracking.weight st;
                WeightTracking.date := WeightTracking.date st;
                WeightTracking.weightLogs := WeightTracking.weightLogs st;
                WeightTracking.loading := false |}
             ask "Error logging weight:"%string)
  /\ (forall st row_id,
       Effects.backend rt h (Effects.delete_weight_log row_id) = failed ->
       WeightTracking.handleDelete rt (Some u) row_id st h
       = ended st (Effects.delete_weight_log row_id) "Error deleting weight log:"%string)
  /\ (forall st food,
       let ask := Effects.insert_meal_log (Effects.id u) (Schema.FoodItem.id food)
                    (MealLogging.servings st) (MealLogging.category st)
                    (Effects.toISOString rt h) in
       MealLogging.selectedFood st = Some food ->
       Effects.backend rt h ask = failed ->
       MealLogging.handleLogMeal rt (Some u) st st h
       = ended {| MealLogging.foods := MealLogging.foods st;
                  MealLogging.filteredFoods := MealLogging.filteredFoods st;
                  MealLogging.searchTerm := MealLogging.searchTerm st;
                  MealLogging.selectedFood := MealLogging.selectedFood st;
                  MealLogging.servings := MealLogging.servings st;
                  MealLogging.category := MealLogging.category st;
                  MealLogging.mealLogs := MealLogging.mealLogs st;
                  MealLogging.loading := false |}
               ask "Error logging meal:"%string)
  /\ (forall st row_id,
       Effects.backend rt h (Effects.delete_meal_log row_id) = failed ->
       MealLogging.handleDeleteMeal rt (Some u) row_id st h
       = ended st (Effects.delete_meal_log row_id) "Error deleting meal:"%string)
  /\ (forall st,
       let form := MeasurementTracking.formData st in
       let parsed := MeasurementTracking.parsed rt in
       let ask := Effects.insert_measurement (Effects.id u)
                    (MeasurementTracking.date form)
                    (parsed (MeasurementTracking.waist form))
                    (parsed (MeasurementTracking.chest form))
                    (parsed (MeasurementTracking.arms form))
                    (parsed (MeasurementTracking.hips form))
                    (parsed (MeasurementTracking.thighs form)) in
       Effects.backend rt h ask = failed ->
       MeasurementTracking.handleSubmit rt (Some u) st st h
       = ended {| MeasurementTracking.measurements := MeasurementTracking.measurements st;
                  MeasurementTracking.loading := false;
                  MeasurementTracking.formData := MeasurementTracking.formData st |}
               ask "Error logging measurements:"%string)
  /\ (forall st row_id,
       Effects.backend rt h (Effects.delete_measurement row_id) = failed ->
       MeasurementTracking.handleDelete rt (Some u) row_id st h
       = ended st (Effects.delete_measurement row_id) "Error deleting measurement:"%string).
Proof.
  intros failed ended. subst failed ended. cbv beta.
  split; [|split; [|split; [|split; [|split]]]].
  - intros st. apply weight_submit_rejected.
  - intros st row_id. apply weight_delete_rejected.
  - intros st food. apply meal_submit_rejected.
  - intros st row_id. apply meal_delete_rejected.
  - intros st. apply measurement_submit_rejected.
  - intros st row_id. apply measurement_delete_rejected.
Qed.

Lemma failed_write_resets_only_loading_witness :
  WeightTracking.handleSubmit Examples.rejecting (Some Examples.ada)
    Examples.weight_form Examples.weight_form []
  = (Effects.returned tt, Examples.weight_form,
     [Effects.sent (Effects.insert_weight_log "user-1" 72.5%float "2025-11-01")
        (Effects.write_result (Some Examples.denied));
      Effects.console_error "Error logging weight:" Examples.denied])
  /\ MealLogging.handleLogMeal Examples.rejecting (Some Examples.ada)
       Examples.meal_form Examples.meal_form []
     = (Effects.returned tt, Examples.meal_form,
        [Effects.sent (Effects.insert_meal_log "user-1" "food-1" 2%float Schema.lunch
                         "2025-11-01T12:00:00.000Z")
           (Effects.write_result (Some Examples.denied));
         Effects.console_error "Error logging meal:" Examples.denied])
  /\ MeasurementTracking.handleDelete Examples.rejecting (Some Examples.ada)
       "measurement-1" Examples.measurement_form []
     = (Effects.returned tt, Examples.measurement_form,
        [Effects.sent (Effects.delete_measurement "measurement-1")
           (Effects.write_result (Some Examples.denied));
         Effects.console_error "Error deleting measurement:" Examples.denied]).
Proof.
  pose proof (failed_write_resets_only_loading Examples.rejecting Examples.ada []
                Examples.denied) as (Hw & _ & Hm & _ & _ & Hd).
  split; [|split].
  - exact (Hw Examples.weight_form eq_refl).
  - exact (Hm Examples.meal_form _ eq_refl eq_refl).
  - exact (Hd Examples.measurement_form "measurement-1"%string eq_refl).
Defined.

(** ** The body of [analyzeAndRecommend], statement by statement *)

Section BodyFacts.
Import JS Schema Effects AIRecommendation.
Local Open Scope float_scope.
Local Open Scope handler_scope.

(** The loop of the body leaves in the four totals and in [daysLogged]
    what the pass [tally] computes from their values before the loop. *)
Lemma forEach_tally (meals : list MealLog.t) :
  forall st recs tc tp tcb tf dl h,
    Body.forEach meals (fun meal =>
      match MealLog.food_items meal with
      | Some food_items =>
          Body.add_to Body.totalCalories Body.set_totalCalories
            (FoodItem.calories food_items * MealLog.servings meal) ;;
          Body.add_to Body.totalProtein Body.set_totalProtein
            (FoodItem.protein food_items * MealLog.servings meal) ;;
          Body.add_to Body.totalCarbs Body.set_totalCarbs
            (FoodItem.carbs food_items * MealLog.servings meal) ;;
          Body.add_to Body.totalFats Body.set_totalFats
            (FoodItem.fats food_items * MealLog.servings meal) ;;
          Body.daysLogged_add (split_head "T" (MealLog.logged_at meal))
      | None => ret tt
      end)
      {| Body.component := st; Body.recommendations := recs;
         Body.totalCalories := tc; Body.totalProtein := tp;
         Body.totalCarbs := tcb; Body.totalFats := tf; Body.daysLogged := dl |} h
    = (returned tt,
       {| Body.component := st; Body.recommendations := recs;
          Body.totalCalories :=
            totalCalories (fold_left tally meals
              {| totalCalories := tc; totalProtein := tp; totalCarbs := tcb;
                 totalFats := tf; daysLogged := dl |});
          Body.totalProtein :=
            totalProtein (fold_left tally meals
              {| totalCalories := tc; totalProtein := tp; totalCarbs := tcb;
                 totalFats := tf; daysLogged := dl |});
          Body.totalCarbs :=
            totalCarbs (fold_left tally meals
              {| totalCalories := tc; totalProtein := tp; totalCarbs := tcb;
                 totalFats := tf; daysLogged := dl |});
          Body.totalFats :=
            totalFats (fold_left tally meals
              {| totalCalories := tc; totalProtein := tp; totalCarbs := tcb;
                 totalFats := tf; daysLogged := dl |});
          Body.daysLogged :=
            daysLogged (fold_left tally meals
              {| totalCalories := tc; totalProtein := tp; totalCarbs := tcb;
                 totalFats := tf; daysLogged := dl |}) |},
       h).
Proof.
  match goal with |- context [Body.forEach _ ?cb] => set (callback := cb) end.
  induction meals as [|meal meals IH]; intros st recs tc tp tcb tf dl h;
    [reflexivity|].
  cbn [Body.forEach fold_left]. unfold bind at 1. unfold callback at 1.
  unfold tally at 2 4 6 8 10.
  destruct (MealLog.food_items meal) as [food|].
  - cbv beta iota delta
      [bind Body.add_to Body.read Body.set_totalCalories Body.set_totalProtein
       Body.set_totalCarbs Body.set_totalFats Body.daysLogged_add
       Body.set_daysLogged set ret
       Body.component Body.recommendations Body.totalCalories Body.totalProtein
       Body.totalCarbs Body.totalFats Body.daysLogged].
    apply IH.
  - cbv beta iota delta [ret]. apply IH.
Qed.

Lemma pushes_push (text : string) : Body.pushes (Body.push text) [text].
Proof. intros [st recs tc tp tcb tf dl] h. eexists. repeat split. Qed.

Lemma pushes_skip : Body.pushes (ret tt) [].
Proof.
  intros frame h. exists frame. repeat split. now rewrite app_nil_r.
Qed.

Lemma pushes_bind (c d : M Body.Frame unit) (xs ys : list string) :
  Body.pushes c xs -> Body.pushes d ys -> Body.pushes (c ;; d) (xs ++ ys).
Proof.
  intros Hc Hd frame h.
  destruct (Hc frame h) as (f1 & E1 & C1 & R1).
  destruct (Hd f1 h) as (f2 & E2 & C2 & R2).
  exists f2. unfold bind. rewrite E1, E2. repeat split.
  - congruence.
  - rewrite R2, R1. now rewrite app_assoc.
Qed.

Lemma run_bind {S A B} (c : M S A) (k : A -> M S B) s h a s' h' :
  c s h = (returned a, s', h') -> bind c k s h = k a s' h'.
Proof. intros E. unfold bind. now rewrite E. Qed.

Lemma pushes_if (b : bool) (c d : M Body.Frame unit) (xs ys : list string) :
  Body.pushes c xs -> Body.pushes d ys ->
  Body.pushes (if b then c else d) (if b then xs else ys).
Proof. now destruct b. Qed.

(** The body of [analyzeAndRecommend], run as it is written from any
    frame and any log, returns the text of the function, and leaves the
    component state and the log as they were. *)
Lemma body_returns (profile : option UserProfile.t)
    (meals : option (list MealLog.t)) (weights : option (list WeightLog.t))
    (frame : Body.Frame) (h : list Event) :
  exists frame',
    Body.analyzeAndRecommend profile meals weights frame h
    = (returned (analyzeAndRecommend profile meals weights), frame', h)
    /\ Body.component frame' = Body.component frame.
Proof.
  destruct profile as [profile|]; [|exists frame; split; reflexivity].
  unfold Body.analyzeAndRecommend.
  match goal with
  | |- context [bind (Body.set_recommendations [])
                  (fun _ => bind ?A (fun _ => bind ?B (fun _ => bind ?C _)))] =>
      assert (HA : Body.pushes A (mealAdvice profile meals));
      [|assert (HB : Body.pushes B (weightAdvice profile weights));
        [|assert (HC : Body.pushes C (goalTip profile))]]
  end.
  - destruct meals as [[|m0 ms]|]; try apply pushes_push.
    intros [st recs tc tp tcb tf dl] h0.
    match goal with |- context [Body.forEach _ ?cb] => set (callback := cb) end.
    cbv beta iota delta
      [bind Body.set_totalCalories Body.set_totalProtein Body.set_totalCarbs
       Body.set_totalFats Body.set_daysLogged set
       Body.component Body.recommendations Body.totalCalories Body.totalProtein
       Body.totalCarbs Body.totalFats Body.daysLogged].
    subst callback. rewrite forEach_tally.
    unfold mealAdvice, avgDailyCalories, avgProtein, divisor, totals, no_totals.
    cbv beta iota zeta delta
      [bind Body.read Body.push Body.set_recommendations set ret
       Body.component Body.recommendations Body.totalCalories Body.totalProtein
       Body.totalCarbs Body.totalFats Body.daysLogged].
    repeat match goal with
           | |- context [if ?b then _ else _] => destruct b
           end;
      eexists; repeat split; cbn [Body.recommendations];
      rewrite <- ?app_assoc; reflexivity.
  - unfold weightAdvice.
    destruct weights as [[|w0 [|w1 ws]]|]; try apply pushes_push.
    cbv zeta.
    repeat (apply pushes_if; [apply pushes_push|]). apply pushes_skip.
  - unfold goalTip.
    repeat (apply pushes_if; [apply pushes_push|]). apply pushes_push.
  - set (frame0 := {| Body.component := Body.component frame;
                      Body.recommendations := [];
                      Body.totalCalories := Body.totalCalories frame;
                      Body.totalProtein := Body.totalProtein frame;
                      Body.totalCarbs := Body.totalCarbs frame;
                      Body.totalFats := Body.totalFats frame;
                      Body.daysLogged := Body.daysLogged frame |}).
    destruct (HA frame0 h) as (frame1 & E1 & C1 & R1).
    destruct (HB frame1 h) as (frame2 & E2 & C2 & R2).
    destruct (HC frame2 h) as (frame3 & E3 & C3 & R3).
    exists frame3. split; [|now rewrite C3, C2, C1].
    rewrite (run_bind _ _ frame h tt frame0 h eq_refl).
    rewrite (run_bind _ _ _ _ _ _ _ E1), (run_bind _ _ _ _ _ _ _ E2),
      (run_bind _ _ _ _ _ _ _ E3).
    unfold bind, Body.read, ret. rewrite R3, R2, R1.
    cbn [Body.recommendations frame0 app]. unfold analyzeAndRecommend, recommendations.
    now rewrite <- app_assoc.
Qed.

End BodyFacts.

(** ** [analyzeAndRecommend] at its call site *)

Section CallSite.
Import JS Schema Effects AIRecommendation.

(** Whatever the store, the clock, the user and the component state, one
    run of [generateRecommendation] reads each argument once and writes
    the text [analyzeAndRecommend] makes of the three values read. *)
Lemma generateRecommendation_writes (rt : Runtime) (u : User) (st : State) :
  let log := log_of (generateRecommendation rt (Some u) st []) in
  exists p m w,
    profiles_read log = [p] /\ meals_read log = [m] /\ weights_read log = [w]
    /\ texts_written log = [analyzeAndRecommend p m w].
Proof.
  cbv beta iota zeta delta
    [generateRecommendation loadLatestRecommendation setLoading setRecommendation
     finally try_catch bind request set now daysAgo emit throw_if_error throw ret
     log_of].
  cbn [app].
  set (a1 := backend rt _ (select_profile _)).
  set (a2 := backend rt _ (select_meal_logs _ _ _)).
  set (a3 := backend rt _ (select_weight_logs _ _)).
  set (text := analyzeAndRecommend _ _ _).
  set (a4 := backend rt _ (insert_recommendation _ _ _)).
  exists (profile_of a1), (meals_of a2), (weights_of a3).
  destruct a4 as [[err|]| | | | |]; cbn [app snd fst];
    try (set (a5 := backend rt _ (select_latest_recommendation _));
         destruct a5 as [|d|d|d|d|[d|]]; cbn [app snd fst]);
    repeat split; reflexivity.
Qed.

(** C2.  [analyzeAndRecommend] is a function of its three arguments.  Its
    body, run as it is written from any frame (whatever the component
    state and its own variables hold from before) and any log, returns
    the text [analyzeAndRecommend] of the three arguments, changes no
    component state and leaves the log as it was; so two calls with the
    same arguments return the same text from any two frames and logs.
    And two runs of the component that calls it, under any two stores,
    clocks, users and component states, write the same text whenever
    they read the same profile, meals and weights. *)
Theorem recommendation_depends_on_arguments_only :
  (forall p m w (frame : Body.Frame) (h : list Event),
     let run := Body.analyzeAndRecommend p m w frame h in
     Trace.outcome run = returned (analyzeAndRecommend p m w)
     /\ Body.component (Trace.state run) = Body.component frame
     /\ log_of run = h)
  /\ (forall p m w (frame frame' : Body.Frame) (h h' : list Event),
        Trace.outcome (Body.analyzeAndRecommend p m w frame h)
        = Trace.outcome (Body.analyzeAndRecommend p m w frame' h'))
  /\ (forall (rt rt' : Runtime) (u u' : User) (st st' : State),
       let log := log_of (generateRecommendation rt (Some u) st []) in
       let log' := log_of (generateRecommendation rt' (Some u') st' []) in
       profiles_read log = profiles_read log' ->
       meals_read log = meals_read log' ->
       weights_read log = weights_read log' ->
       texts_written log = texts_written log').
Proof.
  split; [|split].
  - intros p m w frame h run. subst run.
    destruct (body_returns p m w frame h) as (frame' & E & Hc).
    rewrite E. repeat split. exact Hc.
  - intros p m w frame frame' h h'.
    destruct (body_returns p m w frame h) as (f1 & E1 & _).
    destruct (body_returns p m w frame' h') as (f2 & E2 & _).
    now rewrite E1, E2.
  - intros rt rt' u u' st st' log log'.
    destruct (generateRecommendation_writes rt u st) as (p & m & w & Hp & Hm & Hw & Ht).
    destruct (generateRecommendation_writes rt' u' st')
      as (p' & m' & w' & Hp' & Hm' & Hw' & Ht').
    fold log in Hp, Hm, Hw, Ht. fold log' in Hp', Hm', Hw', Ht'.
    rewrite Hp, Hm, Hw, Ht, Hp', Hm', Hw', Ht'.
    intros Ep Em Ew. congruence.
Qed.

Lemma recommendation_depends_on_arguments_only_witness :
  (let run := Body.analyzeAndRecommend (Some (Examples.profile muscle_gain 2000%float))
                (Some Examples.two_days) (Some Examples.lighter)
                Leftover.frame Leftover.log in
   Trace.outcome run
   = returned
       (JS.join blank_line
          [ "Your average daily intake (676 cal) is below your target (2000 cal). Consider adding nutrient-dense snacks.";
            "For muscle gain, increase your protein intake. Aim for lean meats, fish, eggs, and legumes.";
            "Your weight decreased by 1.5 kg. Increase calorie intake and focus on protein-rich foods.";
            "Tip: Prioritize protein intake (1.6-2.2g per kg body weight), progressive resistance training, and adequate rest." ])
   /\ Body.component (Trace.state run) = Body.component Leftover.frame
   /\ log_of run = Leftover.log)
  /\ texts_written
       (log_of (generateRecommendation (Examples.serving "2025-11-01T12:00:00.000Z")
                  (Some Examples.ada)
                  {| recommendation := None; loading := false |} []))
     = texts_written
         (log_of (generateRecommendation (Examples.serving "2026-02-03T04:05:06.000Z")
                    (Some Examples.bob)
                    {| recommendation := None; loading := true |} [])).
Proof.
  split.
  - exact (proj1 recommendation_depends_on_arguments_only
             (Some (Examples.profile muscle_gain 2000%float))
             (Some Examples.two_days) (Some Examples.lighter)
             Leftover.frame Leftover.log).
  - exact (proj2 (proj2 recommendation_depends_on_arguments_only)
             (Examples.serving "2025-11-01T12:00:00.000Z")
             (Examples.serving "2026-02-03T04:05:06.000Z")
             Examples.ada Examples.bob
             {| recommendation := None; loading := false |}
             {| recommendation := None; loading := true |}
             eq_refl eq_refl eq_refl).
Defined.

End CallSite.

(** ** Binary64 addition makes a negative zero only from two negative zeros *)

Section NegativeZero.
Local Open Scope Z_scope.

Lemma bounded_emin (m : positive) (e : Z) :
  bounded prec emax m e = true -> -1074 <= e.
Proof.
  unfold bounded, canonical_mantissa, fexp, SpecFloat.emin, prec, emax.
  intros H. apply andb_true_iff in H as [H _]. apply Z.eqb_eq in H. lia.
Qed.

Lemma digits2_bounds (m : positive) :
  2 ^ (Zpos (digits2_pos m) - 1) <= Zpos m < 2 ^ Zpos (digits2_pos m).
Proof.
  induction m as [m IH|m IH|]; cbn [digits2_pos].
  - rewrite Pos2Z.inj_succ.
    replace (Z.succ (Zpos (digits2_pos m)) - 1) with (Z.succ (Zpos (digits2_pos m) - 1)) by lia.
    rewrite !Z.pow_succ_r by lia. lia.
  - rewrite Pos2Z.inj_succ.
    replace (Z.succ (Zpos (digits2_pos m)) - 1) with (Z.succ (Zpos (digits2_pos m) - 1)) by lia.
    rewrite !Z.pow_succ_r by lia. lia.
  - simpl. lia.
Qed.

Lemma shr_1_half (r : shr_record) :
  0 <= shr_m r -> shr_m (shr_1 r) = shr_m r / 2.
Proof.
  destruct r as [m r s]. cbn [shr_m]. intros Hm.
  destruct m as [|[p|p|]|p]; cbn [shr_1 shr_m]; try lia; try reflexivity.
  - apply (Z.div_unique _ 2 (Zpos p) 1); lia.
  - apply (Z.div_unique _ 2 (Zpos p) 0); lia.
Qed.

Lemma iter_shr_1 (p : positive) :
  forall r, 0 <= shr_m r ->
            shr_m (iter_pos shr_1 p r) = shr_m r / 2 ^ Zpos p.
Proof.
  assert (Hnn : forall a q, 0 <= a -> 0 <= a / 2 ^ Zpos q).
  { intros a q Ha. apply Z.div_pos; [exact Ha|]. apply Z.pow_pos_nonneg; lia. }
  induction p as [p IH|p IH|]; intros r Hr; cbn [iter_pos].
  - assert (H1 : 0 <= shr_m (shr_1 r)) by (rewrite shr_1_half by assumption; apply Z.div_pos; lia).
    rewrite IH, IH, shr_1_half by (rewrite ?IH; auto).
    rewrite !Z.div_div by (try apply Z.pow_pos_nonneg; lia).
    f_equal. rewrite Pos2Z.inj_xI, <- Z.pow_add_r, <- (Z.pow_1_r 2) at 1 by lia.
    rewrite <- Z.pow_add_r by lia. f_equal. lia.
  - rewrite IH, IH by (rewrite ?IH; auto).
    rewrite !Z.div_div by (try apply Z.pow_pos_nonneg; lia).
    f_equal. rewrite Pos2Z.inj_xO, <- Z.pow_add_r by lia. f_equal. lia.
  - rewrite shr_1_half by assumption. reflexivity.
Qed.

Lemma shr_m_of_loc (m : Z) (l : location) : shr_m (shr_record_of_loc m l) = m.
Proof. destruct l as [|[]]; reflexivity. Qed.

Lemma shr_fexp_pos (m : positive) (e : Z) (l : location) :
  -1074 <= e ->
  0 < shr_m (fst (shr_fexp prec emax (Zpos m) e l))
  /\ -1074 <= snd (shr_fexp prec emax (Zpos m) e l).
Proof.
  intros He. unfold shr_fexp, shr, fexp, SpecFloat.emin, prec, emax.
  cbn [Zdigits2].
  pose proof (digits2_bounds m) as Hd.
  set (d := Zpos (digits2_pos m)) in *.
  destruct (Z.max (d + e - 53) (3 - 1024 - 53) - e) as [|n|n] eqn:En; cbn [fst snd].
  - rewrite shr_m_of_loc. lia.
  - split; [|lia].
    rewrite iter_shr_1, shr_m_of_loc by (rewrite shr_m_of_loc; lia).
    apply Z.div_str_pos. split; [apply Z.pow_pos_nonneg; lia|].
    apply Z.le_trans with (2 ^ (d - 1)); [|lia].
    apply Z.pow_le_mono_r; lia.
  - rewrite shr_m_of_loc. lia.
Qed.

Lemma binary_round_aux_not_zero (sx : bool) (m : positive) (e : Z) (l : location) (s : bool) :
  -1074 <= e -> binary_round_aux prec emax sx (Zpos m) e l <> S754_zero s.
Proof.
  intros He. unfold binary_round_aux.
  pose proof (shr_fexp_pos m e l He) as [Hm He'].
  destruct (shr_fexp prec emax (Zpos m) e l) as [mrs' e']. cbn [fst snd] in Hm, He'.
  assert (Hr : 0 < round_nearest_even (shr_m mrs') (loc_of_shr_record mrs')).
  { unfold round_nearest_even.
    destruct (loc_of_shr_record mrs') as [|[]]; try lia.
    destruct (Z.even (shr_m mrs')); lia. }
  destruct (round_nearest_even (shr_m mrs') (loc_of_shr_record mrs'))
    as [|r|r]; try lia.
  pose proof (shr_fexp_pos r e' loc_Exact He') as [Hm'' _].
  destruct (shr_fexp prec emax (Zpos r) e' loc_Exact) as [mrs'' e''].
  cbn [fst] in Hm''.
  destruct (shr_m mrs'') as [|m''|m'']; try lia.
  destruct (e'' <=? emax - prec); discriminate.
Qed.

Lemma binary_round_not_zero (sx : bool) (m : positive) (e : Z) (s : bool) :
  -1074 <= e -> binary_round prec emax sx m e <> S754_zero s.
Proof.
  intros He. unfold binary_round, shl_align.
  set (e' := fexp prec emax (Zpos (digits2_pos m) + e)).
  assert (He' : -1074 <= e')
    by (subst e'; unfold fexp, SpecFloat.emin, prec, emax; lia).
  destruct (e' - e) as [|d|d]; apply binary_round_aux_not_zero; assumption.
Qed.

Lemma SFadd_negative_zero (x y : spec_float) :
  SpecFloat.valid_binary prec emax x = true ->
  SpecFloat.valid_binary prec emax y = true ->
  SFadd prec emax x y = S754_zero true ->
  x = S754_zero true /\ y = S754_zero true.
Proof.
  intros Hx Hy.
  destruct x as [sx|sx| |sx mx ex], y as [sy|sy| |sy my ey];
    try destruct sx; try destruct sy; cbn [SFadd]; try discriminate; auto.
  all: cbn [valid_binary] in Hx, Hy;
    apply bounded_emin in Hx; apply bounded_emin in Hy;
    unfold binary_normalize;
    match goal with |- match ?M with _ => _ end = _ -> _ =>
      destruct M; [discriminate | |];
      intros H; exfalso; revert H; apply binary_round_not_zero; lia
    end.
Qed.

Lemma add_negative_zero (x y : float) :
  Prim2SF (x + y)%float = S754_zero true -> Prim2SF x = S754_zero true.
Proof.
  rewrite FloatAxioms.add_spec. intros H.
  now apply SFadd_negative_zero in H; try apply Prim2SF_valid.
Qed.

End NegativeZero.


(** ** The per-day calorie series *)

Section SeriesFacts.
Import JS Schema ProgressCharts.
Local Open Scope float_scope.

Lemma Map_get_set (d k : string) (v : number) (m : Map) :
  Map_get d (Map_set k v m) = if String.eqb d k then Some v else Map_get d m.
Proof.
  induction m as [|[k' v'] m IH]; cbn [Map_set Map_get].
  - reflexivity.
  - destruct (String.eqb k k') eqn:Ek; cbn [Map_get].
    + apply String.eqb_eq in Ek. subst k'. now destruct (String.eqb d k).
    + rewrite IH. destruct (String.eqb d k') eqn:Ed; [|reflexivity].
      apply String.eqb_eq in Ed. subst k'.
      rewrite String.eqb_sym in Ek. now rewrite Ek.
Qed.

Lemma keys_set (d k : string) (v : number) (m : Map) :
  In d (keys (Map_set k v m)) <-> d = k \/ In d (keys m).
Proof.
  unfold keys. induction m as [|[k' v'] m IH]; cbn [Map_set map fst In].
  - intuition.
  - destruct (String.eqb k k') eqn:Ek; cbn [map fst In].
    + apply String.eqb_eq in Ek. subst k'. intuition.
    + rewrite IH. intuition.
Qed.

Lemma NoDup_set (k : string) (v : number) (m : Map) :
  NoDup (keys m) -> NoDup (keys (Map_set k v m)).
Proof.
  unfold keys. induction m as [|[k' v'] m IH]; cbn [Map_set map fst]; intros Hm.
  - repeat constructor. intros [].
  - inversion Hm as [|? ? Hk' Hm']; subst.
    destruct (String.eqb k k') eqn:Ek; cbn [map fst].
    + apply String.eqb_eq in Ek. subst k'. now constructor.
    + constructor; [|now apply IH].
      intros Hin. apply (keys_set k' k v m) in Hin as [->|Hin]; [|contradiction].
      now rewrite String.eqb_refl in Ek.
Qed.

Lemma In_Map_get (d : string) (v : number) (m : Map) :
  NoDup (keys m) -> (In (d, v) m <-> Map_get d m = Some v).
Proof.
  unfold keys. induction m as [|[k' v'] m IH]; cbn [map fst Map_get In]; intros Hm.
  - split; [intros [] | discriminate].
  - inversion Hm as [|? ? Hk' Hm']; subst.
    destruct (String.eqb d k') eqn:Ed.
    + apply String.eqb_eq in Ed. subst k'. split.
      * intros [E|Hin]; [now inversion E|].
        exfalso. apply Hk'. change d with (fst (d, v)). now apply in_map.
      * intros E. inversion E. now left.
    + rewrite <- (IH Hm'). split; [|now right].
      intros [E|Hin]; [|exact Hin].
      inversion E; subst. now rewrite String.eqb_refl in Ed.
Qed.

Lemma get_fold (d : string) (meals : list MealLog.t) :
  forall m, Map_get d (fold_left addMeal meals m)
            = fold_left step (dayTerms d meals) (Map_get d m).
Proof.
  unfold dayTerms.
  induction meals as [|meal meals IH]; intros m; cbn [fold_left filter map];
    [reflexivity|].
  rewrite IH. unfold addMeal. rewrite Map_get_set.
  rewrite (String.eqb_sym d (dateOf meal)).
  destruct (String.eqb (dateOf meal) d) eqn:Ed; [|reflexivity].
  apply String.eqb_eq in Ed. subst d. reflexivity.
Qed.

Lemma keys_fold (d : string) (meals : list MealLog.t) :
  forall m, In d (keys (fold_left addMeal meals m)) <->
            In d (keys m) \/ exists meal, In meal meals /\ dateOf meal = d.
Proof.
  induction meals as [|meal meals IH]; intros m; cbn [fold_left].
  - split; [now left | intros [H|(meal & [] & _)]; exact H].
  - rewrite IH. unfold addMeal at 1. rewrite keys_set. split.
    + intros [[->|H]|(meal' & Hin & Hd)]; auto.
      * right. exists meal. split; [now left | reflexivity].
      * right. exists meal'. split; [now right | exact Hd].
    + intros [H|(meal' & [<-|Hin] & Hd)]; auto.
      right. exists meal'. now split.
Qed.

Lemma NoDup_fold (meals : list MealLog.t) :
  forall m, NoDup (keys m) -> NoDup (keys (fold_left addMeal meals m)).
Proof.
  induction meals as [|meal meals IH]; intros m Hm; cbn [fold_left]; [exact Hm|].
  apply IH. unfold addMeal. now apply NoDup_set.
Qed.

(** While every total a later meal is added to is kept by [|| 0], the
    running total is the plain sum. *)
Lemma running_sum (terms : list number) :
  forall (acc : option number),
    terms <> [] ->
    Forall kept (earlierTotals acc terms) ->
    fold_left step terms acc = Some (fold_left PrimFloat.add terms (or_zero acc)).
Proof.
  induction terms as [|c r IH]; intros acc Hne Hk; [congruence|].
  destruct r as [|c' r]; [reflexivity|].
  cbn [earlierTotals] in Hk. inversion Hk as [|? ? Hhead Htail]; subst.
  change (fold_left step (c :: c' :: r) acc)
    with (fold_left step (c' :: r) (step acc c)).
  rewrite (IH (step acc c)); [|discriminate|exact Htail].
  unfold kept in Hhead. unfold step.
  exact (f_equal (fun z => Some (fold_left PrimFloat.add (c' :: r) z)) Hhead).
Qed.

Lemma or_zero_not_negative_zero (acc : option number) :
  Prim2SF (or_zero acc) <> S754_zero true.
Proof.
  destruct acc as [v|]; cbn [or_zero]; [|discriminate].
  destruct (truthy v) eqn:Hv; [|discriminate].
  unfold truthy in Hv. apply andb_true_iff in Hv as [Hv _].
  apply negb_true_iff in Hv. rewrite FloatAxioms.eqb_spec in Hv.
  change (Prim2SF PrimFloat.zero) with (S754_zero false) in Hv.
  intros E. rewrite E in Hv. discriminate Hv.
Qed.

Lemma kept_unless_nan (t : number) :
  PrimFloat.is_nan t = false -> Prim2SF t <> S754_zero true -> kept t.
Proof.
  intros Hnan Hneg. unfold kept. cbn [or_zero]. unfold truthy.
  rewrite Hnan, andb_true_r.
  destruct (t =? PrimFloat.zero) eqn:E; [|reflexivity]. cbn [negb].
  rewrite FloatAxioms.eqb_spec in E.
  apply Prim2SF_inj.
  change (Prim2SF PrimFloat.zero) with (S754_zero false) in *.
  destruct (Prim2SF t) as [[|]|s| |s m e];
    [congruence | reflexivity | | | ];
    unfold SFeqb in E; try destruct s; discriminate E.
Qed.

(** A running total is kept by [|| 0] unless it is NaN. *)
Lemma earlier_totals_kept (terms : list number) :
  forall acc,
    Forall (fun t => PrimFloat.is_nan t = false) (earlierTotals acc terms) ->
    Forall kept (earlierTotals acc terms).
Proof.
  induction terms as [|c r IH]; intros acc H; [constructor|].
  destruct r as [|c' r]; [constructor|].
  cbn [earlierTotals] in *. inversion H as [|? ? Hhead Htail]; subst.
  constructor; [|apply IH; exact Htail].
  apply kept_unless_nan; [exact Hhead|].
  intros E. apply add_negative_zero in E.
  exact (or_zero_not_negative_zero acc E).
Qed.

Section SortFacts.
Context {A : Type} (compareFn : A -> A -> comparison).

Lemma insert_perm (x : A) (l : list A) : Permutation (insert compareFn x l) (x :: l).
Proof.
  induction l as [|y l IH]; cbn [insert]; [reflexivity|].
  destruct (compareFn x y); try reflexivity.
  rewrite IH. apply perm_swap.
Qed.

Lemma sort_perm (l : list A) : Permutation (sort compareFn l) l.
Proof.
  induction l as [|x l IH]; cbn [sort]; [reflexivity|].
  rewrite insert_perm. now constructor.
Qed.

Hypothesis consistent : forall a b, compareFn a b = Gt -> compareFn b a = Lt.

Lemma HdRel_insert (y x : A) (l : list A) :
  HdRel (ascending compareFn) y l -> ascending compareFn y x ->
  HdRel (ascending compareFn) y (insert compareFn x l).
Proof.
  intros Hl Hx. destruct l as [|z l]; cbn [insert]; [now constructor|].
  inversion Hl; subst. destruct (compareFn x z); now constructor.
Qed.

Lemma insert_sorted (x : A) (l : list A) :
  Sorted (ascending compareFn) l -> Sorted (ascending compareFn) (insert compareFn x l).
Proof.
  induction 1 as [|y l Hl IH Hy]; cbn [insert]; [repeat constructor|].
  destruct (compareFn x y) eqn:E.
  - constructor; [now constructor|]. constructor. unfold ascending. congruence.
  - constructor; [now constructor|]. constructor. unfold ascending. congruence.
  - constructor; [exact IH|]. apply HdRel_insert; [exact Hy|].
    unfold ascending. rewrite (consistent _ _ E). discriminate.
Qed.

Lemma sort_sorted (l : list A) : Sorted (ascending compareFn) (sort compareFn l).
Proof.
  induction l as [|x l IH]; cbn [sort]; [constructor | now apply insert_sorted].
Qed.

End SortFacts.

Lemma codepoint_consistent (a b : string) :
  String.compare a b = Gt -> String.compare b a = Lt.
Proof.
  intros H. rewrite String.compare_antisym, H. reflexivity.
Qed.

Lemma ascii_compare_trans (a b c : ascii) :
  Ascii.compare a b = Lt -> Ascii.compare b c = Lt -> Ascii.compare a c = Lt.
Proof.
  unfold Ascii.compare. rewrite !N.compare_lt_iff. lia.
Qed.

Lemma string_compare_trans (a : string) :
  forall b c, String.compare a b = Lt -> String.compare b c = Lt ->
              String.compare a c = Lt.
Proof.
  induction a as [|x a IH]; intros [|y b] [|z c]; cbn [String.compare];
    try discriminate; try reflexivity.
  destruct (Ascii.compare x y) eqn:Exy; try discriminate;
    destruct (Ascii.compare y z) eqn:Eyz; try discriminate; intros Hab Hbc.
  - apply Ascii.compare_eq_iff in Exy, Eyz. subst y z.
    assert (E : Ascii.compare x x = Eq).
    { unfold Ascii.compare. apply N.compare_refl. }
    rewrite E. now apply (IH b c).
  - apply Ascii.compare_eq_iff in Exy. subst y. now rewrite Eyz.
  - apply Ascii.compare_eq_iff in Eyz. subst z. now rewrite Exy.
  - now rewrite (ascii_compare_trans x y z Exy Eyz).
Qed.

Section SortOrder.
Context {A : Type}.

Lemma insert_ext (f g : A -> A -> comparison) (x : A) (l : list A) :
  (forall y, In y l -> f x y = g x y) -> insert f x l = insert g x l.
Proof.
  induction l as [|y l IH]; intros H; cbn [insert]; [reflexivity|].
  rewrite (H y (or_introl eq_refl)).
  destruct (g x y); try reflexivity.
  f_equal. apply IH. intros z Hz. apply H. now right.
Qed.

(** [sort] compares members of the array only. *)
Lemma sort_ext (f g : A -> A -> comparison) (l : list A) :
  (forall a b, In a l -> In b l -> f a b = g a b) -> sort f l = sort g l.
Proof.
  induction l as [|x l IH]; intros H; cbn [sort]; [reflexivity|].
  rewrite IH by (intros a b Ha Hb; apply H; now right).
  apply insert_ext. intros y Hy. apply H; [now left|].
  right. exact (Permutation_in _ (sort_perm g l) Hy).
Qed.

(** Among distinct keys, an order without [Gt] between neighbours is the
    strict order between every two members. *)
Lemma strictly_sorted (key : A -> string) (l : list A) :
  NoDup (map key l) ->
  Sorted (fun a b => String.compare (key a) (key b) <> Gt) l ->
  StronglySorted (fun a b => String.compare (key a) (key b) = Lt) l.
Proof.
  intros Hnd Hs. apply Sorted_StronglySorted.
  - intros a b c Hab Hbc. exact (string_compare_trans _ _ _ Hab Hbc).
  - induction Hs as [|a l Hs IH Hhd]; [constructor|].
    cbn [map] in Hnd. inversion Hnd as [|? ? Hnotin Hnd']; subst.
    constructor; [now apply IH|].
    destruct Hhd as [|b l Hab]; constructor.
    destruct (String.compare (key a) (key b)) eqn:E; [|reflexivity|congruence].
    apply String.compare_eq_iff in E. exfalso. apply Hnotin.
    cbn [map]. left. now symmetry.
Qed.

End SortOrder.

(** X29.  When the engine's [localeCompare] orders the dates of the list
    as their code units do (as every collation orders dates written
    alike, YYYY-MM-DD), the series has one entry per distinct date of
    the list, each date strictly before all later ones; an entry's
    calories are the rounded running total of that date's meals in list
    order, and they are the rounded sum of the date's meals whenever no
    running total a later meal is added to is NaN. *)
Theorem calorie_series_by_day
    (localeCompare : string -> string -> comparison) (meals : list MealLog.t) :
  (forall a b, In a (map dateOf meals) -> In b (map dateOf meals) ->
               localeCompare a b = String.compare a b) ->
  let series := calorieData localeCompare meals in
  NoDup (map date series)
  /\ (forall d, In d (map date series) <->
                exists meal, In meal meals /\ dateOf meal = d)
  /\ (forall entry, In entry series ->
        exists total,
          runningTotal (dayTerms (date entry) meals) = Some total
          /\ calories entry = Math_round total)
  /\ (forall entry, In entry series ->
        Forall (fun total => PrimFloat.is_nan total = false)
               (earlierTotals None (dayTerms (date entry) meals)) ->
        calories entry = Math_round (sum (dayTerms (date entry) meals)))
  /\ StronglySorted (fun a b => String.compare (date a) (date b) = Lt) series.
Proof.
  intros Hcmp series.
  set (entry_of := fun e : string * number =>
                     {| date := fst e; calories := Math_round (snd e) |}).
  assert (Hperm : Permutation series (map entry_of (caloriesByDay meals)))
    by apply sort_perm.
  assert (Hdates : Permutation (map date series) (keys (caloriesByDay meals))).
  { rewrite Hperm, map_map. unfold keys. apply Permutation_refl. }
  assert (Hnodup : NoDup (keys (caloriesByDay meals)))
    by (apply NoDup_fold; constructor).
  assert (Hentry : forall entry, In entry series ->
            exists total,
              runningTotal (dayTerms (date entry) meals) = Some total
              /\ calories entry = Math_round total).
  { intros entry Hin.
    apply (Permutation_in _ Hperm) in Hin.
    apply in_map_iff in Hin as ([d v] & <- & Hin).
    exists v. split; [|reflexivity].
    apply (In_Map_get d v _ Hnodup) in Hin.
    unfold caloriesByDay in Hin. rewrite get_fold in Hin. exact Hin. }
  assert (Hdistinct : NoDup (map date series))
    by apply (Permutation_NoDup (Permutation_sym Hdates) Hnodup).
  assert (Hkeys : forall d, In d (keys (caloriesByDay meals)) ->
                            In d (map dateOf meals)).
  { intros d Hin. apply keys_fold in Hin as [[]|(meal & Hin & <-)].
    now apply in_map. }
  split; [exact Hdistinct|]. split; [|split; [|split]].
  - intros d. split.
    + intros Hin. apply (Permutation_in _ Hdates) in Hin.
      apply keys_fold in Hin as [[]|H]. exact H.
    + intros H. apply (Permutation_in _ (Permutation_sym Hdates)).
      apply keys_fold. now right.
  - exact Hentry.
  - intros entry Hin Hkept.
    destruct (Hentry entry Hin) as (total & Hrun & ->).
    destruct (dayTerms (date entry) meals) as [|c terms] eqn:Et;
      [discriminate Hrun|].
    unfold runningTotal in Hrun.
    rewrite (running_sum (c :: terms) None) in Hrun;
      [|discriminate|apply earlier_totals_kept; exact Hkept].
    now inversion Hrun.
  - apply strictly_sorted; [exact Hdistinct|].
    subst series. unfold calorieData. fold entry_of.
    rewrite (sort_ext _ (fun a b => String.compare (date a) (date b))).
    + apply (sort_sorted (fun a b => String.compare (date a) (date b))).
      intros a b. apply codepoint_consistent.
    + intros a b Ha Hb. apply Hcmp; apply Hkeys.
      * apply in_map_iff in Ha as ([d v] & <- & Ha).
        exact (in_map fst _ _ Ha).
      * apply in_map_iff in Hb as ([d v] & <- & Hb).
        exact (in_map fst _ _ Hb).
Qed.

Lemma calorie_series_by_day_witness :
  (forall a b, In a (map dateOf Examples.three_meals) ->
               In b (map dateOf Examples.three_meals) ->
               Collation.caseless a b = String.compare a b)
  /\ (let series := calorieData Collation.caseless Examples.three_meals in
      series = [ {| date := "2025-11-01"; calories := 750 |};
                 {| date := "2025-11-02"; calories := 701 |} ]
      /\ NoDup (map date series)
      /\ StronglySorted (fun a b => String.compare (date a) (date b) = Lt) series).
Proof.
  assert (H : forall a b, In a (map dateOf Examples.three_meals) ->
                          In b (map dateOf Examples.three_meals) ->
                          Collation.caseless a b = String.compare a b).
  { intros a b Ha Hb. cbn in Ha, Hb.
    destruct Ha as [<-|[<-|[<-|[]]]]; destruct Hb as [<-|[<-|[<-|[]]]];
      reflexivity. }
  split; [exact H|].
  pose proof (calorie_series_by_day Collation.caseless Examples.three_meals H)
    as (Hdistinct & _ & _ & _ & Hsorted).
  split; [reflexivity|]. split; [exact Hdistinct | exact Hsorted].
Defined.

(** C5.  The claim fails on a day whose running total becomes NaN
    (Infinity plus -Infinity) before a meal of 100 calories: [NaN || 0]
    restarts the total from 0, so the series shows 100 calories, while
    the rounded sum of the day's meals is NaN. *)
Lemma nan_total_restarts_from_zero :
  let series := calorieData String.compare Examples.overflowing in
  let day_sum := sum (dayTerms "2025-11-01" Examples.overflowing) in
  series = [ {| date := "2025-11-01"; calories := 100 |} ]
  /\ PrimFloat.is_nan (Math_round day_sum) = true
  /\ exists entry,
       In entry series
       /\ calories entry <> Math_round (sum (dayTerms (date entry) Examples.overflowing)).
Proof.
  split; [reflexivity|]. split; [reflexivity|].
  exists {| date := "2025-11-01"; calories := 100 |}. split; [now left|].
  intros E. apply (f_equal PrimFloat.is_nan) in E. vm_compute in E. discriminate E.
Qed.

End SeriesFacts.

(* ================================================================== *)
(** * Part III: further properties of the components *)
(* ================================================================== *)

(** ** Numbers and lists *)

Section FloatFacts.
Local Open Scope float_scope.

Lemma is_nan_Prim2SF (x : float) : PrimFloat.is_nan x = true <-> Prim2SF x = S754_nan.
Proof.
  split.
  - intros H. unfold Prim2SF. now rewrite H.
  - intros H. unfold PrimFloat.is_nan. rewrite FloatAxioms.eqb_spec, H. reflexivity.
Qed.

Lemma not_nan_Prim2SF (x : float) : Prim2SF x <> S754_nan -> PrimFloat.is_nan x = false.
Proof.
  intros H. destruct (PrimFloat.is_nan x) eqn:E; [|reflexivity].
  now apply is_nan_Prim2SF in E.
Qed.

(** No comparison with [NaN] holds. *)
Lemma ltb_nan_l (x y : float) : PrimFloat.is_nan x = true -> (x <? y) = false.
Proof.
  intros H. apply is_nan_Prim2SF in H. now rewrite FloatAxioms.ltb_spec, H.
Qed.

Lemma ltb_nan_r (x y : float) : PrimFloat.is_nan y = true -> (x <? y) = false.
Proof.
  intros H. apply is_nan_Prim2SF in H. rewrite FloatAxioms.ltb_spec, H.
  now destruct (Prim2SF x) as [[|]|[|]| |[|] m e].
Qed.

(** [x === 0]: [x] is one of the two zeros. *)
Lemma eqb_zero (x : float) :
  (x =? 0) = true <-> exists s, Prim2SF x = S754_zero s.
Proof.
  rewrite FloatAxioms.eqb_spec. change (Prim2SF 0) with (S754_zero false).
  destruct (Prim2SF x) as [s|s| |s m e].
  - split; [intros _; now exists s | reflexivity].
  - split; [destruct s; cbn; discriminate | intros [s' H]; discriminate H].
  - split; [cbn; discriminate | intros [s' H]; discriminate H].
  - split; [destruct s; cbn; discriminate | intros [s' H]; discriminate H].
Qed.

(** Adding [0] changes no number but [-0]. *)
Lemma add_zero_r (x : float) : Prim2SF x <> S754_zero true -> x + 0 = x.
Proof.
  intros H. apply Prim2SF_inj. rewrite FloatAxioms.add_spec.
  change (Prim2SF 0) with (S754_zero false).
  destruct (Prim2SF x) as [[|]|s| |s m e]; try reflexivity. congruence.
Qed.

Lemma finite_cases (x : float) :
  PrimFloat.is_finite x = true ->
  (exists s, Prim2SF x = S754_zero s) \/ (exists s m e, Prim2SF x = S754_finite s m e).
Proof.
  unfold PrimFloat.is_finite. intros H.
  apply negb_true_iff, orb_false_iff in H as [Hnan Hinf].
  destruct (Prim2SF x) as [s|s| |s m e] eqn:E.
  - left. now exists s.
  - exfalso. unfold PrimFloat.is_infinity in Hinf.
    rewrite FloatAxioms.eqb_spec, FloatAxioms.abs_spec, E in Hinf. discriminate Hinf.
  - apply is_nan_Prim2SF in E. congruence.
  - right. now exists s, m, e.
Qed.

(** A finite number minus itself is [0]. *)
Lemma sub_diag (x : float) : PrimFloat.is_finite x = true -> x - x = 0.
Proof.
  intros H. apply finite_cases in H.
  apply Prim2SF_inj. rewrite FloatAxioms.sub_spec.
  change (Prim2SF 0) with (S754_zero false).
  destruct H as [[s H]|(s & m & e & H)]; rewrite H.
  - now destruct s.
  - unfold SF64sub, SFsub. cbv zeta.
    match goal with |- binary_normalize _ _ (IntDef.Z.sub ?a ?a) _ _ = _ =>
      assert (E : IntDef.Z.sub a a = 0%Z) by apply Z.sub_diag; rewrite E
    end.
    reflexivity.
Qed.

End FloatFacts.

Section ListFacts.

Lemma filter_all {A : Type} (f : A -> bool) (l : list A) :
  (forall x, In x l -> f x = true) -> filter f l = l.
Proof.
  induction l as [|x l IH]; intros H; [reflexivity|].
  cbn [filter]. rewrite (H x (or_introl eq_refl)). f_equal.
  apply IH. intros y Hy. apply H. now right.
Qed.

Lemma join_last (sep x y : string) (l : list string) :
  JS.join sep ((x :: l) ++ [y])%list = (JS.join sep (x :: l) ++ sep ++ y)%string.
Proof.
  unfold JS.join. revert x. induction l as [|z l IH]; intros x; [reflexivity|].
  change (String.concat sep ((x :: z :: l) ++ [y])%list)
    with (x ++ sep ++ String.concat sep ((z :: l) ++ [y])%list)%string.
  rewrite IH.
  change (String.concat sep (x :: z :: l))
    with (x ++ sep ++ String.concat sep (z :: l))%string.
  now rewrite !append_assoc.
Qed.

End ListFacts.

(** ** More on [analyzeAndRecommend] *)

Section MoreRecommendationFacts.
Import Text JS Schema AIRecommendation Templates.
Local Open Scope float_scope.

(** For a kind with one text, to mention the kind is to contain the text. *)
Lemma mentions_fixed (k : Kind) (m text : string) :
  (forall m', is_kind k m' -> m' = m) -> is_kind k m ->
  (mentions k text <-> contains m text).
Proof.
  intros Huniq Hk. split.
  - intros (m' & Hk' & Hc). now rewrite <- (Huniq m' Hk').
  - intros Hc. now exists m.
Qed.

(** X1.  For a profile, the text asks to start logging meals exactly when
    the meal list is null or empty; and then it holds no calorie message
    and no protein advice. *)
Theorem start_logging_exactly_without_meals
    (profile : UserProfile.t) (meals : option (list MealLog.t))
    (weights : option (list WeightLog.t)) :
  let text := analyzeAndRecommend (Some profile) meals weights in
  (contains msg_start_logging text <-> meals = None \/ meals = Some [])
  /\ (contains msg_start_logging text ->
      ~ mentions below text /\ ~ mentions exceeds text /\ ~ mentions aligned text
      /\ ~ contains msg_protein text).
Proof.
  intros text. subst text.
  assert (Hiff : contains msg_start_logging
                   (analyzeAndRecommend (Some profile) meals weights)
                 <-> meals = None \/ meals = Some []).
  { rewrite <- (mentions_fixed start_logging msg_start_logging);
      [|now inversion 1|constructor].
    rewrite mentions_fires.
    destruct meals as [[|m0 ms]|]; cbn; split; auto; try discriminate;
      intros [H|H]; discriminate H. }
  split; [exact Hiff|].
  intros Hc. apply Hiff in Hc.
  assert (Hno : forall k, In k [below; exceeds; aligned; protein] ->
                  fires profile meals weights k = false).
  { intros k Hk. destruct Hc as [-> | ->];
      cbn in Hk; destruct Hk as [<-|[<-|[<-|[<-|[]]]]]; reflexivity. }
  repeat split.
  - apply not_mentioned, Hno. cbn; auto.
  - apply not_mentioned, Hno. cbn; auto.
  - apply not_mentioned, Hno. cbn; auto.
  - intros Hp.
    apply (not_mentioned profile meals weights protein); [apply Hno; cbn; auto|].
    exists msg_protein. split; [constructor | exact Hp].
Qed.

(** X2.  With two or more weight entries the text can hold no weight
    message at all: always for a maintenance goal; for a muscle-gain goal
    unless the newest weight is below the one before; for a weight-loss
    goal when the two are equal (or not comparable). *)
Theorem weight_feedback_is_silent
    (profile : UserProfile.t) (meals : option (list MealLog.t))
    (w0 w1 : WeightLog.t) (ws : list WeightLog.t) :
  let text := analyzeAndRecommend (Some profile) meals (Some (w0 :: w1 :: ws)) in
  let delta := WeightLog.weight w0 - WeightLog.weight w1 in
  (~ mentions weight_increased text /\ ~ mentions weight_decreased text
   /\ ~ mentions weight_lost text /\ ~ mentions log_weight text)
  <-> match UserProfile.goal_type profile with
      | maintenance => True
      | muscle_gain => (delta <? 0) = false
      | weight_loss => (0 <? delta) = false /\ (delta <? 0) = false
      end.
Proof.
  intros text delta. subst text.
  rewrite !mentions_fires. table. fold delta.
  destruct (UserProfile.goal_type profile); cbn [goal_eqb andb negb];
    destruct (0 <? delta) eqn:E1; destruct (delta <? 0) eqn:E2; cbn [andb negb];
    intuition congruence.
Qed.

Lemma goalTip_is profile : goalTip profile = [Reads.tip_of (UserProfile.goal_type profile)].
Proof. unfold goalTip. now destruct (UserProfile.goal_type profile). Qed.

Lemma mealAdvice_length profile meals :
  (1 <= List.length (mealAdvice profile meals) <= 2)%nat.
Proof.
  destruct meals as [[|m0 ms]|]; cbn [mealAdvice]; try (cbn; lia).
  rewrite length_app.
  destruct (_ <? _); [|destruct (_ <? _)]; destruct (_ && _); cbn; lia.
Qed.

Lemma weightAdvice_length profile weights :
  (List.length (weightAdvice profile weights) <= 1)%nat.
Proof.
  destruct weights as [[|w0 [|w1 ws]]|]; cbn [weightAdvice]; try (cbn; lia).
  destruct (_ && _); [cbn; lia|].
  destruct (_ && _); [cbn; lia|].
  destruct (_ && _); cbn; lia.
Qed.

(** X3.  For a profile, the text is made of two to four messages and
    ends, after a blank line, with the tip of the profile's goal; the
    tips of the two other goals do not occur in it. *)
Theorem closing_tip_by_goal
    (profile : UserProfile.t) (meals : option (list MealLog.t))
    (weights : option (list WeightLog.t)) :
  let text := analyzeAndRecommend (Some profile) meals weights in
  let goal := UserProfile.goal_type profile in
  (exists before, text = (before ++ blank_line ++ Reads.tip_of goal)%string)
  /\ (contains tip_weight_loss text <-> goal = weight_loss)
  /\ (contains tip_muscle_gain text <-> goal = muscle_gain)
  /\ (contains tip_maintenance text <-> goal = maintenance)
  /\ (2 <= List.length (recommendations profile meals weights) <= 4)%nat.
Proof.
  intros text goal. subst text.
  split; [|split; [|split; [|split]]].
  - cbn [analyzeAndRecommend]. unfold recommendations.
    rewrite goalTip_is, app_assoc. fold goal.
    pose proof (mealAdvice_length profile meals) as Hm.
    destruct (mealAdvice profile meals ++ weightAdvice profile weights)%list
      as [|x l] eqn:E.
    + apply (f_equal (@List.length string)) in E. rewrite length_app in E.
      cbn in E. lia.
    + exists (join blank_line (x :: l)). apply join_last.
  - rewrite <- (mentions_fixed tip_loss tip_weight_loss); [|now inversion 1|constructor].
    rewrite mentions_fires. table. fold goal. now destruct goal.
  - rewrite <- (mentions_fixed tip_gain tip_muscle_gain); [|now inversion 1|constructor].
    rewrite mentions_fires. table. fold goal. now destruct goal.
  - rewrite <- (mentions_fixed tip_maintain tip_maintenance); [|now inversion 1|constructor].
    rewrite mentions_fires. table. fold goal. now destruct goal.
  - unfold recommendations. rewrite !length_app, goalTip_is.
    pose proof (mealAdvice_length profile meals).
    pose proof (weightAdvice_length profile weights). cbn [List.length]. lia.
Qed.

(** X4.  When the daily average is [NaN] (a total of [Infinity] that met
    [-Infinity]), neither threshold comparison holds and the text
    praises the intake: it has the "aligned" message, with [NaN] for the
    calories. *)
Theorem nan_average_is_called_aligned
    (profile : UserProfile.t) (meals : list MealLog.t)
    (weights : option (list WeightLog.t)) :
  meals <> [] ->
  PrimFloat.is_nan (avgDailyCalories meals) = true ->
  let text := analyzeAndRecommend (Some profile) (Some meals) weights in
  contains "Great job! Your calorie intake (NaN cal) is aligned with your target." text
  /\ ~ mentions below text /\ ~ mentions exceeds text.
Proof.
  intros Hne Hnan text. subst text.
  destruct meals as [|m0 ms]; [congruence|].
  assert (E1 : (avgDailyCalories (m0 :: ms)
                <? UserProfile.daily_calorie_target profile * 0.8) = false)
    by now apply ltb_nan_l.
  assert (E2 : (UserProfile.daily_calorie_target profile * 1.2
                <? avgDailyCalories (m0 :: ms)) = false)
    by now apply ltb_nan_r.
  split; [|split].
  - replace "Great job! Your calorie intake (NaN cal) is aligned with your target."%string
      with (message profile (Some (m0 :: ms)) weights aligned).
    + apply fires_contains. table. now rewrite E1, E2.
    + cbn [message the_meals]. unfold msg_aligned, Math_round, Number_toString.
      apply is_nan_Prim2SF in Hnan. now rewrite Hnan, Hnan.
  - apply not_mentioned. table. exact E1.
  - apply not_mentioned. table. now rewrite E1.
Qed.

Lemma nan_average_is_called_aligned_witness :
  Samples.cancelled_out <> []
  /\ PrimFloat.is_nan (avgDailyCalories Samples.cancelled_out) = true
  /\ contains "Great job! Your calorie intake (NaN cal) is aligned with your target."
       (analyzeAndRecommend (Some (Examples.profile maintenance 2000))
          (Some Samples.cancelled_out) None).
Proof.
  assert (H1 : Samples.cancelled_out <> []) by discriminate.
  assert (H2 : PrimFloat.is_nan (avgDailyCalories Samples.cancelled_out) = true)
    by reflexivity.
  split; [exact H1|]. split; [exact H2|].
  exact (proj1 (nan_average_is_called_aligned (Examples.profile maintenance 2000)
                  Samples.cancelled_out None H1 H2)).
Defined.

Lemma tally_reads (meal meal' : MealLog.t) (acc acc' : Totals) :
  Reads.of_meal meal = Reads.of_meal meal' ->
  totalCalories acc = totalCalories acc' -> totalProtein acc = totalProtein acc' ->
  daysLogged acc = daysLogged acc' ->
  totalCalories (tally acc meal) = totalCalories (tally acc' meal')
  /\ totalProtein (tally acc meal) = totalProtein (tally acc' meal')
  /\ daysLogged (tally acc meal) = daysLogged (tally acc' meal').
Proof.
  unfold Reads.of_meal, tally. intros Hm Hc Hp Hd.
  destruct (MealLog.food_items meal) as [f|], (MealLog.food_items meal') as [f'|];
    try discriminate Hm; [|now repeat split].
  inversion Hm as [[E1 E2 E3 E4]]. cbn [totalCalories totalProtein daysLogged].
  now rewrite Hc, Hp, Hd, E1, E2, E3, E4.
Qed.

Lemma totals_reads (meals meals' : list MealLog.t) :
  map Reads.of_meal meals = map Reads.of_meal meals' ->
  forall acc acc',
    totalCalories acc = totalCalories acc' -> totalProtein acc = totalProtein acc' ->
    daysLogged acc = daysLogged acc' ->
    totalCalories (fold_left tally meals acc) = totalCalories (fold_left tally meals' acc')
    /\ totalProtein (fold_left tally meals acc) = totalProtein (fold_left tally meals' acc')
    /\ daysLogged (fold_left tally meals acc) = daysLogged (fold_left tally meals' acc').
Proof.
  revert meals'. induction meals as [|m ms IH]; intros [|m' ms'] Hmap;
    try discriminate Hmap; intros acc acc' Hc Hp Hd; [now repeat split|].
  cbn [map] in Hmap. inversion Hmap as [[Hm Hms]]. cbn [fold_left].
  destruct (tally_reads m m' acc acc' Hm Hc Hp Hd) as (Hc' & Hp' & Hd').
  now apply IH.
Qed.

(** X5.  The text depends on nothing of its arguments but: the goal and
    the calorie target of the profile; for each meal, whether a food item
    is joined and then its calories, its protein, the servings and the
    date of [logged_at]; and the weights of the first two weight entries.
    Carbs and fats, though summed, ids, names, categories, times of day
    and older weight entries never change it. *)
Theorem text_depends_on_what_is_read
    (profile profile' : option UserProfile.t)
    (meals meals' : option (list MealLog.t))
    (weights weights' : option (list WeightLog.t)) :
  Reads.of_profile profile = Reads.of_profile profile' ->
  Reads.of_meals meals = Reads.of_meals meals' ->
  Reads.of_weights weights = Reads.of_weights weights' ->
  analyzeAndRecommend profile meals weights
  = analyzeAndRecommend profile' meals' weights'.
Proof.
  intros Hp Hm Hw.
  destruct profile as [p|], profile' as [p'|]; try discriminate Hp; [|reflexivity].
  cbn in Hp. inversion Hp as [[Hgoal Htarget]].
  cbn [analyzeAndRecommend]. f_equal. unfold recommendations.
  assert (Emeal : mealAdvice p meals = mealAdvice p' meals').
  { destruct meals as [ms|], meals' as [ms'|]; try discriminate Hm; [|reflexivity].
    cbn in Hm. inversion Hm as [Hmap].
    destruct ms as [|m0 ms], ms' as [|m0' ms']; try discriminate Hmap; [reflexivity|].
    destruct (totals_reads _ _ Hmap no_totals no_totals eq_refl eq_refl eq_refl)
      as (Hc & Hpr & Hd).
    cbn [mealAdvice]. unfold avgDailyCalories, avgProtein, divisor, totals.
    now rewrite Hc, Hpr, Hd, Hgoal, Htarget. }
  assert (Eweight : weightAdvice p weights = weightAdvice p' weights').
  { destruct weights as [[|w0 [|w1 ws]]|], weights' as [[|w0' [|w1' ws']]|];
      try discriminate Hw; try reflexivity.
    cbn in Hw. inversion Hw as [[E0 E1]]. cbn [weightAdvice].
    now rewrite E0, E1, Hgoal. }
  assert (Etip : goalTip p = goalTip p') by (unfold goalTip; now rewrite Hgoal).
  now rewrite Emeal, Eweight, Etip.
Qed.

Lemma text_depends_on_what_is_read_witness :
  analyzeAndRecommend (Some (Examples.profile muscle_gain 2000))
    (Some Examples.two_days) (Some Examples.lighter)
  = analyzeAndRecommend (Some Samples.other_profile)
      (Some Samples.other_week) (Some Samples.other_weights).
Proof.
  exact (text_depends_on_what_is_read
           (Some (Examples.profile muscle_gain 2000)) (Some Samples.other_profile)
           (Some Examples.two_days) (Some Samples.other_week)
           (Some Examples.lighter) (Some Samples.other_weights)
           eq_refl eq_refl eq_refl).
Defined.

End MoreRecommendationFacts.

(** ** The handlers, whatever the store answers *)

Ltac run_component :=
  cbv beta iota zeta delta
    [WeightTracking.handleSubmit WeightTracking.handleDelete
     WeightTracking.loadWeightLogs WeightTracking.setLoading
     WeightTracking.setWeight WeightTracking.setDate WeightTracking.setWeightLogs
     MealLogging.handleLogMeal MealLogging.handleDeleteMeal
     MealLogging.loadMealLogs MealLogging.setLoading MealLogging.setSelectedFood
     MealLogging.setServings MealLogging.setSearchTerm MealLogging.setMealLogs
     MeasurementTracking.handleSubmit MeasurementTracking.handleDelete
     MeasurementTracking.loadMeasurements MeasurementTracking.setLoading
     MeasurementTracking.setFormData MeasurementTracking.setMeasurements
     AIRecommendation.generateRecommendation AIRecommendation.loadLatestRecommendation
     AIRecommendation.setLoading AIRecommendation.setRecommendation
     Effects.finally Effects.try_catch Effects.bind Effects.request Effects.set
     Effects.now Effects.daysAgo Effects.emit Effects.throw_if_error Effects.throw
     Effects.ret Effects.log_of Trace.outcome Trace.state].

Section TraceFacts.
Import Effects Trace.

Lemma requests_app (a b : list Event) : requests (a ++ b) = (requests a ++ requests b)%list.
Proof. apply flat_map_app. Qed.

Lemma writes_app (a b : list Event) : writes (a ++ b) = (writes a ++ writes b)%list.
Proof. unfold writes. now rewrite requests_app, filter_app. Qed.

End TraceFacts.

Ltac settle :=
  repeat match goal with
  | |- context [match ?a with
                | Effects.write_result _ => _ | Effects.weight_rows _ => _
                | Effects.meal_rows _ => _ | Effects.measurement_rows _ => _
                | Effects.profile_row _ => _ | Effects.recommendation_row _ => _
                end] =>
      destruct a as [[?|]|[?|]|[?|]|[?|]|[?|]|[?|]]; cbn [fst snd]
  end.



Section Settling.
Import Effects Trace.
Variable rt : Runtime.
Variable u : User.
Variable h : list Event.











End Settling.

(** ** Accepted writes *)

Section Accepted.
Import Effects Trace.
Variable rt : Runtime.
Variable u : User.
Variable h : list Event.










End Accepted.



(** ** Without a signed-in user *)

Section SignedOut.
Import Effects Trace.
Variable rt : Runtime.
Variable h : list Event.

(** X9.  Without a signed-in user the submit handlers and
    [generateRecommendation] return at once, as [handleLogMeal] does
    without a selected food: no request, no state change.  The delete
    handlers have no such guard: they send their delete all the same,
    and then skip the reload, so the state stays as it was. *)
Theorem signed_out_handlers :
  (forall st, WeightTracking.handleSubmit rt None st st h = (returned tt, st, h))
  /\ (forall st, MealLogging.handleLogMeal rt None st st h = (returned tt, st, h))
  /\ (forall u st, MealLogging.selectedFood st = None ->
        MealLogging.handleLogMeal rt u st st h = (returned tt, st, h))
  /\ (forall st, MeasurementTracking.handleSubmit rt None st st h = (returned tt, st, h))
  /\ (forall st, AIRecommendation.generateRecommendation rt None st h
                 = (returned tt, st, h))
  /\ (forall st row_id,
        let run := WeightTracking.handleDelete rt None row_id st h in
        settled run h (delete_weight_log row_id) /\ state run = st
        /\ requests (log_of run) = (requests h ++ [delete_weight_log row_id])%list)
  /\ (forall st row_id,
        let run := MealLogging.handleDeleteMeal rt None row_id st h in
        settled run h (delete_meal_log row_id) /\ state run = st
        /\ requests (log_of run) = (requests h ++ [delete_meal_log row_id])%list)
  /\ (forall st row_id,
        let run := MeasurementTracking.handleDelete rt None row_id st h in
        settled run h (delete_measurement row_id) /\ state run = st
        /\ requests (log_of run) = (requests h ++ [delete_measurement row_id])%list).
Proof.
  split; [reflexivity|]. split; [reflexivity|].
  split; [intros [u|] st Hsel; unfold MealLogging.handleLogMeal; now rewrite ?Hsel|].
  split; [reflexivity|]. split; [reflexivity|].
  unfold settled.
  split; [|split]; intros st row_id; run_component;
    match goal with |- context [backend rt h ?r] =>
      destruct (backend rt h r) as [[?|]|[?|]|[?|]|[?|]|[?|]|[?|]]
    end; cbn [fst snd]; rewrite ?writes_app, ?requests_app;
    cbn [writes requests flat_map filter is_write app]; rewrite ?app_nil_r; auto.
Qed.

End SignedOut.

(** ** One run of [generateRecommendation] *)

Section Recommendation.
Import Effects Trace AIRecommendation.
Variable rt : Runtime.
Variable u : User.
Variable h : list Event.


End Recommendation.


(** ** The food search of MealLogging *)

Section SearchFacts.
Import Text Schema MealSearch.
Variable toLowerCase : string -> string.

(** X11.  The food search ignores the case of the term: searching for a
    term and for its lower-case form give the same list (for an engine
    whose [toLowerCase] leaves lower-case text and the empty text as
    they are). *)
Theorem search_ignores_case_of_term (searchTerm : string) (foods : list FoodItem.t) :
  toLowerCase "" = "" ->
  (forall s, toLowerCase (toLowerCase s) = toLowerCase s) ->
  filteredFoods toLowerCase (toLowerCase searchTerm) foods
  = filteredFoods toLowerCase searchTerm foods.
Proof.
  intros Hempty Hidem.
  destruct searchTerm as [|c r]; [now rewrite Hempty|].
  cbn [filteredFoods].
  destruct (toLowerCase (String c r)) as [|c' r'] eqn:E.
  - cbn [filteredFoods]. symmetry. apply filter_all.
    intros food _. unfold matches. rewrite E. apply includes_of_empty.
  - cbn [filteredFoods]. apply filter_ext. intros food. unfold matches.
    now rewrite <- E, Hidem.
Qed.

(** X12.  Typing more narrows the list: when the lower-case form of a
    term occurs in the lower-case form of a longer, non-empty term, every
    food listed for the longer term is listed for the shorter one; and
    the list for a term holds foods of the catalogue only. *)
Theorem longer_term_narrows_the_list (shorter longer : string) (foods : list FoodItem.t) :
  longer <> "" ->
  contains (toLowerCase shorter) (toLowerCase longer) ->
  incl (filteredFoods toLowerCase longer foods) (filteredFoods toLowerCase shorter foods)
  /\ incl (filteredFoods toLowerCase longer foods) foods.
Proof.
  intros Hne Hc.
  assert (Hin : forall food, In food (filteredFoods toLowerCase longer foods) ->
                  In food foods /\ matches toLowerCase longer food = true).
  { intros food. destruct longer as [|c r]; [congruence|]. cbn [filteredFoods].
    apply filter_In. }
  split; intros food Hf; destruct (Hin food Hf) as [Hfood Hm]; [|exact Hfood].
  destruct shorter as [|c r]; cbn [filteredFoods]; [exact Hfood|].
  apply filter_In. split; [exact Hfood|].
  unfold matches in *. apply includes_contains.
  apply includes_contains in Hm. exact (contains_trans _ _ _ Hc Hm).
Qed.

End SearchFacts.

Section AsciiSearch.
Import Text Schema MealSearch.

Lemma lower_idempotent (c : ascii) : lower (lower c) = lower c.
Proof. destruct c as [[] [] [] [] [] [] [] []]; reflexivity. Qed.

Lemma ascii_toLowerCase_idempotent (s : string) :
  ascii_toLowerCase (ascii_toLowerCase s) = ascii_toLowerCase s.
Proof.
  induction s as [|c r IH]; [reflexivity|].
  cbn [ascii_toLowerCase]. now rewrite lower_idempotent, IH.
Qed.

Lemma search_ignores_case_of_term_witness :
  map FoodItem.name (filteredFoods ascii_toLowerCase "BR" Samples.catalog)
  = ["Broccoli"; "Brown Rice"; "Chicken Breast"]
  /\ filteredFoods ascii_toLowerCase (ascii_toLowerCase "BR") Samples.catalog
     = filteredFoods ascii_toLowerCase "BR" Samples.catalog.
Proof.
  split; [reflexivity|].
  exact (search_ignores_case_of_term ascii_toLowerCase "BR" Samples.catalog
           eq_refl ascii_toLowerCase_idempotent).
Defined.

Lemma longer_term_narrows_the_list_witness :
  map FoodItem.name (filteredFoods ascii_toLowerCase "Bro" Samples.catalog)
  = ["Broccoli"; "Brown Rice"]
  /\ incl (filteredFoods ascii_toLowerCase "Bro" Samples.catalog)
          (filteredFoods ascii_toLowerCase "BR" Samples.catalog)
  /\ incl (filteredFoods ascii_toLowerCase "Bro" Samples.catalog) Samples.catalog.
Proof.
  split; [reflexivity|].
  apply (longer_term_narrows_the_list ascii_toLowerCase "BR" "Bro" Samples.catalog).
  - discriminate.
  - exists ""%string, "o"%string. reflexivity.
Defined.

End AsciiSearch.

(** ** The bars of ProgressCharts *)

Section BarFacts.
Import JS Schema ProgressCharts ProgressBars.
Local Open Scope float_scope.

Lemma max_of_zeros (args : list number) :
  Forall (fun x => (x =? 0) = true) args ->
  forall highest,
    Prim2SF highest = S754_infinity true \/ (exists s, Prim2SF highest = S754_zero s) ->
    max_from highest (args ++ [0]) = 0.
Proof.
  induction 1 as [|x args Hx _ IH]; intros highest Hh.
  - cbn [app max_from]. change (PrimFloat.is_nan 0) with false. cbv iota.
    unfold is_zero_of_sign at 1. change (Prim2SF 0) with (S754_zero false).
    cbn [Bool.eqb andb]. unfold is_zero_of_sign. rewrite FloatAxioms.ltb_spec.
    change (Prim2SF 0) with (S754_zero false).
    destruct Hh as [Hh|[[|] Hh]]; rewrite Hh; cbn; try reflexivity.
    apply Prim2SF_inj. exact Hh.
  - apply eqb_zero in Hx as [s Hx].
    cbn [app max_from]. rewrite not_nan_Prim2SF by (rewrite Hx; discriminate).
    destruct (_ && _); [apply IH; right; now exists s|].
    destruct (highest <? x); apply IH; [right; now exists s | exact Hh].
Qed.

(** X13.  The calorie chart divides by [maxCalories]: when every day of
    the series has 0 calories (meals without a joined food item, or of
    no calories), [maxCalories] is 0, each day's height is [0 / 0], and
    the width of every bar is the text [NaN%]. *)
Theorem days_without_calories_have_no_width
    (dailyCalories : list DayCalories) (day : DayCalories) :
  Forall (fun d => (calories d =? 0) = true) dailyCalories ->
  In day dailyCalories ->
  maxCalories dailyCalories = 0
  /\ calorieBarWidth dailyCalories day = "NaN%"%string.
Proof.
  intros Hall Hin.
  assert (Hmax : maxCalories dailyCalories = 0).
  { unfold maxCalories, Math_max. apply max_of_zeros; [|now left].
    apply Forall_map. exact Hall. }
  split; [exact Hmax|].
  rewrite Forall_forall in Hall. apply Hall, eqb_zero in Hin as [s Hday].
  unfold calorieBarWidth. rewrite Hmax.
  assert (Hnan : PrimFloat.is_nan (calories day / 0 * 100) = true).
  { apply is_nan_Prim2SF.
    rewrite FloatAxioms.mul_spec, FloatAxioms.div_spec, Hday. reflexivity. }
  unfold Math_max. cbn [max_from]. rewrite Hnan. reflexivity.
Qed.

Lemma days_without_calories_have_no_width_witness :
  let dailyCalories := calorieData String.compare Examples.unjoined in
  dailyCalories = [ {| date := "2025-11-01"; calories := 0 |} ]
  /\ maxCalories dailyCalories = 0
  /\ calorieBarWidth dailyCalories {| date := "2025-11-01"; calories := 0 |}
     = "NaN%"%string.
Proof.
  intros dailyCalories. split; [reflexivity|].
  apply (days_without_calories_have_no_width dailyCalories).
  - repeat constructor.
  - now left.
Defined.

Lemma single_weight_bar (log : WeightLog.t) :
  PrimFloat.is_finite (WeightLog.weight log) = true ->
  minWeight [log] = WeightLog.weight log
  /\ weightBarWidth [log] log = "10%"%string.
Proof.
  intros Hfinite. pose proof (finite_cases _ Hfinite) as Hfin.
  set (w := WeightLog.weight log) in *.
  assert (Hnan : PrimFloat.is_nan w = false).
  { apply not_nan_Prim2SF. destruct Hfin as [[s H]|(s & m & e & H)]; rewrite H; discriminate. }
  assert (Hmax : (maxWeight [log] = w /\ (w <? w) = false
                  /\ (Prim2SF w = S754_zero false \/ exists m e, Prim2SF w = S754_finite false m e))
                 \/ (maxWeight [log] = 0
                     /\ (Prim2SF w = S754_zero true \/ exists m e, Prim2SF w = S754_finite true m e))).
  { unfold maxWeight, Math_max. cbn [map app max_from]. fold w. rewrite Hnan.
    change (PrimFloat.is_nan 0) with false. cbv iota.
    unfold is_zero_of_sign. rewrite !FloatAxioms.ltb_spec.
    change (Prim2SF neg_infinity) with (S754_infinity true).
    change (Prim2SF 0) with (S754_zero false).
    destruct Hfin as [[[|] H]|([|] & m & e & H)]; rewrite H; cbn.
    - right. split; [reflexivity | now left].
    - left. split; [reflexivity|]. split; [reflexivity | now left].
    - right. split; [reflexivity | right; now exists m, e].
    - left. split; [reflexivity|]. split; [|right; now exists m, e].
      rewrite Z.compare_refl. fold (Pos.compare m m). rewrite Pos.compare_refl. reflexivity. }
  assert (Hmin : minWeight [log] = w).
  { unfold minWeight, Math_min. cbn [map app min_from]. fold w. rewrite Hnan.
    destruct Hmax as [(-> & Hww & _)|(-> & Hw)].
    - rewrite Hnan. unfold is_zero_of_sign. rewrite Hww.
      rewrite FloatAxioms.ltb_spec.
      change (Prim2SF infinity) with (S754_infinity false).
      destruct Hfin as [[[|] H]|([|] & m & e & H)]; rewrite H; cbn; reflexivity.
    - change (PrimFloat.is_nan 0) with false. cbv iota.
      unfold is_zero_of_sign. rewrite !FloatAxioms.ltb_spec.
      change (Prim2SF infinity) with (S754_infinity false).
      change (Prim2SF 0) with (S754_zero false).
      destruct Hw as [H|(m & e & H)]; rewrite H; cbn; rewrite ?H; cbn; reflexivity. }
  split; [exact Hmin|].
  assert (Hzero : (w - w) / weightRange [log] * 100 = 0).
  { rewrite (sub_diag w Hfinite). unfold weightRange. rewrite Hmin.
    destruct Hmax as [(-> & _ & _)|(-> & Hw)].
    - rewrite (sub_diag w Hfinite). reflexivity.
    - destruct Hw as [H|(m & e & H)].
      + assert (E : 0 - w = 0).
        { apply Prim2SF_inj. rewrite FloatAxioms.sub_spec, H. reflexivity. }
        rewrite E. reflexivity.
      + assert (E : Prim2SF (0 - w) = S754_finite false m e)
          by (rewrite FloatAxioms.sub_spec, H; reflexivity).
        assert (Ht : truthy (0 - w) = true).
        { unfold truthy. rewrite (not_nan_Prim2SF (0 - w)) by (rewrite E; discriminate).
          rewrite FloatAxioms.eqb_spec, E. reflexivity. }
        unfold or_else. rewrite Ht.
        assert (E0 : 0 / (0 - w) = 0).
        { apply Prim2SF_inj. rewrite FloatAxioms.div_spec, E. reflexivity. }
        rewrite E0. reflexivity. }
  unfold weightBarWidth. fold w. rewrite Hmin, Hzero. reflexivity.
Qed.


(** X14.  The weight chart divides by [weightRange], which is never 0
    nor [NaN]: a range of 0 is replaced by 1.  So a chart of a single
    finite weight has that weight as its minimum, a height of 0, and a
    bar of the minimum width, [10%]. *)
Theorem weight_bars_never_divide_by_zero
    (weightLogs : list WeightLog.t) (log : WeightLog.t) :
  truthy (weightRange weightLogs) = true
  /\ (weightRange weightLogs =? 0) = false
  /\ PrimFloat.is_nan (weightRange weightLogs) = false
  /\ (PrimFloat.is_finite (WeightLog.weight log) = true ->
      minWeight [log] = WeightLog.weight log
      /\ weightBarWidth [log] log = "10%"%string).
Proof.
  assert (H : truthy (weightRange weightLogs) = true).
  { unfold weightRange, or_else.
    destruct (truthy (maxWeight weightLogs - minWeight weightLogs)) eqn:E;
      [exact E | reflexivity]. }
  split; [exact H|]. unfold truthy in H.
  apply andb_true_iff in H as [H1 H2]. rewrite negb_true_iff in H1, H2.
  split; [exact H1|]. split; [exact H2|]. apply single_weight_bar.
Qed.

Lemma weight_bars_never_divide_by_zero_witness :
  PrimFloat.is_finite (WeightLog.weight (Examples.weighing "2025-11-01" 72.5)) = true
  /\ minWeight [Examples.weighing "2025-11-01" 72.5] = 72.5
  /\ weightBarWidth [Examples.weighing "2025-11-01" 72.5]
       (Examples.weighing "2025-11-01" 72.5) = "10%"%string.
Proof.
  split; [reflexivity|].
  exact (proj2 (proj2 (proj2 (weight_bars_never_divide_by_zero []
                                (Examples.weighing "2025-11-01" 72.5)))) eq_refl).
Defined.

End BarFacts.

(** ** More on the dashboard *)

Section MoreDashboardFacts.
Import JS Schema Dashboard.
Local Open Scope float_scope.

(** X15.  Every meal the dashboard counts is a meal of the current day
    that the "Today's Meals" query of MealLogging lists too; the meals
    that query lists and the dashboard leaves out are the user's meals
    logged in the last second of the day or on a later day. *)
Theorem dashboard_counts_a_part_of_todays_meals
    (user_id : string) (today : Z) (m : StoredMeal) :
  well_formed (logged_at m) ->
  (selected user_id today m = true -> listed user_id today m = true /\ on_day today m)
  /\ (listed user_id today m = true /\ selected user_id today m = false
      <-> MealLog.user_id (row m) = user_id
          /\ (today < day (logged_at m)
              \/ day (logged_at m) = today
                 /\ 86399 * 1000000 <= microsecond (logged_at m))%Z).
Proof.
  intros Hwf. pose proof (selected_spec user_id today m Hwf) as Hsel.
  assert (Hlisted : listed user_id today m = true
                    <-> MealLog.user_id (row m) = user_id
                        /\ (today <= day (logged_at m))%Z).
  { unfold listed, ts_leb, ts_ltb, start_of. cbn [day microsecond].
    unfold well_formed, microseconds_per_day in Hwf.
    rewrite andb_true_iff, negb_true_iff, String.eqb_eq, orb_false_iff,
      andb_false_iff, !Z.ltb_ge, Z.eqb_neq. intuition lia. }
  split.
  - intros H. apply Hsel in H as (Hu & Hd & Hms). split.
    + apply Hlisted. split; [exact Hu | lia].
    + split; [exact Hd | exact Hwf].
  - rewrite Hlisted. clear Hsel. destruct (selected user_id today m) eqn:E.
    + apply (selected_spec user_id today m Hwf) in E as (Hu & Hd & Hms).
      split; [intros [_ H]; discriminate H|].
      intros (_ & [H|[_ H]]); lia.
    + split.
      * intros [[Hu Hd] _]. split; [exact Hu|].
        destruct (Z.eq_dec (day (logged_at m)) today) as [Eq|Ne]; [|lia].
        right. split; [exact Eq|].
        destruct (Z_lt_le_dec (microsecond (logged_at m)) (86399 * 1000000)) as [Hlt|Hle];
          [|exact Hle].
        assert (selected user_id today m = true)
          by (apply (selected_spec user_id today m Hwf); auto).
        congruence.
      * intros [Hu Hd]. split; [|reflexivity]. split; [exact Hu | lia].
Qed.

Lemma dashboard_counts_a_part_of_todays_meals_witness :
  well_formed (logged_at Examples.lunch_meal)
  /\ selected "user-1" Examples.today Examples.lunch_meal = true
  /\ listed "user-1" Examples.today Examples.lunch_meal = true
  /\ on_day Examples.today Examples.lunch_meal.
Proof.
  assert (Hwf : well_formed (logged_at Examples.lunch_meal))
    by (unfold well_formed, microseconds_per_day; simpl; lia).
  split; [exact Hwf|]. split; [reflexivity|].
  exact (proj1 (dashboard_counts_a_part_of_todays_meals "user-1" Examples.today
                  Examples.lunch_meal Hwf) eq_refl).
Defined.

Lemma sums_agree (meals : list MealLog.t) :
  forall (acc : Sums) (t : AIRecommendation.Totals),
    calories acc = AIRecommendation.totalCalories t ->
    protein acc = AIRecommendation.totalProtein t ->
    carbs acc = AIRecommendation.totalCarbs t ->
    fats acc = AIRecommendation.totalFats t ->
    let s := fold_left addMeal meals acc in
    let t' := fold_left AIRecommendation.tally meals t in
    calories s = AIRecommendation.totalCalories t'
    /\ protein s = AIRecommendation.totalProtein t'
    /\ carbs s = AIRecommendation.totalCarbs t'
    /\ fats s = AIRecommendation.totalFats t'.
Proof.
  induction meals as [|meal meals IH]; intros acc t Hc Hp Hb Hf; [now repeat split|].
  cbn [fold_left]. apply IH; unfold addMeal, AIRecommendation.tally;
    destruct (MealLog.food_items meal); cbn; congruence.
Qed.

Lemma addMeal_without_food (meals : list MealLog.t) :
  forall acc, fold_left addMeal meals acc
              = fold_left addMeal (filter AIRecommendation.has_food meals) acc.
Proof.
  induction meals as [|meal meals IH]; intros acc; [reflexivity|].
  cbn [filter fold_left]. destruct (AIRecommendation.has_food meal) eqn:E.
  - cbn [fold_left]. apply IH.
  - rewrite IH. f_equal. unfold AIRecommendation.has_food in E. unfold addMeal.
    now destruct (MealLog.food_items meal).
Qed.

(** X16.  The dashboard's pass over the meals computes the sums of the
    recommendation's pass: today's calories, protein, carbs and fats
    are the rounded totals [analyzeAndRecommend] would compute for the
    same meals; and meals without a joined food item do not change
    them. *)
Theorem dashboard_sums_are_the_recommendation_totals (meals : list MealLog.t) :
  let sums := todayTotals meals in
  let t := AIRecommendation.totals meals in
  calories sums = Math_round (AIRecommendation.totalCalories t)
  /\ protein sums = Math_round (AIRecommendation.totalProtein t)
  /\ carbs sums = Math_round (AIRecommendation.totalCarbs t)
  /\ fats sums = Math_round (AIRecommendation.totalFats t)
  /\ todayTotals meals = todayTotals (filter AIRecommendation.has_food meals).
Proof.
  cbv zeta.
  assert (Hskip : todayTotals meals = todayTotals (filter AIRecommendation.has_food meals))
    by (unfold todayTotals; now rewrite <- addMeal_without_food).
  unfold todayTotals at 1 2 3 4, AIRecommendation.totals.
  cbn [calories protein carbs fats].
  destruct (sums_agree meals {| calories := 0; protein := 0; carbs := 0; fats := 0 |}
              AIRecommendation.no_totals eq_refl eq_refl eq_refl eq_refl)
    as (Hc & Hp & Hb & Hf).
  rewrite Hc, Hp, Hb, Hf. repeat split. exact Hskip.
Qed.


(** X17.  The dashboard's progress bar is never wider than 100: its
    width is [calorieProgress] capped by [Math.min], or [NaN].  Without
    a profile it is [0%]; with a calorie target of 0 and no calories
    today the progress is [0 / 0] and the width is the text [NaN%]. *)
Theorem dashboard_progress_is_capped
    (profile : option UserProfile.t) (todayCalories : number) :
  (100 <? ProgressBars.Math_min [DashboardBar.calorieProgress profile todayCalories; 100])
  = false
  /\ DashboardBar.progressWidth None todayCalories = "0%"%string
  /\ (forall p, (todayCalories =? 0) = true ->
                (UserProfile.daily_calorie_target p =? 0) = true ->
                DashboardBar.progressWidth (Some p) todayCalories = "NaN%"%string).
Proof.
  split; [|split].
  - unfold ProgressBars.Math_min. cbn [ProgressBars.min_from].
    set (x := DashboardBar.calorieProgress profile todayCalories).
    destruct (PrimFloat.is_nan x) eqn:Hnan; [reflexivity|].
    change (PrimFloat.is_nan 100) with false. cbv iota.
    assert (Hz : ProgressBars.is_zero_of_sign true 100 = false) by reflexivity.
    rewrite Hz. cbn [andb].
    destruct (_ && _).
    + destruct (100 <? x) eqn:E; [reflexivity | exact E].
    + destruct (x <? infinity).
      * destruct (100 <? x) eqn:E; [reflexivity | exact E].
      * reflexivity.
  - reflexivity.
  - intros p Hc Ht. apply eqb_zero in Hc as [s Hc]. apply eqb_zero in Ht as [s' Ht].
    unfold DashboardBar.progressWidth, DashboardBar.calorieProgress.
    assert (Hnan : PrimFloat.is_nan
                     (todayCalories / UserProfile.daily_calorie_target p * 100) = true).
    { apply is_nan_Prim2SF.
      rewrite FloatAxioms.mul_spec, FloatAxioms.div_spec, Hc, Ht. reflexivity. }
    unfold ProgressBars.Math_min. cbn [ProgressBars.min_from]. rewrite Hnan.
    reflexivity.
Qed.

End MoreDashboardFacts.

(** ** One day in the chart, on the dashboard and in the recommendation *)

Section OneDay.
Import JS Schema ProgressCharts.
Local Open Scope float_scope.

Lemma one_day_terms (d : string) (meals : list MealLog.t) :
  Forall (fun meal => dateOf meal = d) meals ->
  dayTerms d meals = map mealCalories meals.
Proof.
  intros H. unfold dayTerms. f_equal. apply filter_all.
  intros meal Hin. rewrite Forall_forall in H. apply String.eqb_eq. now apply H.
Qed.

Lemma one_day_keys (d : string) (meals : list MealLog.t) :
  Forall (fun meal => dateOf meal = d) meals ->
  forall m, (m = [] /\ meals <> []) \/ keys m = [d] ->
            keys (fold_left addMeal meals m) = [d].
Proof.
  induction 1 as [|meal meals Hd _ IH]; intros m Hm; cbn [fold_left].
  - destruct Hm as [[_ H]|H]; [congruence | exact H].
  - apply IH. right. unfold addMeal. rewrite Hd.
    destruct Hm as [[-> _]|Hk]; [reflexivity|].
    destruct m as [|[k v] [|e m]]; try discriminate Hk.
    cbn in Hk. inversion Hk; subst k. cbn [Map_set Map_get].
    now rewrite String.eqb_refl.
Qed.

Lemma sum_skips_unjoined (meals : list MealLog.t) :
  forall s : Dashboard.Sums,
    Prim2SF (Dashboard.calories s) <> S754_zero true ->
    fold_left PrimFloat.add (map mealCalories meals) (Dashboard.calories s)
    = Dashboard.calories (fold_left Dashboard.addMeal meals s).
Proof.
  induction meals as [|meal meals IH]; intros s Hs; [reflexivity|].
  cbn [map fold_left].
  assert (E : mealCalories meal
              = match MealLog.food_items meal with
                | Some food => FoodItem.calories food * MealLog.servings meal
                | None => 0
                end) by reflexivity.
  rewrite E. clear E. unfold Dashboard.addMeal at 2.
  destruct (MealLog.food_items meal) as [food|].
  - rewrite <- IH.
    + reflexivity.
    + cbn [Dashboard.calories]. intros E. apply add_negative_zero in E. contradiction.
  - rewrite add_zero_r by exact Hs. now apply IH.
Qed.

(** X18.  For meals that are all of one date, the progress chart and
    the dashboard agree: the series is the single entry of that date,
    and its calories are the dashboard's calories of the same meals,
    as long as no running total a later meal is added to is [NaN]. *)
Theorem chart_entry_of_a_day_is_the_dashboard_total
    (localeCompare : string -> string -> comparison)
    (meals : list MealLog.t) (d : string) :
  meals <> [] ->
  Forall (fun meal => dateOf meal = d) meals ->
  Forall (fun total => PrimFloat.is_nan total = false)
         (earlierTotals None (map mealCalories meals)) ->
  calorieData localeCompare meals
  = [ {| date := d;
         calories := Dashboard.calories (Dashboard.todayTotals meals) |} ].
Proof.
  intros Hne Hday Hnan.
  pose proof (one_day_keys d meals Hday [] (or_introl (conj eq_refl Hne))) as Hkeys.
  fold (caloriesByDay meals) in Hkeys.
  pose proof (get_fold d meals []) as Hget. fold (caloriesByDay meals) in Hget.
  rewrite (one_day_terms d meals Hday) in Hget.
  rewrite (running_sum _ None) in Hget;
    [| destruct meals; [congruence | discriminate]
     | apply earlier_totals_kept; exact Hnan ].
  unfold calorieData.
  destruct (caloriesByDay meals) as [|[k v] [|e m]]; try discriminate Hkeys.
  cbn in Hkeys. inversion Hkeys; subst k.
  cbn [Map_get] in Hget. rewrite String.eqb_refl in Hget. inversion Hget as [Hv].
  subst v. cbn [map sort insert fst snd].
  unfold Dashboard.todayTotals. cbn [Dashboard.calories].
  rewrite <- (sum_skips_unjoined meals
                {| Dashboard.calories := 0; Dashboard.protein := 0;
                   Dashboard.carbs := 0; Dashboard.fats := 0 |})
    by discriminate.
  reflexivity.
Qed.

Lemma chart_entry_of_a_day_is_the_dashboard_total_witness :
  let meals := Samples.one_day in
  calorieData String.compare meals = [ {| date := "2025-11-02"; calories := 701 |} ]
  /\ Dashboard.calories (Dashboard.todayTotals meals) = 701.
Proof.
  intros meals.
  assert (H : calorieData String.compare meals
              = [ {| date := "2025-11-02";
                     calories := Dashboard.calories (Dashboard.todayTotals meals) |} ]).
  { apply chart_entry_of_a_day_is_the_dashboard_total.
    - discriminate.
    - repeat constructor.
    - repeat constructor. }
  split; [exact H | reflexivity].
Defined.

End OneDay.

Section DayWithoutFood.
Import JS Schema ProgressCharts.
Local Open Scope float_scope.

Lemma running_total_of_zeros (terms : list number) :
  Forall (fun c => c = 0) terms ->
  forall acc, acc = None \/ acc = Some 0 ->
              fold_left step terms acc = acc \/ fold_left step terms acc = Some 0.
Proof.
  induction 1 as [|c terms Hc _ IH]; intros acc Hacc; [now left|].
  cbn [fold_left]. subst c. right.
  assert (E : step acc 0 = Some 0) by (destruct Hacc as [-> | ->]; reflexivity).
  rewrite E. destruct (IH (Some 0) (or_intror eq_refl)) as [H|H]; exact H.
Qed.

(** X19.  A date whose meals all lack a joined food item is a day of the
    progress chart, with 0 calories, but not a logged day of the
    recommendation, whose averages divide by the number of logged
    days. *)
Theorem day_without_food_items_is_charted_but_not_counted
    (localeCompare : string -> string -> comparison)
    (meals : list MealLog.t) (d : string) :
  (exists meal, In meal meals /\ dateOf meal = d) ->
  (forall meal, In meal meals -> dateOf meal = d -> MealLog.food_items meal = None) ->
  In {| date := d; calories := 0 |} (calorieData localeCompare meals)
  /\ ~ In d (AIRecommendation.daysLogged (AIRecommendation.totals meals)).
Proof.
  intros Hex Hnone. split.
  - assert (Hkey : In d (keys (caloriesByDay meals)))
      by (apply keys_fold; now right).
    unfold keys in Hkey. apply in_map_iff in Hkey as ([k v] & Hk & Hin).
    cbn in Hk. subst k.
    pose proof (NoDup_fold meals [] (NoDup_nil _)) as Hnd.
    fold (caloriesByDay meals) in Hnd.
    pose proof (proj1 (In_Map_get d v _ Hnd) Hin) as Hget.
    unfold caloriesByDay in Hget. rewrite get_fold in Hget. cbn [Map_get] in Hget.
    assert (Hz : Forall (fun c => c = 0) (dayTerms d meals)).
    { unfold dayTerms. apply Forall_map, Forall_forall. intros meal Hm.
      apply filter_In in Hm as [Hm Hd]. apply String.eqb_eq in Hd.
      unfold mealCalories. now rewrite (Hnone meal Hm Hd). }
    destruct (running_total_of_zeros _ Hz None (or_introl eq_refl)) as [H|H];
      pose proof (eq_trans (eq_sym H) Hget) as E; inversion E; subst v.
    unfold calorieData.
    apply (Permutation_in _ (Permutation_sym (sort_perm _ _))).
    apply in_map_iff. exists (d, 0). split; [reflexivity | exact Hin].
  - unfold AIRecommendation.totals. rewrite daysLogged_fold.
    intros [[]|(meal & Hin & Hf & Hd)].
    unfold AIRecommendation.has_food in Hf.
    rewrite (Hnone meal Hin Hd) in Hf. discriminate Hf.
Qed.

Lemma day_without_food_items_is_charted_but_not_counted_witness :
  let meals := Samples.second_day_unjoined in
  calorieData String.compare meals
  = [ {| date := "2025-11-01"; calories := 750 |};
      {| date := "2025-11-02"; calories := 0 |} ]
  /\ AIRecommendation.daysLogged (AIRecommendation.totals meals) = ["2025-11-01"]
  /\ In {| date := "2025-11-02"; calories := 0 |} (calorieData String.compare meals)
  /\ ~ In "2025-11-02"%string
         (AIRecommendation.daysLogged (AIRecommendation.totals meals)).
Proof.
  intros meals. split; [reflexivity|]. split; [reflexivity|].
  apply (day_without_food_items_is_charted_but_not_counted String.compare meals).
  - eexists. split; [right; left; reflexivity | reflexivity].
  - intros meal [<-|[<-|[]]] Hd; [discriminate Hd | reflexivity].
Defined.

End DayWithoutFood.

(** ** More on the policies *)

Section MorePolicyFacts.
Import RLS Access.

Lemma holds_own (uid c : string) (r : Row) :
  holds uid (auth_uid_equals c) r = true -> column c r = Some uid.
Proof.
  cbn [holds]. destruct (column c r) as [v|]; [|discriminate].
  intros H. apply String.eqb_eq in H. now subst.
Qed.

(** X20.  On every table but the food catalogue, whatever the command,
    a policy lets a caller read, change or leave a row only if the
    caller is signed in and the row's owner column ([id] for the
    profiles, [user_id] elsewhere) is the caller's id. *)
Theorem every_policy_is_about_own_rows (t : Table) (c : Command) (who : Caller) (r : Row) :
  t <> food_items ->
  visible who t c r = true \/ checked who t c r = true ->
  exists uid, who = authenticated uid /\ column (owner_column t) r = Some uid.
Proof.
  intros Ht H. destruct who as [|uid]; [destruct H; discriminate|].
  exists uid. split; [reflexivity|].
  destruct t; try congruence; destruct c; destruct H as [H|H];
    cbn in H; try discriminate H;
    rewrite ?orb_false_r in H;
    destruct (column _ r) as [v|] eqn:E; try discriminate H;
    apply String.eqb_eq in H; subst v; first [exact E | reflexivity].
Qed.

Lemma every_policy_is_about_own_rows_witness :
  exists uid, authenticated "user-1" = authenticated uid
              /\ column (owner_column meal_logs) Examples.own_meal = Some uid.
Proof.
  apply (every_policy_is_about_own_rows meal_logs DELETE (authenticated "user-1")
           Examples.own_meal).
  - discriminate.
  - left. reflexivity.
Defined.

(** X21.  The food catalogue is shared and append-only: every signed-in
    caller reads every food item and may add any; no caller can update
    or delete one; an anonymous session can neither read nor add. *)
Theorem food_catalog_is_shared_and_append_only (who : Caller) (uid : string) (r : Row) :
  visible (authenticated uid) food_items SELECT r = true
  /\ admitted (authenticated uid) food_items r = true
  /\ visible who food_items UPDATE r = false
  /\ checked who food_items UPDATE r = false
  /\ visible who food_items DELETE r = false
  /\ visible anon food_items SELECT r = false
  /\ admitted anon food_items r = false.
Proof.
  repeat split; try reflexivity; destruct who; reflexivity.
Qed.

Lemma delete_policy_own (who : Caller) (t : Table) (r : Row) :
  user_table t -> visible who t DELETE r = true ->
  exists uid, who = authenticated uid /\ column "user_id" r = Some uid.
Proof.
  intros Ht H. destruct who as [|uid]; [discriminate|].
  exists uid. split; [reflexivity|].
  destruct Ht as [-> | [-> | ->]]; cbn in H; rewrite orb_false_r in H;
    destruct (column "user_id" r) as [v|]; try discriminate H;
    apply String.eqb_eq in H; now subst.
Qed.

(** X22.  A delete by id, as the delete handlers send it, touches one
    table only and removes exactly the rows of that id that a DELETE
    policy shows to the caller: on the three log tables a row of another
    user stays, whatever the id; on profiles, food items and
    recommendations, which have no DELETE policy, nothing is removed. *)
Theorem delete_removes_own_rows_only
    (who : Caller) (t : Table) (row_id : string) (db : Database) :
  (forall t', t' <> t -> delete who t row_id db t' = db t')
  /\ (forall r, In r (delete who t row_id db t) <->
                In r (db t)
                /\ ~ (visible who t DELETE r = true /\ column "id" r = Some row_id))
  /\ (user_table t ->
      forall r, In r (db t) ->
                (forall uid, who = authenticated uid -> column "user_id" r <> Some uid) ->
                In r (delete who t row_id db t))
  /\ (~ user_table t -> delete who t row_id db t = db t).
Proof.
  assert (Hin : forall r, In r (delete who t row_id db t) <->
                In r (db t)
                /\ ~ (visible who t DELETE r = true /\ column "id" r = Some row_id)).
  { intros r. unfold delete. rewrite table_eqb_refl, filter_In, negb_true_iff,
      andb_false_iff.
    destruct (visible who t DELETE r); destruct (column "id" r) as [v|].
    - destruct (String.eqb v row_id) eqn:E.
      + apply String.eqb_eq in E. subst v. intuition congruence.
      + apply String.eqb_neq in E. intuition congruence.
    - intuition congruence.
    - intuition congruence.
    - intuition congruence. }
  split; [|split; [exact Hin|split]].
  - intros t' Hne. unfold delete.
    destruct (table_eqb t' t) eqn:E; [|reflexivity].
    destruct t', t; try discriminate E; congruence.
  - intros Ht r Hr Hother. apply Hin. split; [exact Hr|].
    intros [Hv _].
    destruct (delete_policy_own who t r Ht Hv) as (uid & Hw & Hc).
    exact (Hother uid Hw Hc).
  - intros Ht. unfold delete. rewrite table_eqb_refl. apply filter_all.
    intros r _. apply negb_true_iff, andb_false_iff. left.
    destruct who as [|uid]; [reflexivity|].
    destruct t; try reflexivity; exfalso; apply Ht; unfold user_table; auto.
Qed.

End MorePolicyFacts.

(** ** The loads of Dashboard, ProgressCharts and MealLogging, and the
       profile form *)

Ltac run_queries :=
  cbv beta iota zeta delta
    [DashboardLoad.loadDashboardData DashboardLoad.setProfile
     DashboardLoad.setTodayCalories DashboardLoad.setTodayMacros
     DashboardLoad.setRecentWeight DashboardLoad.setLoading
     ProfileForm.handleSubmit ProfileForm.syncForm ProfileForm.setLoading
     ProfileForm.setFormData
     ProgressLoad.loadProgressData ProgressLoad.setWeightLogs
     ProgressLoad.setDailyCalories
     FoodLoad.loadFoods FoodLoad.searchEffect FoodLoad.setFoods
     FoodLoad.setFilteredFoods
     Queries.finally Queries.try_catch Queries.bind Queries.request Queries.set
     Queries.now Queries.daysAgo Queries.emit Queries.throw_if_error Queries.throw
     Queries.ret].

Section OtherHandlers.
Import JS Schema Queries.
Variable rt : Runtime.
Variable u : Effects.User.
Variable h : list Event.

(** X23.  Whatever the store answers, one run of [loadDashboardData]
    sends three reads and no write (the profile, the meals from [today]
    to before [today]T23:59:59, the newest weight) and returns normally
    with [loading] false.  The profile becomes the answer's data, null
    included; today's calories and macros become the rounded sums of
    the meals received, and keep their old values when the answer has
    no data; the recent weight becomes the answer's weight or null; the
    active tab stays. *)
Theorem dashboard_load_shows_what_it_fetched (st : DashboardLoad.State) :
  let ask1 := users_profiles_by_id (Effects.id u) in
  let a1 := backend rt h ask1 in
  let h1 := (h ++ [sent ask1 a1])%list in
  let today := split_head "T" (toISOString rt h1) in
  let ask2 := meal_logs_between (Effects.id u) today (today ++ "T23:59:59") in
  let a2 := backend rt h1 ask2 in
  let h2 := (h1 ++ [sent ask2 a2])%list in
  let ask3 := newest_weight (Effects.id u) in
  let a3 := backend rt h2 ask3 in
  DashboardLoad.loadDashboardData rt (Some u) st h
  = (Effects.returned tt,
     {| DashboardLoad.activeTab := DashboardLoad.activeTab st;
        DashboardLoad.profile := profile_of a1;
        DashboardLoad.todayCalories :=
          match meals_of a2 with
          | Some mealsData => Dashboard.calories (Dashboard.todayTotals mealsData)
          | None => DashboardLoad.todayCalories st
          end;
        DashboardLoad.todayMacros :=
          match meals_of a2 with
          | Some mealsData =>
              {| DashboardLoad.protein := Dashboard.protein (Dashboard.todayTotals mealsData);
                 DashboardLoad.carbs := Dashboard.carbs (Dashboard.todayTotals mealsData);
                 DashboardLoad.fats := Dashboard.fats (Dashboard.todayTotals mealsData) |}
          | None => DashboardLoad.todayMacros st
          end;
        DashboardLoad.recentWeight := weight_of a3;
        DashboardLoad.loading := false |},
     h2 ++ [sent ask3 a3])%list.
Proof.
  intros ask1 a1 h1 today ask2 a2 h2 ask3 a3.
  destruct st as [tab prof cal mac rw ld].
  subst a3 ask3 h2 a2 ask2 today h1 a1 ask1.
  run_queries. destruct (meals_of _) as [mealsData|]; reflexivity.
Qed.


Section Progress.
Variable localeCompare : string -> string -> comparison.

(** X25.  Whatever the store answers, one run of [loadProgressData]
    sends two reads and no write, both from the same instant ([period]
    days back: 7, 30 or 365): the weights since its date, then the meals
    since it.  The weight list becomes the weights received and the
    series the [calorieData] of the meals received; each keeps its old
    value when its answer has no data, whatever the other answer. *)
Theorem progress_load_shows_what_it_fetched (st : ProgressLoad.State) :
  let startDate := daysAgo_toISOString rt (ProgressLoad.daysBack (ProgressLoad.period st)) h in
  let ask1 := weight_logs_since (Effects.id u) (split_head "T" startDate) in
  let a1 := backend rt h ask1 in
  let h1 := (h ++ [sent ask1 a1])%list in
  let ask2 := meal_logs_since (Effects.id u) startDate in
  let a2 := backend rt h1 ask2 in
  ProgressLoad.loadProgressData rt (Some u) localeCompare st st h
  = (Effects.returned tt,
     {| ProgressLoad.weightLogs :=
          match weights_of a1 with
          | Some weights => weights
          | None => ProgressLoad.weightLogs st
          end;
        ProgressLoad.dailyCalories :=
          match meals_of a2 with
          | Some meals => ProgressCharts.calorieData localeCompare meals
          | None => ProgressLoad.dailyCalories st
          end;
        ProgressLoad.period := ProgressLoad.period st |},
     h1 ++ [sent ask2 a2])%list.
Proof.
  intros startDate ask1 a1 h1 ask2 a2. destruct st as [ws dc per].
  cbn [ProgressLoad.period] in *.
  subst a2 ask2 h1 a1 ask1 startDate.
  run_queries. cbn [ProgressLoad.period].
  destruct (weights_of _) as [weights|]; destruct (meals_of _) as [meals|];
    reflexivity.
Qed.
End Progress.

Section Foods.
Variable toLowerCase : string -> string.

(** X26.  [loadFoods] sends one read, signed in or not.  With data, the
    catalogue and the shown list both become the data, whatever term is
    typed; the effect that follows shows the data filtered by the term.
    Without data nothing changes. *)
Theorem loaded_foods_are_shown_then_filtered (st : MealLogging.State) :
  let answer := backend rt h food_items_by_name in
  let run := FoodLoad.loadFoods rt st h in
  let loaded := snd (fst run) in
  let shown := snd (fst (FoodLoad.searchEffect toLowerCase loaded loaded (snd run))) in
  snd run = (h ++ [sent food_items_by_name answer])%list
  /\ MealLogging.searchTerm loaded = MealLogging.searchTerm st
  /\ match foods_of answer with
     | Some data =>
         MealLogging.foods loaded = data
         /\ MealLogging.filteredFoods loaded = data
         /\ MealLogging.filteredFoods shown
            = MealSearch.filteredFoods toLowerCase (MealLogging.searchTerm st) data
     | None => loaded = st
     end.
Proof.
  intros answer run loaded shown. subst shown loaded run answer.
  destruct st as [fs ffs term sel srv cat logs ld].
  run_queries.
  destruct (foods_of (backend rt h food_items_by_name)) as [data|];
    cbn; repeat split; reflexivity.
Qed.
End Foods.

End OtherHandlers.

(** ** Signs and order of binary64 values *)

Section Signs.
Import Amounts.
Local Open Scope Z_scope.

Lemma shr_fexp_nonneg (m e : Z) (l : location) :
  0 <= m -> 0 <= shr_m (fst (shr_fexp prec emax m e l)).
Proof.
  intros Hm. unfold shr_fexp, shr.
  destruct (fexp prec emax (Zdigits2 m + e) - e) as [|p|p]; cbn [fst];
    rewrite ?shr_m_of_loc; try exact Hm.
  rewrite iter_shr_1 by (rewrite shr_m_of_loc; exact Hm).
  rewrite shr_m_of_loc. apply Z.div_pos; [exact Hm|].
  apply Z.pow_pos_nonneg; lia.
Qed.

Lemma binary_round_aux_signed (sx : bool) (m e : Z) (l : location) :
  0 <= m -> signed sx (binary_round_aux prec emax sx m e l).
Proof.
  intros Hm. unfold binary_round_aux.
  pose proof (shr_fexp_nonneg m e l Hm) as H'.
  destruct (shr_fexp prec emax m e l) as [mrs' e']. cbn [fst] in H'.
  assert (Hr : 0 <= round_nearest_even (shr_m mrs') (loc_of_shr_record mrs')).
  { unfold round_nearest_even.
    destruct (loc_of_shr_record mrs') as [|[]]; try lia.
    destruct (IntDef.Z.even (shr_m mrs')); lia. }
  pose proof (shr_fexp_nonneg _ e' loc_Exact Hr) as H''.
  destruct (shr_fexp prec emax _ e' loc_Exact) as [mrs'' e'']. cbn [fst] in H''.
  destruct (shr_m mrs'') as [|m''|m'']; cbn [signed]; try reflexivity; try lia.
  destruct (e'' <=? emax - prec); reflexivity.
Qed.

Lemma SFmul_above (x y : spec_float) :
  above x -> above y ->
  (forall s, x <> S754_infinity s) -> (forall s, y <> S754_infinity s) ->
  above (SFmul prec emax x y).
Proof.
  destruct x as [sx|sx| |sx mx ex], y as [sy|sy| |sy my ey];
    cbn [above SFmul]; intros Hx Hy Fx Fy; try tauto;
    try (exfalso; eapply Fx; reflexivity); try (exfalso; eapply Fy; reflexivity).
  subst sx sy. cbn [xorb].
  pose proof (binary_round_aux_signed false (Zpos (mx * my)) (ex + ey) loc_Exact
                ltac:(lia)) as H.
  destruct (binary_round_aux _ _ _ _ _ _); cbn [signed] in H; cbn [above]; tauto.
Qed.

Lemma SFadd_above (x y : spec_float) :
  above x -> above y -> above (SFadd prec emax x y).
Proof.
  destruct x as [sx|sx| |sx mx ex], y as [sy|sy| |sy my ey];
    cbn [above SFadd]; intros Hx Hy; try tauto; try subst; cbn [above]; auto.
  - now destruct sx, sy.
  - cbv zeta. cbn [cond_Zopp]. unfold binary_normalize.
    match goal with |- above (match ?M with _ => _ end) =>
      assert (HM : 0 < M) by (cbn; lia); destruct M as [|a|a]; try lia
    end.
    unfold binary_round.
    destruct (shl_align a _ _) as [mz ez].
    pose proof (binary_round_aux_signed false (Zpos mz) ez loc_Exact ltac:(lia)) as H.
    destruct (binary_round_aux _ _ _ _ _ _); cbn [signed] in H; cbn [above]; tauto.
Qed.

End Signs.

Section Order.
Import Amounts.
Local Open Scope Z_scope.

Lemma by_magnitude_Lt e1 m1 e2 m2 :
  by_magnitude e1 m1 e2 m2 = Lt <-> e1 < e2 \/ (e1 = e2 /\ (m1 < m2)%positive).
Proof.
  unfold by_magnitude. change (Pos.compare_cont Eq m1 m2) with (Pos.compare m1 m2).
  destruct (Z.compare_spec e1 e2); destruct (Pos.compare_spec m1 m2);
    split; intros H'; try discriminate; try reflexivity; try lia.
Qed.

Lemma by_magnitude_Gt e1 m1 e2 m2 :
  by_magnitude e1 m1 e2 m2 = Gt <-> e2 < e1 \/ (e1 = e2 /\ (m2 < m1)%positive).
Proof.
  unfold by_magnitude. change (Pos.compare_cont Eq m1 m2) with (Pos.compare m1 m2).
  destruct (Z.compare_spec e1 e2); destruct (Pos.compare_spec m1 m2);
    split; intros H'; try discriminate; try reflexivity; try lia.
Qed.

Lemma SFltb_finite s1 m1 e1 s2 m2 e2 :
  SFltb (S754_finite s1 m1 e1) (S754_finite s2 m2 e2) = true <->
  match s1, s2 with
  | true, true => by_magnitude e1 m1 e2 m2 = Gt
  | true, false => True
  | false, true => False
  | false, false => by_magnitude e1 m1 e2 m2 = Lt
  end.
Proof.
  unfold SFltb, SFcompare, by_magnitude.
  destruct s1, s2; destruct (e1 ?= e2); destruct (Pos.compare_cont Eq m1 m2); cbn;
    split; intros H; try discriminate; try reflexivity; try contradiction; auto.
Qed.

Lemma SFltb_trans (x y z : spec_float) :
  SFltb x y = true -> SFltb y z = true -> SFltb x z = true.
Proof.
  destruct x as [sx|sx| |sx mx ex], y as [sy|sy| |sy my ey], z as [sz|sz| |sz mz ez];
    try (intros H1 H2; cbn in H1, H2 |- *;
         repeat match goal with s : bool |- _ => destruct s end;
         first [discriminate H1 | discriminate H2 | reflexivity]).
  rewrite !SFltb_finite.
  destruct sx, sy, sz; try tauto;
    rewrite ?by_magnitude_Lt, ?by_magnitude_Gt; lia.
Qed.

Lemma SFltb_irrefl (x : spec_float) : SFltb x x = false.
Proof.
  destruct x as [s|s| |s m e];
    [reflexivity | now destruct s | reflexivity |].
  destruct (SFltb (S754_finite s m e) (S754_finite s m e)) eqn:E; [|reflexivity].
  apply SFltb_finite in E.
  destruct s; [apply by_magnitude_Gt in E | apply by_magnitude_Lt in E]; lia.
Qed.

End Order.

Section FloatOrder.
Local Open Scope float_scope.

Lemma ltb_trans (x y z : float) :
  (x <? y) = true -> (y <? z) = true -> (x <? z) = true.
Proof. rewrite !FloatAxioms.ltb_spec. apply SFltb_trans. Qed.

Lemma ltb_asym (x y : float) : (x <? y) = true -> (y <? x) = false.
Proof.
  intros H. destruct (y <? x) eqn:E; [|reflexivity].
  pose proof (ltb_trans x y x H E) as Hxx.
  rewrite FloatAxioms.ltb_spec, SFltb_irrefl in Hxx. discriminate Hxx.
Qed.

Lemma form_targets_checked :
  forallb (fun n => JS.number_of_Z (Z.of_nat n) * 0.8 <? JS.number_of_Z (Z.of_nat n) * 1.2)
          (seq 1000 4001) = true.
Proof. vm_compute. reflexivity. Qed.

Lemma form_target_thresholds (target : float) :
  Amounts.form_target target -> (target * 0.8 <? target * 1.2) = true.
Proof.
  intros (n & Hn & ->).
  pose proof form_targets_checked as H. rewrite forallb_forall in H.
  specialize (H (Z.to_nat n)). rewrite Z2Nat.id in H by lia.
  apply H. apply in_seq. lia.
Qed.

End FloatOrder.

(** ** The series for meals of plain quantities *)

Section PlainMeals.
Import JS Schema ProgressCharts Amounts.
Local Open Scope float_scope.

Lemma amount_above (x : number) :
  Amounts.amount x = true ->
  above (Prim2SF x) /\ forall s, Prim2SF x <> S754_infinity s.
Proof.
  unfold Amounts.amount. intros H. apply andb_true_iff in H as [Hfin Hlt].
  apply negb_true_iff in Hlt. rewrite FloatAxioms.ltb_spec in Hlt.
  change (Prim2SF 0) with (S754_zero false) in Hlt.
  destruct (finite_cases x Hfin) as [[s H]|(s & m & e & H)]; rewrite H in *.
  - split; [exact I | discriminate].
  - split; [|discriminate]. cbn [above]. destruct s; [discriminate Hlt | reflexivity].
Qed.

Lemma plain_term_above (meal : MealLog.t) :
  Amounts.plain meal = true -> above (Prim2SF (mealCalories meal)).
Proof.
  unfold Amounts.plain, mealCalories.
  destruct (MealLog.food_items meal) as [food|]; [|intros _; exact I].
  intros H. apply andb_true_iff in H as [Hc Hs].
  apply amount_above in Hc as [Hc Fc]. apply amount_above in Hs as [Hs Fs].
  rewrite FloatAxioms.mul_spec. now apply SFmul_above.
Qed.

Lemma above_not_nan (x : number) : above (Prim2SF x) -> PrimFloat.is_nan x = false.
Proof.
  intros H. apply not_nan_Prim2SF. intros E. rewrite E in H. exact H.
Qed.

Lemma or_zero_above (acc : option number) :
  match acc with Some t => above (Prim2SF t) | None => True end ->
  above (Prim2SF (or_zero acc)).
Proof.
  destruct acc as [t|]; cbn [or_zero]; [|intros _; exact I].
  intros H. destruct (truthy t); [exact H | exact I].
Qed.

Lemma totals_of_plain_terms (terms : list number) :
  Forall (fun c => above (Prim2SF c)) terms ->
  forall acc,
    match acc with Some t => above (Prim2SF t) | None => True end ->
    Forall (fun t => PrimFloat.is_nan t = false) (earlierTotals acc terms).
Proof.
  induction 1 as [|c terms Hc _ IH]; intros acc Hacc; [constructor|].
  destruct terms as [|c' terms]; [constructor|].
  cbn [earlierTotals].
  assert (Hnext : above (Prim2SF (or_zero acc + c))).
  { rewrite FloatAxioms.add_spec. apply SFadd_above; [now apply or_zero_above | exact Hc]. }
  constructor; [now apply above_not_nan|].
  apply (IH (Some (or_zero acc + c))). exact Hnext.
Qed.

Lemma running_total_above (terms : list number) :
  Forall (fun c => above (Prim2SF c)) terms ->
  forall acc,
    match acc with Some t => above (Prim2SF t) | None => True end ->
    match fold_left step terms acc with
    | Some t => above (Prim2SF t)
    | None => True
    end.
Proof.
  induction 1 as [|c terms Hc _ IH]; intros acc Hacc; [exact Hacc|].
  cbn [fold_left]. apply IH. unfold step.
  rewrite FloatAxioms.add_spec. apply SFadd_above; [now apply or_zero_above | exact Hc].
Qed.

(** X27.  When the calories and the servings of every meal with a food
    item are quantities (finite, not below zero), no running total is
    [NaN]: every entry of the series is the rounded sum of its date's
    meals, and that sum is neither [NaN] nor below zero. *)
Theorem chart_shows_the_sum_of_plain_meals
    (localeCompare : string -> string -> comparison) (meals : list MealLog.t) :
  forallb Amounts.plain meals = true ->
  forall entry, In entry (calorieData localeCompare meals) ->
    calories entry = Math_round (sum (dayTerms (date entry) meals))
    /\ PrimFloat.is_nan (sum (dayTerms (date entry) meals)) = false
    /\ (sum (dayTerms (date entry) meals) <? 0) = false.
Proof.
  intros Hplain entry Hin. rewrite forallb_forall in Hplain.
  unfold calorieData in Hin.
  apply (Permutation_in _ (sort_perm _ _)) in Hin.
  apply in_map_iff in Hin as ([d v] & <- & Hin). cbn [date calories fst snd].
  pose proof (NoDup_fold meals [] (NoDup_nil _)) as Hnd.
  fold (caloriesByDay meals) in Hnd.
  apply (In_Map_get d v _ Hnd) in Hin.
  unfold caloriesByDay in Hin. rewrite get_fold in Hin. cbn [Map_get] in Hin.
  assert (Hterms : Forall (fun c => above (Prim2SF c)) (dayTerms d meals)).
  { unfold dayTerms. apply Forall_map, Forall_forall. intros meal Hm.
    apply filter_In in Hm as [Hm _]. apply plain_term_above, Hplain, Hm. }
  destruct (dayTerms d meals) as [|c terms] eqn:Et; [discriminate Hin|].
  pose proof (running_sum (c :: terms) None ltac:(discriminate)
                (earlier_totals_kept _ _ (totals_of_plain_terms _ Hterms None I)))
    as Hsum.
  pose proof (running_total_above _ Hterms None I) as Habove.
  pose proof (eq_trans (eq_sym Hin) Hsum) as E. inversion E as [Ev].
  assert (Hv : above (Prim2SF v)).
  { exact (eq_ind _ (fun r => match r with
                                 | Some t => above (Prim2SF t)
                                 | None => True
                                 end) Habove _ Hin). }
  subst v.
  change (sum (c :: terms)) with (fold_left PrimFloat.add terms (PrimFloat.zero + c)).
  set (v := fold_left PrimFloat.add terms (PrimFloat.zero + c)) in *.
  split; [reflexivity|]. split; [now apply above_not_nan|].
  rewrite FloatAxioms.ltb_spec. change (Prim2SF 0) with (S754_zero false).
  destruct (Prim2SF v) as [s|s| |s m e]; cbn [above] in Hv; try subst s;
    try reflexivity; try contradiction.
Qed.

Lemma chart_shows_the_sum_of_plain_meals_witness :
  forallb Amounts.plain Examples.three_meals = true
  /\ calorieData String.compare Examples.three_meals
     = [ {| date := "2025-11-01"; calories := 750 |};
         {| date := "2025-11-02"; calories := 701 |} ]
  /\ 701 = Math_round (sum (dayTerms "2025-11-02" Examples.three_meals)).
Proof.
  assert (H : forallb Amounts.plain Examples.three_meals = true) by reflexivity.
  split; [exact H|]. split; [reflexivity|].
  exact (proj1 (chart_shows_the_sum_of_plain_meals String.compare Examples.three_meals H
                  {| date := "2025-11-02"; calories := 701 |}
                  (or_intror (or_introl eq_refl)))).
Defined.

End PlainMeals.

(** ** The calorie messages for the targets of the profile form *)

Section FormTargets.
Import Text JS Schema AIRecommendation Templates.
Local Open Scope float_scope.

(** X28.  For a calorie target in the range of the profile form, a whole
    number from 1000 to 5000, 0.8 times the target is below 1.2 times
    the target, so the average is never both below the one and above the
    other: below 0.8 times the target the text has the "below" message,
    above 1.2 times the target the "exceeds" message, otherwise the
    "aligned" message, and always one of the three only. *)
Theorem calorie_messages_for_form_targets
    (profile : UserProfile.t) (meals : list MealLog.t)
    (weights : option (list WeightLog.t)) :
  meals <> [] ->
  Amounts.form_target (UserProfile.daily_calorie_target profile) ->
  let text := analyzeAndRecommend (Some profile) (Some meals) weights in
  let avg := avgDailyCalories meals in
  let target := UserProfile.daily_calorie_target profile in
  ((avg <? target * 0.8) = true -> (target * 1.2 <? avg) = false)
  /\ ((avg <? target * 0.8) = true ->
      contains (msg_below avg target) text
      /\ ~ mentions exceeds text /\ ~ mentions aligned text)
  /\ ((target * 1.2 <? avg) = true ->
      contains (msg_exceeds avg target) text
      /\ ~ mentions below text /\ ~ mentions aligned text)
  /\ ((avg <? target * 0.8) = false -> (target * 1.2 <? avg) = false ->
      contains (msg_aligned avg) text
      /\ ~ mentions below text /\ ~ mentions exceeds text).
Proof.
  intros Hne Htarget text avg target. subst text.
  destruct meals as [|m0 ms]; [congruence|].
  pose proof (form_target_thresholds target Htarget) as Hthr.
  assert (Hex : (avg <? target * 0.8) = true -> (target * 1.2 <? avg) = false).
  { intros Hb. destruct (target * 1.2 <? avg) eqn:He; [|reflexivity].
    pose proof (ltb_trans _ _ _ He Hb) as H.
    rewrite (ltb_asym _ _ Hthr) in H. discriminate H. }
  split; [exact Hex|]. split; [|split].
  - intros E1. split; [|split].
    + apply (fires_contains profile (Some (m0 :: ms)) weights below). exact E1.
    + apply not_mentioned. table. fold avg target. now rewrite E1.
    + apply not_mentioned. table. fold avg target. now rewrite E1.
  - intros E2.
    assert (E1 : (avg <? target * 0.8) = false).
    { destruct (avg <? target * 0.8) eqn:E; [|reflexivity].
      rewrite (Hex eq_refl) in E2. discriminate E2. }
    split; [|split].
    + apply (fires_contains profile (Some (m0 :: ms)) weights exceeds).
      table. fold avg target. now rewrite E1, E2.
    + apply not_mentioned. table. fold avg target. exact E1.
    + apply not_mentioned. table. fold avg target. now rewrite E1, E2.
  - intros E1 E2. split; [|split].
    + apply (fires_contains profile (Some (m0 :: ms)) weights aligned).
      table. fold avg target. now rewrite E1, E2.
    + apply not_mentioned. table. fold avg target. exact E1.
    + apply not_mentioned. table. fold avg target. now rewrite E1, E2.
Qed.

Lemma calorie_messages_for_form_targets_witness :
  Examples.feast <> []
  /\ Amounts.form_target (UserProfile.daily_calorie_target (Examples.profile muscle_gain 2000))
  /\ contains "Your average daily intake (2600 cal) exceeds your target (2000 cal). Focus on portion control and choose lower-calorie options."
       (analyzeAndRecommend (Some (Examples.profile muscle_gain 2000))
          (Some Examples.feast) None).
Proof.
  assert (H1 : Examples.feast <> []) by discriminate.
  assert (H2 : Amounts.form_target
                 (UserProfile.daily_calorie_target (Examples.profile muscle_gain 2000)))
    by (exists 2000%Z; split; [lia | reflexivity]).
  split; [exact H1|]. split; [exact H2|].
  exact (proj1 (proj1 (proj2 (proj2 (calorie_messages_for_form_targets
                  (Examples.profile muscle_gain 2000) Examples.feast None H1 H2)))
                  eq_refl)).
Defined.

End FormTargets.
